(** * pythonDependencies.py: a shallow embedding and its verified properties

    The script scans a project for Python files, extracts the imported
    top-level module names from their syntax trees, classifies each name as
    standard library or third party, and writes, checks or upgrades a
    requirements manifest through [pip].

    Modelling conventions.
    - A Python [str] is a [string] whose characters are code points below
      256; the character classes of [str.strip], [str.splitlines] and the
      identifier grammar are the restrictions of Python's to that range.
      Console text keeps the bytes of the source literals.
    - A Python [set] of strings is a [gset string]; the order in which a
      [set] is iterated is not fixed by the language and is a parameter.
    - The interpreter, the parser, the source tree below the project
      directory, [pip] and the clock are capabilities gathered in a record
      [Host]. The source tree is only read. The text files that the tool
      writes and reads back, the console and the state of the Python
      environment are explicit state, a [world]. The manifest is taken not
      to be one of the paths that the scan and the classifier look at; under
      its default name it cannot be.
    - Exceptions are values: a computation returns or raises. A keyboard
      interrupt, which no handler of the script's methods catches, is not
      modelled.
    - [project_dir] is the absolute path that [os.path.abspath] returns,
      on a POSIX system.
    - [main] starts from the arguments that [argparse] has parsed; the
      help text and [os.path.abspath] are parameters. *)

From Stdlib Require Import Ascii NArith DecimalString.
From stdpp Require Import base gmap strings list sorting.

Local Open Scope char_scope.
Local Open Scope stdpp_scope.
Set Warnings "-register-all,-clear-no-such-hyp".

(** ** Python built-ins used by the script *)

Module Py.

Definition LF : ascii := "010".
Definition CR : ascii := "013".

(** [str.isspace] on one character. *)
Definition isspace (c : ascii) : bool :=
  let n := N_of_ascii c in
  ((9 <=? n) && (n <=? 13) || (28 <=? n) && (n <=? 32)
   || (n =? 133) || (n =? 160))%N.

(** Line boundaries of [str.splitlines]. *)
Definition islinebreak (c : ascii) : bool :=
  let n := N_of_ascii c in
  ((10 <=? n) && (n <=? 13) || (28 <=? n) && (n <=? 30) || (n =? 133))%N.

Fixpoint lstrip (s : string) : string :=
  match s with
  | String c s' => if isspace c then lstrip s' else s
  | EmptyString => EmptyString
  end.

Fixpoint rstrip (s : string) : string :=
  match s with
  | String c s' =>
      match rstrip s' with
      | EmptyString => if isspace c then EmptyString else String c EmptyString
      | r => String c r
      end
  | EmptyString => EmptyString
  end.

(** [s.strip()] *)
Definition strip (s : string) : string := rstrip (lstrip s).

(** [s.split(sep)] for a one-character separator, and [re.split] for a
    pattern that is one character class: the string is cut at every
    character satisfying [p]. *)
Fixpoint split_at (p : ascii → bool) (s : string) : list string :=
  match s with
  | EmptyString => [EmptyString]
  | String c s' =>
      if p c then EmptyString :: split_at p s'
      else match split_at p s' with
           | h :: t => String c h :: t
           | [] => [String c EmptyString]
           end
  end.

(** [s.split(sep, 1)] *)
Fixpoint split_once (sep : ascii) (s : string) : list string :=
  match s with
  | EmptyString => [EmptyString]
  | String c s' =>
      if Ascii.eqb c sep then [EmptyString; s']
      else match split_once sep s' with
           | h :: t => String c h :: t
           | [] => [String c EmptyString]
           end
  end.

(** [s.startswith(p)] *)
Definition startswith (p s : string) : bool := String.prefix p s.

(** [s.endswith(p)] *)
Fixpoint endswith (p s : string) : bool :=
  String.eqb s p ||
  match s with
  | String _ s' => endswith p s'
  | EmptyString => false
  end.

(** [sub in s] *)
Fixpoint contains (sub s : string) : bool :=
  String.prefix sub s ||
  match s with
  | String _ s' => contains sub s'
  | EmptyString => false
  end.

(** [sep.join(l)] *)
Definition join (sep : string) (l : list string) : string :=
  String.concat sep l.

(** [s.splitlines()] *)
Fixpoint splitlines (s : string) : list string :=
  match s with
  | EmptyString => []
  | String c s' =>
      if islinebreak c then
        EmptyString ::
          match s' with
          | String c' s'' =>
              if Ascii.eqb c CR && Ascii.eqb c' LF then splitlines s''
              else splitlines s'
          | EmptyString => []
          end
      else match splitlines s' with
           | l :: ls => String c l :: ls
           | [] => [String c EmptyString]
           end
  end.

(** Text-mode reading translates ["\r\n"] and a lone ["\r"] to ["\n"]. *)
Fixpoint universal_newlines (s : string) : string :=
  match s with
  | EmptyString => EmptyString
  | String c s' =>
      if Ascii.eqb c CR then
        String LF
          match s' with
          | String c' s'' =>
              if Ascii.eqb c' LF then universal_newlines s''
              else universal_newlines s'
          | EmptyString => EmptyString
          end
      else String c (universal_newlines s')
  end.

(** The lines of a text, each with its line end. *)
Fixpoint keepends (s : string) : list string :=
  match s with
  | EmptyString => []
  | String c s' =>
      if Ascii.eqb c LF then String c EmptyString :: keepends s'
      else match keepends s' with
           | l :: ls => String c l :: ls
           | [] => [String c EmptyString]
           end
  end.

(** [f.readlines()] on a file opened for reading in text mode. *)
Definition readlines (content : string) : list string :=
  keepends (universal_newlines content).

(** [s] holds no line feed, except possibly as its last character. *)
Fixpoint ends_line (s : string) : bool :=
  match s with
  | EmptyString => true
  | String c s' =>
      if Ascii.eqb c LF then
        match s' with EmptyString => true | _ => false end
      else ends_line s'
  end.

Fixpoint final_newline (s : string) : string :=
  match s with
  | EmptyString => EmptyString
  | String c EmptyString =>
      if Ascii.eqb c LF then s else EmptyString
  | String _ s' => final_newline s'
  end.

(** [re.sub(r'#.*$', '', s)]: [.] matches anything but a line feed and
    [$] matches at the end of the string or before a final line feed, so
    a [#] starts a match exactly when no line feed follows it other than
    a final one. *)
Fixpoint sub_comment (s : string) : string :=
  match s with
  | EmptyString => EmptyString
  | String c s' =>
      if Ascii.eqb c "#" && ends_line s' then final_newline s'
      else String c (sub_comment s')
  end.

(** [sorted(l)] on strings: ascending in the code-point order. *)
Definition sorted (l : list string) : list string :=
  merge_sort String.le l.

(** [os.path.join(a, b)] on a POSIX system. *)
Definition path_join (a b : string) : string :=
  if startswith "/" b then b
  else if String.eqb a "" || endswith "/" a then a +:+ b
  else a +:+ "/" +:+ b.

(** [os.path.basename(p)]: what follows the last slash. *)
Definition basename (p : string) : string :=
  List.last (split_at (Ascii.eqb "/") p) "".

(** [s.lower()] *)
Fixpoint lower (s : string) : string :=
  match s with
  | EmptyString => EmptyString
  | String c s' =>
      let n := N_of_ascii c in
      String (if ((65 <=? n) && (n <=? 90)
                  || (192 <=? n) && (n <=? 222) && negb (n =? 215))%N
              then ascii_of_N (n + 32) else c)
             (lower s')
  end.

End Py.

(** ** The syntax trees of [ast.parse] *)

(** [ast.alias] *)
Record alias := Alias { alias_name : string; alias_asname : option string }.

(** The nodes of a syntax tree as far as the script tells them apart:
    [ast.Import], [ast.ImportFrom], the [ast.alias] nodes below them, and
    every other node with its child nodes. The root is the [ast.Module]
    node, an [AnyNode]. *)
Inductive ast : Type :=
| Import (names : list alias)
| ImportFrom (module : option string) (names : list alias) (level : nat)
| AliasNode (a : alias)
| AnyNode (children : list ast).

(** [ast.iter_child_nodes] *)
Definition iter_child_nodes (node : ast) : list ast :=
  match node with
  | Import names => AliasNode <$> names
  | ImportFrom _ names _ => AliasNode <$> names
  | AliasNode _ => []
  | AnyNode children => children
  end.

(** The number of nodes of a tree. *)
Fixpoint ast_size (node : ast) : nat :=
  match node with
  | Import names => S (length names)
  | ImportFrom _ names _ => S (length names)
  | AliasNode _ => 1
  | AnyNode children =>
      S ((fix sizes (l : list ast) : nat :=
            match l with
            | [] => 0
            | n :: l' => ast_size n + sizes l'
            end) children)
  end.

(** The loop of [ast.walk]: take the first node of the queue, append its
    children to the queue, yield the node. [fuel] bounds the number of
    iterations. *)
Fixpoint walk_queue (fuel : nat) (todo : list ast) : list ast :=
  match fuel, todo with
  | S fuel', node :: rest =>
      node :: walk_queue fuel' (rest ++ iter_child_nodes node)
  | _, _ => []
  end.

(** [ast.walk(tree)]: every node is taken from the queue once, so the size
    of the tree is enough fuel. *)
Definition walk (tree : ast) : list ast :=
  walk_queue (ast_size tree) [tree].

(** What opening, reading and parsing one file gives: a tree, a
    [SyntaxError] of the parser, or any other exception; the errors come
    with their text. *)
Inductive source_file : Type :=
| Parsed (tree : ast)
| SyntaxError (e : string)
| Unanalyzable (e : string).

(** [name.split('.')[0]] *)
Definition root_module (name : string) : string :=
  hd "" (Py.split_at (Ascii.eqb ".") name).

(** The body of the loop over [ast.walk(tree)]. *)
Definition collect_imports (imports : gset string) (node : ast) : gset string :=
  match node with
  | Import names =>
      foldl (λ imports name, {[ root_module (alias_name name) ]} ∪ imports)
            imports names
  | ImportFrom module _ level =>
      match level, module with
      | 0, Some m =>
          if decide (m = "") then imports else {[ root_module m ]} ∪ imports
      | _, _ => imports
      end
  | _ => imports
  end.

(** The part of [extract_imports_from_file] that follows a successful
    parse. *)
Definition imports_of_tree (tree : ast) : gset string :=
  let imports := foldl collect_imports ∅ (walk tree) in
  filter (λ imp, imp ≠ "") imports.

(** ** Exceptions, results and the state of the world *)

Inductive exc_class : Type :=
| ImportError | AttributeError | ValueError | CalledProcessError
| OtherException.

(** A raised exception: its class and [str(e)]. *)
Record exc := Exc { exc_kind : exc_class; exc_str : string }.

Inductive outcome (A : Type) : Type :=
| Returns (a : A)
| Raises (e : exc).
Arguments Returns {A} a.
Arguments Raises {A} e.

(** A path that exists: a text file, or something on which [open], reading
    or writing raises (a directory, a file without permission). *)
Inductive fnode : Type :=
| TextFile (content : string)
| Faulty (e : exc).

(** The console, the files the tool reads and writes, and the state of the
    Python environment ([pip]'s installed packages), of a type [P] left to
    the host. *)
Record world (P : Type) : Type := World {
  console : list string;
  files : gmap string fnode;
  pyenv : P
}.
Arguments World {P} _ _ _.
Arguments console {P} _.
Arguments files {P} _.
Arguments pyenv {P} _.

(** Computations that print, touch files, call [pip] and may raise. What
    was printed and written before an exception stays. *)
Definition M (P A : Type) : Type := world P → outcome A * world P.

#[global] Instance M_ret {P} : MRet (M P) := λ A a w, (Returns a, w).

#[global] Instance M_bind {P} : MBind (M P) :=
  λ A B k m w,
    match m w with
    | (Returns a, w') => k a w'
    | (Raises e, w') => (Raises e, w')
    end.

(** [try: m  except <classes>: handler]; [handler e = None] when the
    [except] clause does not list the class of [e]. *)
Definition try_except {P A} (m : M P A) (handler : exc → option (M P A))
  : M P A :=
  λ w, match m w with
       | (Returns a, w') => (Returns a, w')
       | (Raises e, w') =>
           match handler e with
           | Some h => h w'
           | None => (Raises e, w')
           end
       end.

(** [print(s)] *)
Definition print {P} (s : string) : M P unit :=
  λ w, (Returns (), World (console w ++ [s]) (files w) (pyenv w)).

(** Lifts a result computed without effects. *)
Definition lift {P A} (r : outcome A) : M P A := λ w, (r, w).

(** [for x in l: body(x)] *)
Fixpoint for_each {P A} (l : list A) (body : A → M P unit) : M P unit :=
  match l with
  | [] => mret ()
  | x :: l' => body x;; for_each l' body
  end.

(** A loop that updates local variables [s]. *)
Fixpoint for_fold {P A S} (l : list A) (body : S → A → M P S) (s : S) : M P S :=
  match l with
  | [] => mret s
  | x :: l' => s' ← body s x; for_fold l' body s'
  end.

(** [os.path.exists(path)] for the files of the world. *)
Definition exists_file {P} (path : string) : M P bool :=
  λ w, (Returns (bool_decide (is_Some (files w !! path))), w).

(** [open(path, 'r')] and reading the lines; a missing file raises. *)
Definition read_lines {P} (path : string) : M P (list string) :=
  λ w, match files w !! path with
       | Some (TextFile content) => (Returns (Py.readlines content), w)
       | Some (Faulty e) => (Raises e, w)
       | None => (Raises (Exc OtherException ("[Errno 2] No such file or directory: " +:+ path)), w)
       end.

(** [open(path, 'w')] and writing [content]: the file is replaced. *)
Definition write_file {P} (path content : string) : M P unit :=
  λ w, match files w !! path with
       | Some (Faulty e) => (Raises e, w)
       | _ => (Returns (),
               World (console w) (<[path := TextFile content]> (files w)) (pyenv w))
       end.

(** ** The capabilities of the host *)

(** What [os.walk] sees below a directory: its sub-directories and its
    other entries, by name, in the order of the listing. *)
Inductive dirtree : Type :=
| Dir (subdirs : list (string * dirtree)) (entries : list string).

(** [importlib.machinery.ModuleSpec], as far as the script reads it. *)
Record ModuleSpec := { origin : option string }.

(** [subprocess.CompletedProcess] *)
Record CompletedProcess := { returncode : Z; stdout : string }.

(** [datetime.datetime] *)
Record datetime := {
  year : nat; month : nat; day : nat;
  hour : nat; minute : nat; second : nat
}.

(** An order of iteration over sets of strings: some enumeration of the
    elements, each once. *)
Record set_iteration := {
  iterate :> gset string → list string;
  iterate_perm : ∀ s, iterate s ≡ₚ elements s
}.

Record Host (P : Type) : Type := {
  (** [sys.builtin_module_names] *)
  builtin_module_names : list string;
  (** [__file__] *)
  script_file : string;
  (** [os.path.exists] and [os.path.isdir] on the source tree *)
  path_exists : string → bool;
  path_isdir : string → bool;
  (** the directory tree that [os.walk(top)] traverses *)
  directory : string → dirtree;
  (** [open(path, 'r', encoding='utf-8')], [file.read()] and
      [ast.parse] on the result *)
  open_parse : string → source_file;
  (** [os.path.relpath(path, start)]; [start = None] is the working
      directory *)
  relpath : string → option string → string;
  (** [importlib.util.find_spec(name)]; [None] when nothing is found *)
  find_spec : P → string → outcome (option ModuleSpec);
  (** [subprocess.run(['pip', 'show', name], ...)] *)
  pip_show : P → string → outcome CompletedProcess;
  (** [subprocess.check_call(['pip', 'install', package])] *)
  pip_install : string → P → outcome () * P;
  (** [subprocess.check_call([sys.executable, '-m', 'pip', 'install',
      '--upgrade', package])] *)
  pip_upgrade : string → P → outcome () * P;
  (** [datetime.now()] *)
  now : datetime;
  (** the iteration order of sets in this process *)
  set_order : set_iteration;
  (** [input(prompt)] *)
  input : outcome string
}.
Arguments builtin_module_names {P} _.
Arguments script_file {P} _.
Arguments path_exists {P} _ _.
Arguments path_isdir {P} _ _.
Arguments directory {P} _ _.
Arguments open_parse {P} _ _.
Arguments relpath {P} _ _ _.
Arguments find_spec {P} _ _ _.
Arguments pip_show {P} _ _ _.
Arguments pip_install {P} _ _ _.
Arguments pip_upgrade {P} _ _ _.
Arguments now {P} _.
Arguments set_order {P} _.
Arguments input {P} _.

(** The host of a later run of the script: another time, another order
    of iteration over sets. *)
Definition later_run {P} (h : Host P) (t : datetime) (o : set_iteration)
  : Host P :=
  {| builtin_module_names := builtin_module_names h;
     script_file := script_file h;
     path_exists := path_exists h;
     path_isdir := path_isdir h;
     directory := directory h;
     open_parse := open_parse h;
     relpath := relpath h;
     find_spec := find_spec h;
     pip_show := pip_show h;
     pip_install := pip_install h;
     pip_upgrade := pip_upgrade h;
     now := t;
     set_order := o;
     input := input h |}.

(** [os.walk(top)] with the pruning the caller does on [dirs] in place:
    the list of [(root, files)] in the order of the traversal, top down. *)
Fixpoint os_walk (keep : string → bool) (top : string) (t : dirtree)
  : list (string * list string) :=
  match t with
  | Dir subdirs entries =>
      (top, entries) ::
      flat_map (λ d, if keep d.1 then os_walk keep (Py.path_join top d.1) d.2
                     else [])
               subdirs
  end.

(** [str(n)] for a natural number. *)
Definition str_of_nat (n : nat) : string :=
  DecimalString.NilZero.string_of_uint (Nat.to_uint n).

(** Padding with zeros on the left, as [%Y], [%m], [%d], ... do. *)
Definition zero_pad (width : nat) (s : string) : string :=
  String.string_of_list_ascii (replicate (width - String.length s) "0"%char)
  +:+ s.

(** [t.strftime('%Y-%m-%d %H:%M:%S')] *)
Definition strftime (t : datetime) : string :=
  zero_pad 4 (str_of_nat (year t)) +:+ "-" +:+
  zero_pad 2 (str_of_nat (month t)) +:+ "-" +:+
  zero_pad 2 (str_of_nat (day t)) +:+ " " +:+
  zero_pad 2 (str_of_nat (hour t)) +:+ ":" +:+
  zero_pad 2 (str_of_nat (minute t)) +:+ ":" +:+
  zero_pad 2 (str_of_nat (second t)).

(** ** The script *)

(** Mapping of module names to package names. *)
Definition MODULE_TO_PACKAGE : gmap string string :=
  list_to_map [
    ("bs4", "beautifulsoup4");
    ("requests_oauthlib", "requests-oauthlib");
    ("flask_cors", "Flask-Cors");
    ("flask_sqlalchemy", "Flask-SQLAlchemy");
    ("flask_login", "Flask-Login");
    ("flask_wtf", "Flask-WTF");
    ("flask_migrate", "Flask-Migrate");
    ("flask_restful", "Flask-RESTful");
    ("matplotlib.pyplot", "matplotlib");
    ("sklearn", "scikit-learn");
    ("joblib", "scikit-learn");
    ("tensorflow.keras", "tensorflow");
    ("dotenv", "python-dotenv");
    ("yaml", "pyyaml");
    ("crypto", "pycryptodome");
    ("dateutil", "python-dateutil");
    ("sqlalchemy", "SQLAlchemy");
    ("psycopg2", "psycopg2-binary");
    ("telegram", "python-telegram-bot");
    ("discord", "discord.py");
    ("firebase_admin", "firebase-admin");
    ("tkinter", "tk");
    ("PIL", "pillow");
    ("cv2", "opencv-python");
    ("skimage", "scikit-image");
    ("unittest", "unittest2");
    ("docx", "python-docx");
    ("pptx", "python-pptx")
  ].

(** The modules commonly included in the standard library, the local
    [stdlib_modules] of [is_standard_library]. *)
Definition stdlib_modules : gset string :=
  list_to_set [
    "abc"; "argparse"; "array"; "ast"; "asyncio"; "base64"; "builtins"; "calendar";
    "collections"; "concurrent"; "contextlib"; "copy"; "csv"; "ctypes"; "datetime";
    "decimal"; "difflib"; "email"; "enum"; "fileinput"; "fnmatch"; "fractions";
    "functools"; "gc"; "getopt"; "getpass"; "glob"; "hashlib"; "heapq"; "hmac";
    "html"; "http"; "importlib"; "inspect"; "io"; "itertools"; "json"; "logging";
    "math"; "mimetypes"; "multiprocessing"; "netrc"; "numbers"; "operator"; "os";
    "pathlib"; "pickle"; "platform"; "pprint"; "queue"; "random"; "re"; "readline";
    "reprlib"; "select"; "shlex"; "shutil"; "signal"; "socket"; "sqlite3";
    "statistics"; "string"; "struct"; "subprocess"; "sys"; "tempfile"; "threading";
    "time"; "timeit"; "tkinter"; "token"; "tokenize"; "traceback"; "typing";
    "unittest"; "urllib"; "uuid"; "venv"; "warnings"; "wave"; "weakref";
    "webbrowser"; "xml"; "xmlrpc"; "zipfile"; "zipimport"; "zlib"
  ].

(** The attributes of a [DependenciesManager]. *)
Record DependenciesManager := {
  project_dir : string;
  requirements_file : string;
  module_to_package : gmap string string
}.

(** [DependenciesManager.__init__]; [project_dir] is given as
    [os.path.abspath] returns it. *)
Definition init (project_dir requirements_file : string) : DependenciesManager :=
  {| project_dir := project_dir;
     requirements_file := Py.path_join project_dir requirements_file;
     module_to_package := MODULE_TO_PACKAGE |}.

(** The directories that the scan does not enter. *)
Definition ignored_dirs : list string :=
  [".git"; ".venv"; "venv"; "__pycache__"; ".idea"; ".vscode"].

(** The character class of [re.split(r'[=<>~!]', ...)]. *)
Definition is_operator_char (c : ascii) : bool :=
  bool_decide (c ∈ ["="; "<"; ">"; "~"; "!"]%char).

(** [re.split(r'[=<>~!]', package)[0].strip()] *)
Definition base_package (package : string) : string :=
  Py.strip (hd "" (Py.split_at is_operator_char package)).

(** [re.sub(r'#.*$', '', req).strip()] *)
Definition clean_line (req : string) : string :=
  Py.strip (Py.sub_comment req).

(** The truth value of an optional string: neither [None] nor empty. *)
Definition truthy (v : option string) : bool :=
  match v with
  | Some s => negb (String.eqb s "")
  | None => false
  end.

Section Script.

Context {P : Type} (h : Host P).

(** Reads the Python environment. *)
Definition ask {A} (f : P → A) : M P A := λ w, (Returns (f (pyenv w)), w).

(** Runs a command that changes the Python environment. *)
Definition call (f : P → outcome () * P) : M P () :=
  λ w, let (r, env) := f (pyenv w) in
       (r, World (console w) (files w) env).

(** Extracts all imports from a Python file. *)
Definition extract_imports_from_file (self : DependenciesManager)
    (file_path : string) : M P (gset string) :=
  match open_parse h file_path with
  | SyntaxError e =>
      print ("Syntax error in " +:+ file_path +:+ ": " +:+ e);;
      mret ∅
  | Parsed tree => mret (imports_of_tree tree)
  | Unanalyzable e =>
      print ("Error analyzing " +:+ file_path +:+ ": " +:+ e);;
      mret ∅
  end.

(** [except (ImportError, AttributeError, ValueError)] *)
Definition lookup_error (e : exc) : bool :=
  match exc_kind e with
  | ImportError | AttributeError | ValueError => true
  | _ => false
  end.

(** ['site-packages' not in origin and ('lib' in origin or 'lib-dynload'
    in origin)] *)
Definition in_standard_location (origin : string) : bool :=
  negb (Py.contains "site-packages" origin)
  && (Py.contains "lib" origin || Py.contains "lib-dynload" origin).

(** Checks if a module belongs to the Python standard library. *)
Definition is_standard_library (self : DependenciesManager) (env : P)
    (module_name : string) : outcome bool :=
  let fallback := Returns (bool_decide (module_name ∈ stdlib_modules)) in
  if bool_decide (module_name ∈ builtin_module_names h) then Returns true
  else if path_exists h (Py.path_join (project_dir self) (module_name +:+ ".py"))
  then Returns true
  else if path_exists h (Py.path_join (project_dir self) module_name)
          && path_isdir h (Py.path_join (project_dir self) module_name)
          && path_exists h (Py.path_join (Py.path_join (project_dir self) module_name)
                                         "__init__.py")
  then Returns true
  else
    match find_spec h env module_name with
    | Returns None => Returns false
    | Returns (Some spec) =>
        if truthy (origin spec) && in_standard_location (default "" (origin spec))
        then Returns true
        else fallback
    | Raises e => if lookup_error e then fallback else Raises e
    end.

(** The loop over the lines of [pip show]: the first line that starts
    with [Version:] decides. *)
Fixpoint version_field (lines : list string) : option string :=
  match lines with
  | [] => None
  | line :: rest =>
      if Py.startswith "Version:" line
      then Py.strip <$> (Py.split_once ":" line !! 1)
      else version_field rest
  end.

(** Gets the version of an installed package using pip. Every exception
    gives [None]. *)
Definition get_package_version (env : P) (package_name : string)
  : option string :=
  match pip_show h env package_name with
  | Returns result =>
      if bool_decide (returncode result ≠ 0%Z) then None
      else version_field (Py.splitlines (stdout result))
  | Raises _ => None
  end.

(** Gets information about an installed package. *)
Definition get_package_info (self : DependenciesManager) (env : P)
    (module_name : string) : string :=
  let package_name := default module_name (module_to_package self !! module_name) in
  let version := get_package_version env package_name in
  if truthy version then package_name +:+ ">=" +:+ default "" version
  else package_name.

(** The body of the loop over the files of one directory; the local
    variables are [all_imports] and [file_count]. *)
Definition analyze_file (self : DependenciesManager) (root : string)
    (vars : gset string * nat) (file : string) : M P (gset string * nat) :=
  if Py.endswith ".py" file then
    let file_path := Py.path_join root file in
    let relative_path := relpath h file_path (Some (project_dir self)) in
    if String.eqb (Py.basename file_path) (Py.basename (script_file h))
    then mret vars
    else
      print ("  Analyzing: " +:+ relative_path);;
      file_imports ← extract_imports_from_file self file_path;
      mret (vars.1 ∪ file_imports, S vars.2)
  else mret vars.

(** The walk through all [.py] files of the directory and its
    sub-directories. *)
Definition analyze_project (self : DependenciesManager) : M P (gset string * nat) :=
  for_fold
    (os_walk (λ d, bool_decide (d ∉ ignored_dirs)) (project_dir self)
             (directory h (project_dir self)))
    (λ vars step, for_fold step.2 (analyze_file self step.1) vars)
    (∅, 0).

(** One step of the set comprehension below: [imp] is kept when
    [self.is_standard_library(imp)] is false. *)
Definition keep_third_party (self : DependenciesManager)
    (third_party : gset string) (imp : string) : M P (gset string) :=
  std ← (λ w, (is_standard_library self (pyenv w) imp, w));
  mret (if std : bool then third_party else {[ imp ]} ∪ third_party).

(** [{imp for imp in all_imports if not self.is_standard_library(imp)}] *)
Definition third_party_of (self : DependenciesManager)
    (all_imports : gset string) : M P (gset string) :=
  for_fold (set_order h all_imports) (keep_third_party self) ∅.

(** The body of the loop over [sorted(third_party)]; the local variables
    are [requirements] and [not_installed_packages]. *)
Definition resolve_module (self : DependenciesManager)
    (vars : list string * list string) (module : string)
  : M P (list string * list string) :=
  let package_name := default module (module_to_package self !! module) in
  version ← ask (λ env, get_package_version env package_name);
  if truthy version then
    let req := package_name +:+ ">=" +:+ default "" version in
    print ("  ✓ " +:+ req +:+ " (installed)");;
    mret (vars.1 ++ [req], vars.2)
  else
    print ("  ! " +:+ package_name +:+ " (not installed)");;
    mret (vars.1 ++ [package_name], vars.2 ++ [package_name]).

(** The line end that the script writes. *)
Definition NL : string := String Py.LF "".

(** The warning written when a detected package is not installed. *)
Definition warning_block : string :=
  "# WARNING: The following packages were detected in your code but are not installed." +:+ NL +:+
  "# Install them and regenerate this file to include version numbers." +:+ NL +:+
  "# You can install all dependencies with: pip install -r requirements.txt" +:+ NL +:+ NL.

(** What the [with open(output_file, 'w')] block writes. *)
Definition manifest_text (self : DependenciesManager)
    (requirements not_installed_packages : list string) : string :=
  "# Automatically generated by pythonDependencies.py" +:+ NL +:+
  "# Date: " +:+ strftime (now h) +:+ NL +:+
  "# Project: " +:+ Py.basename (project_dir self) +:+ NL +:+ NL +:+
  (if bool_decide (not_installed_packages = []) then "" else warning_block) +:+
  String.concat "" ((λ req, req +:+ NL) <$> requirements).

(** The part of [generate_requirements] that follows the detection of
    a non-empty set [third_party]: the versions, the manifest and the
    report. *)
Definition write_requirements (self : DependenciesManager)
    (output_file : string) (third_party : gset string) (file_count : nat)
  : M P bool :=
  print (NL +:+ "Detected " +:+ str_of_nat (size third_party)
         +:+ " external dependencies:");;
  '(requirements, not_installed_packages) ←
    for_fold (Py.sorted (set_order h third_party))
             (resolve_module self) ([], []);
  write_file output_file
    (manifest_text self requirements not_installed_packages);;
  print (NL +:+ "File " +:+ relpath h output_file None
         +:+ " successfully generated.");;
  print ("It contains " +:+ str_of_nat (length requirements)
         +:+ " dependencies detected in " +:+ str_of_nat file_count
         +:+ " Python files.");;
  (if bool_decide (not_installed_packages = []) then mret ()
   else
     print (NL +:+ "WARNING: Some packages used in your code are not installed in your environment.");;
     print "These packages are included in requirements.txt but without version numbers.";;
     print "After installing all dependencies, you should regenerate this file to include versions.";;
     print (NL +:+ "To install all dependencies: pip install -r "
            +:+ Py.basename output_file));;
  mret true.

(** Generates a requirements.txt file based on code imports. *)
Definition generate_requirements (self : DependenciesManager)
    (output_file : option string) : M P bool :=
  let output_file := default (requirements_file self) output_file in
  print "Analyzing Python files to detect imports...";;
  '(all_imports, file_count) ← analyze_project self;
  if bool_decide (file_count = 0) then
    print ("No Python files found to analyze in " +:+ project_dir self);;
    mret false
  else
    third_party ← third_party_of self all_imports;
    if bool_decide (third_party = ∅) then
      print "No third-party libraries detected in the code.";;
      mret false
    else write_requirements self output_file third_party file_count.

(** [except Exception as e] with the message the handler prints. *)
Definition except_Exception (message : string) (e : exc) : option (M P bool) :=
  Some (print (message +:+ exc_str e);; mret false).

(** The lines of the manifest without comments and empty lines. *)
Definition manifest_packages (requirements : list string) : list string :=
  filter (λ req, req ≠ "") (clean_line <$> requirements).

(** The body of the loop that checks each package; the local variable
    is [missing_packages]. *)
Definition check_package (missing_packages : list string) (package : string)
  : M P (list string) :=
  let base_package := base_package package in
  version ← ask (λ env, get_package_version env base_package);
  if truthy version then
    print ("✓ " +:+ base_package +:+ " is already installed (version "
           +:+ default "" version +:+ ")");;
    mret missing_packages
  else mret (missing_packages ++ [package]).

(** The body of the loop that installs each missing package; the local
    variable is [success]. *)
Definition install_package (success : bool) (package : string) : M P bool :=
  try_except
    (print ("Installing " +:+ package +:+ "...");;
     call (pip_install h package);;
     print ("✓ " +:+ package +:+ " successfully installed.");;
     mret success)
    (λ e, match exc_kind e with
          | CalledProcessError =>
              Some (print ("✗ Error installing " +:+ package
                           +:+ ". Try installing it manually.");;
                    mret false)
          | _ => None
          end).

(** Checks and installs the dependencies from the requirements.txt
    file. *)
Definition check_and_install_dependencies (self : DependenciesManager)
    (auto_install : bool) : M P bool :=
  print (NL +:+ "==========================================");;
  print "   PYTHON DEPENDENCIES CHECKER";;
  print ("==========================================" +:+ NL);;
  found ← exists_file (requirements_file self);
  if negb found then
    print ("Error: File " +:+ requirements_file self +:+ " not found.");;
    print ("You can generate it with the --generate option." +:+ NL);;
    mret false
  else
    try_except
      (requirements ← read_lines (requirements_file self);
       let packages := manifest_packages requirements in
       if bool_decide (packages = []) then
         print ("No dependencies found in the file." +:+ NL);;
         mret true
       else
         print ("Found " +:+ str_of_nat (length packages)
                +:+ " dependencies to check...");;
         missing_packages ← for_fold packages check_package [];
         if bool_decide (missing_packages = []) then
           print (NL +:+ "✅ All dependencies are correctly installed.");;
           mret true
         else
           print (NL +:+ "Missing " +:+ str_of_nat (length missing_packages)
                  +:+ " dependencies: " +:+ Py.join ", " missing_packages);;
           if negb auto_install then
             print (NL +:+ "You can install them manually with:");;
             print ("pip install " +:+ Py.join " " missing_packages);;
             mret false
           else
             print (NL +:+ "Installing missing dependencies...");;
             success ← for_fold missing_packages install_package true;
             if success : bool then
               print (NL +:+ "✅ All missing dependencies have been installed.");;
               print "You should restart your application to load the new libraries.";;
               mret true
             else
               print (NL +:+ "⚠️ Some dependencies could not be installed.");;
               mret false)
      (except_Exception "Error checking dependencies: ").

(** The body of the loop that upgrades each package. *)
Definition update_package (package : string) : M P () :=
  try_except
    (print ("Updating " +:+ package +:+ "...");;
     call (pip_upgrade h package);;
     print ("✓ " +:+ package +:+ " successfully updated."))
    (λ e, match exc_kind e with
          | CalledProcessError => Some (print ("✗ Error updating " +:+ package +:+ "."))
          | _ => None
          end).

(** Updates all dependencies to their latest versions. *)
Definition update_dependencies (self : DependenciesManager) : M P bool :=
  print (NL +:+ "==========================================");;
  print "   PYTHON DEPENDENCIES UPDATER";;
  print ("==========================================" +:+ NL);;
  found ← exists_file (requirements_file self);
  if negb found then
    print ("Error: File " +:+ requirements_file self +:+ " not found.");;
    print ("You can generate it with the --generate option." +:+ NL);;
    mret false
  else
    try_except
      (requirements ← read_lines (requirements_file self);
       let packages := base_package <$> manifest_packages requirements in
       if bool_decide (packages = []) then
         print ("No dependencies found to update." +:+ NL);;
         mret true
       else
         print ("Updating " +:+ str_of_nat (length packages)
                +:+ " packages to their latest versions...");;
         for_each packages update_package;;
         print (NL +:+ "Update completed.");;
         print "Do you want to update the requirements.txt file with the new versions? (y/n): ";;
         regenerate ← lift (input h);
         if bool_decide (Py.lower regenerate ∈ ["y"; "yes"])
         then generate_requirements self None
         else mret true)
      (except_Exception "Error updating dependencies: ").

End Script.

Arguments ask {P A} f.
Arguments call {P} f.

(** ** What the parser guarantees *)

(** The characters that start and continue an identifier ([XID_Start]
    with the underscore, and [XID_Continue]), among the code points
    below 256. *)
Definition is_identifier_start (c : ascii) : bool :=
  let n := N_of_ascii c in
  ((65 <=? n) && (n <=? 90) || (97 <=? n) && (n <=? 122) || (n =? 95)
   || (n =? 170) || (n =? 181) || (n =? 186)
   || (192 <=? n) && (n <=? 214) || (216 <=? n) && (n <=? 246)
   || (248 <=? n) && (n <=? 255))%N.

Definition is_identifier_char (c : ascii) : bool :=
  let n := N_of_ascii c in
  is_identifier_start c || ((48 <=? n) && (n <=? 57) || (n =? 183))%N.

Fixpoint all_chars (p : ascii → bool) (s : string) : bool :=
  match s with
  | EmptyString => true
  | String c s' => p c && all_chars p s'
  end.

Definition is_identifier (s : string) : bool :=
  match s with
  | EmptyString => false
  | String c s' => is_identifier_start c && all_chars is_identifier_char s'
  end.

(** [dotted_name: NAME ('.' NAME)*] *)
Definition is_dotted_name (s : string) : bool :=
  forallb is_identifier (Py.split_at (Ascii.eqb ".") s).

(** The shape of the import nodes of a tree that [ast.parse] returns: the
    grammar gives every [import] a dotted name, and a [from] either a
    dotted name or a positive level (or both). *)
Fixpoint well_formed (tree : ast) : bool :=
  match tree with
  | Import names => forallb (λ a, is_dotted_name (alias_name a)) names
  | ImportFrom module _ level =>
      match module with
      | Some m => is_dotted_name m
      | None => negb (Nat.eqb level 0)
      end
  | AliasNode _ => true
  | AnyNode children => forallb well_formed children
  end.

(** Every file that parses has a tree of that shape. *)
Definition parser_sound {P} (h : Host P) : Prop :=
  ∀ path tree, open_parse h path = Parsed tree → well_formed tree = true.

(** ** The statements of the specification *)

(** All nodes of a tree, the tree itself first. *)
Fixpoint subtrees (tree : ast) : list ast :=
  tree ::
  match tree with
  | Import names | ImportFrom _ names _ => AliasNode <$> names
  | AliasNode _ => []
  | AnyNode children => flat_map subtrees children
  end.

(** The root of a dotted module name, in the words of the specification:
    the segment before the first dot, the whole name when it has no
    dot. *)
Fixpoint root_segment (name : string) : string :=
  match name with
  | EmptyString => EmptyString
  | String c rest =>
      if Ascii.eqb c "." then EmptyString else String c (root_segment rest)
  end.

(** The root module names that one statement refers to, in the words of
    the specification: an [import] refers to the root of each of its
    targets, a [from X import Y] at level 0 to the root of [X], and a
    relative import (a positive level, or no module) to nothing. *)
Definition statement_roots (node : ast) : gset string :=
  match node with
  | Import names => list_to_set ((λ a, root_segment (alias_name a)) <$> names)
  | ImportFrom (Some m) _ 0 => {[ root_segment m ]}
  | _ => ∅
  end.

(** The root module names referenced by the import statements of a
    file. *)
Definition import_roots (tree : ast) : gset string :=
  ⋃ (statement_roots <$> subtrees tree).

(** A relative import: a [from] with a positive level or without a
    module. *)
Definition is_relative_import (node : ast) : bool :=
  match node with
  | ImportFrom module _ level =>
      negb (Nat.eqb level 0) || bool_decide (module = None)
  | _ => false
  end.

(** The tree without its relative imports. *)
Fixpoint without_relative_imports (tree : ast) : ast :=
  match tree with
  | AnyNode children =>
      AnyNode ((fix go (l : list ast) : list ast :=
                  match l with
                  | [] => []
                  | c :: l' =>
                      if is_relative_import c then go l'
                      else without_relative_imports c :: go l'
                  end) children)
  | _ => tree
  end.

(** Check (2) of the classifier: a file of that name, or a package
    directory, at the project root. *)
Definition is_local_module {P} (h : Host P) (self : DependenciesManager)
    (name : string) : bool :=
  path_exists h (Py.path_join (project_dir self) (name +:+ ".py"))
  || path_exists h (Py.path_join (project_dir self) name)
     && path_isdir h (Py.path_join (project_dir self) name)
     && path_exists h (Py.path_join (Py.path_join (project_dir self) name)
                                    "__init__.py").



(** A manifest entry is missing when its base name has no resolvable
    installed version. *)
Definition is_missing {P} (h : Host P) (env : P) (package : string) : bool :=
  negb (truthy (get_package_version h env (base_package package))).

(** The missing packages of a manifest. *)
Definition missing_of {P} (h : Host P) (env : P) (content : string)
  : list string :=
  filter (λ p, is_missing h env p = true)
         (manifest_packages (Py.readlines content)).

(** The manifest in the words of the specification. A line holds a
    specifier [<name>] or [<name><op><version>], where the operator is one
    of [==], [>=], [<=], [~=], [!=], [<] and [>], and possibly a comment,
    from a [#] to the end of the line. *)

(** The characters that begin an operator. *)
Definition begins_operator (c : ascii) : bool :=
  Ascii.eqb c "=" || Ascii.eqb c "<" || Ascii.eqb c ">"
  || Ascii.eqb c "~" || Ascii.eqb c "!".

(** What stands before the operator of a specifier. *)
Fixpoint before_operator (s : string) : string :=
  match s with
  | EmptyString => EmptyString
  | String c s' =>
      if begins_operator c then EmptyString else String c (before_operator s')
  end.

(** The base name of a specifier: what stands before its operator, without
    the white space around it. *)
Definition specifier_name (entry : string) : string :=
  Py.strip (before_operator entry).

(** What stands before the comment of a line. *)
Fixpoint before_comment (line : string) : string :=
  match line with
  | EmptyString => EmptyString
  | String c s' =>
      if Ascii.eqb c "#" then EmptyString else String c (before_comment s')
  end.

(** The entries of a manifest: its lines without their comment and the
    white space around them, those that are not empty. *)
Definition manifest_entries (content : string) : list string :=
  filter (λ entry, entry ≠ "")
         ((λ line, Py.strip (before_comment line)) <$> Py.readlines content).

(** The missing entries: those whose base name has no resolvable installed
    version. *)
Definition missing_entries {P} (h : Host P) (env : P) (content : string)
  : list string :=
  filter (λ entry,
            truthy (get_package_version h env (specifier_name entry)) = false)
         (manifest_entries content).

(** Every package of the list installs successfully, one after the
    other. *)
Fixpoint every_install_succeeds {P} (h : Host P) (packages : list string)
    (env : P) : bool :=
  match packages with
  | [] => true
  | package :: rest =>
      match pip_install h package env with
      | (Returns _, env') => every_install_succeeds h rest env'
      | (Raises _, _) => false
      end
  end.

(** A comment line or a blank line of a manifest. *)
Definition is_comment_or_blank (line : string) : bool :=
  match Py.lstrip line with
  | EmptyString => true
  | String c _ => Ascii.eqb c "#"
  end.

Definition only_comments_and_blanks (content : string) : bool :=
  forallb is_comment_or_blank (Py.readlines content).

(** A text without carriage return and line feed. *)
Definition one_line (s : string) : bool :=
  all_chars (λ c, negb (Ascii.eqb c Py.CR) && negb (Ascii.eqb c Py.LF)) s.

(** The world with more printed on the console. *)
Definition printed {P} (w : world P) (out : list string) : world P :=
  World (console w ++ out) (files w) (pyenv w).

(** The value a computation gives in a world. *)
Definition value_of {P A} (m : M P A) (w : world P) : outcome A := (m w).1.

(** ** A sample project and host *)

Module Demo.

(** The installed distributions with their versions. *)
Definition env : Type := list (string * string).

Definition installed (e : env) (name : string) : option string :=
  (λ r, r.2.2) <$> list_find (λ d, d.1 = name) e.

Definition shows (e : env) (name : string) : outcome CompletedProcess :=
  match installed e name with
  | Some v =>
      Returns {| returncode := 0;
                 stdout := "Name: " +:+ name +:+ NL +:+
                           "Version: " +:+ v +:+ NL +:+
                           "Summary: a package" +:+ NL |}
  | None => Returns {| returncode := 1; stdout := "" |}
  end.

(** [pip] has no distribution called [nonexistent-package-xyz]. *)
Definition installs (package : string) (e : env) : outcome () * env :=
  if String.eqb (base_package package) "nonexistent-package-xyz"
  then (Raises (Exc CalledProcessError "Command returned non-zero exit status 1."), e)
  else (Returns (), (base_package package, "1.0") :: e).

Definition finds (e : env) (name : string) : outcome (option ModuleSpec) :=
  if bool_decide (name ∈ ["os"; "json"; "re"]) then
    Returns (Some {| origin := Some ("/usr/lib/python3.11/" +:+ name +:+ ".py") |})
  else if bool_decide (name = "requests") then
    Returns (Some {| origin := Some "/usr/lib/python3.11/site-packages/requests/__init__.py" |})
  else if bool_decide (name = "hooked") then
    Raises (Exc OtherException "finder failed")
  else if bool_decide (name = "half_loaded") then
    Raises (Exc ValueError "half_loaded.__spec__ is None")
  else Returns None.

Definition main_py : ast :=
  AnyNode [
    Import [Alias "bs4" None; Alias "os.path" (Some "osp")];
    ImportFrom (Some "sklearn.linear_model") [Alias "Ridge" None] 0;
    ImportFrom None [Alias "sibling" None] 1;
    ImportFrom (Some "helpers") [Alias "f" None] 2;
    AnyNode [Import [Alias "joblib" None]; ImportFrom (Some "utils") [Alias "g" None] 0]
  ].

Definition tools_py : ast :=
  AnyNode [Import [Alias "requests" None; Alias "json" None]].

Definition parses (path : string) : source_file :=
  if String.eqb path "/home/u/shop/main.py" then Parsed main_py
  else if String.eqb path "/home/u/shop/lib/tools.py" then Parsed tools_py
  else if String.eqb path "/home/u/shop/lib/broken.py"
  then SyntaxError "invalid syntax (broken.py, line 1)"
  else if String.eqb path "/home/u/plain/only.py"
  then Parsed (AnyNode [Import [Alias "os" None]; ImportFrom (Some "utils") [] 0])
  else if String.eqb path ("/home/u/two" +:+ NL +:+ "lines/app.py")
  then Parsed (AnyNode [Import [Alias "bs4" None]])
  else if String.eqb path "/home/u/chat/bot.py"
  then Parsed (AnyNode [Import [Alias "discord" None]])
  else Unanalyzable "[Errno 2] No such file or directory".

Definition lists (top : string) : dirtree :=
  if String.eqb top "/home/u/shop" then
    Dir [(".git", Dir [] ["hook.py"]);
         ("lib", Dir [] ["tools.py"; "broken.py"; "notes.txt"])]
        ["main.py"; "README.md"; "pythonDependencies.py"]
  else if String.eqb top "/home/u/plain" then Dir [] ["only.py"]
  else if String.eqb top ("/home/u/two" +:+ NL +:+ "lines") then Dir [] ["app.py"]
  else if String.eqb top "/home/u/chat" then Dir [] ["bot.py"]
  else Dir [] [].

Definition in_order : set_iteration :=
  {| iterate := elements; iterate_perm := λ s, reflexivity (elements s) |}.

Definition reversed : set_iteration :=
  {| iterate := λ s, reverse (elements s);
     iterate_perm := λ s, reverse_Permutation (elements s) |}.

Definition host : Host env :=
  {| builtin_module_names := ["sys"; "builtins"; "time"];
     script_file := "/opt/tools/pythonDependencies.py";
     path_exists := λ p, bool_decide (p ∈ ["/home/u/shop/utils.py"; "/home/u/plain/utils.py"]);
     path_isdir := λ _, false;
     directory := lists;
     open_parse := parses;
     relpath := λ p _, p;
     find_spec := finds;
     pip_show := shows;
     pip_install := installs;
     pip_upgrade := installs;
     now := {| year := 2024; month := 3; day := 9; hour := 7; minute := 5; second := 0 |};
     set_order := in_order;
     input := Returns "n" |}.

Definition shop : DependenciesManager := init "/home/u/shop" "requirements.txt".
Definition plain : DependenciesManager := init "/home/u/plain" "requirements.txt".
Definition empty : DependenciesManager := init "/home/u/empty" "requirements.txt".

Definition chat : DependenciesManager := init "/home/u/chat" "requirements.txt".

(** A project whose directory name holds a line feed. *)
Definition two_lines : DependenciesManager :=
  init ("/home/u/two" +:+ NL +:+ "lines") "requirements.txt".

Definition start (e : env) : world env := World [] ∅ e.

(** A world with a manifest in the shop project. *)
Definition with_manifest (content : string) (e : env) : world env :=
  World [] {[ "/home/u/shop/requirements.txt" := TextFile content ]} e.

(** The environments of the examples. *)
Definition only_bs4 : env := [("beautifulsoup4", "4.12.3")].

Definition complete : env :=
  [("beautifulsoup4", "4.12.3"); ("scikit-learn", "1.4.0");
   ("requests", "2.31.0")].

(** What the scan and the classification find in the shop project. *)
Definition shop_imports : gset string :=
  list_to_set ["bs4"; "os"; "sklearn"; "joblib"; "utils"; "requests"; "json"].

Definition shop_third_party : gset string :=
  list_to_set ["bs4"; "sklearn"; "joblib"; "requests"].

Definition later : datetime :=
  {| year := 2024; month := 3; day := 10; hour := 18; minute := 30;
     second := 59 |}.

End Demo.

(** ** Notions used in the statements *)

(** A computation that only prints: in every world it returns [a] and
    appends [out] to the console. *)
Definition prints {P A} (m : M P A) (a : A) (out : list string) : Prop :=
  ∀ w, m w = (Returns a, printed w out).

(** The distribution that stands for a module:
    [self.module_to_package.get(module, module)]. *)
Definition package_of (self : DependenciesManager) (module : string) : string :=
  default module (module_to_package self !! module).

(** The specifier lines, the packages without a version, and the text of
    the manifest for a set of third-party modules, in a given environment:
    one line per module, in the order of [sorted]. *)
Definition requirements_of {P} (h : Host P) (self : DependenciesManager)
    (env : P) (third_party : gset string) : list string :=
  get_package_info h self env <$> Py.sorted (set_order h third_party).

Definition is_installed {P} (h : Host P) (self : DependenciesManager)
    (env : P) (module : string) : bool :=
  truthy (get_package_version h env (package_of self module)).

Definition not_installed_of {P} (h : Host P) (self : DependenciesManager)
    (env : P) (third_party : gset string) : list string :=
  package_of self <$>
    filter (λ m, is_installed h self env m = false)
           (Py.sorted (set_order h third_party)).

Definition manifest_of {P} (h : Host P) (self : DependenciesManager)
    (env : P) (third_party : gset string) : string :=
  manifest_text h self (requirements_of h self env third_party)
                (not_installed_of h self env third_party).

(** A name that the manifest reader gives back as it is: not empty, and
    without white space, comparison characters and [#]. *)
Definition is_plain_char (c : ascii) : bool :=
  negb (Py.isspace c) && negb (is_operator_char c) && negb (Ascii.eqb c "#").

Definition is_plain_name (s : string) : bool :=
  negb (String.eqb s "") && all_chars is_plain_char s.

(** The lines of the header of a manifest, without their line ends. *)
Definition header_lines {P} (h : Host P) (self : DependenciesManager)
    (not_installed_packages : list string) : list string :=
  ["# Automatically generated by pythonDependencies.py";
   "# Date: " +:+ strftime (now h);
   "# Project: " +:+ Py.basename (project_dir self);
   ""]
  ++ (if bool_decide (not_installed_packages = []) then []
      else ["# WARNING: The following packages were detected in your code but are not installed.";
            "# Install them and regenerate this file to include version numbers.";
            "# You can install all dependencies with: pip install -r requirements.txt";
            ""]).

(** ** The command line *)

(** The namespace that [parser.parse_args()] returns: the three flags,
    [--dir] and [--file]. *)
Record Args := {
  args_generate : bool;
  args_check : bool;
  args_update : bool;
  args_dir : string;
  args_file : string
}.

(** The main entry point of the script, from the parsed arguments on.
    [abspath] is [os.path.abspath] in the working directory of the
    process and [help] the text that [parser.print_help()] writes. The
    results of the three operations are dropped. *)
Definition main {P} (h : Host P) (abspath : string → string) (help : string)
    (args : Args) : M P () :=
  let manager := init (abspath (args_dir args)) (args_file args) in
  if negb (args_generate args || args_check args || args_update args) then
    print help
  else
    (if args_generate args
     then generate_requirements h manager None;; mret ()
     else mret ());;
    (if args_check args
     then check_and_install_dependencies h manager true;; mret ()
     else mret ());;
    (if args_update args
     then update_dependencies h manager;; mret ()
     else mret ()).

(** ** The scan, the loops over [pip] and the directory tree, described
    without effects *)



(** A file of the directory [root] that the scan analyses: a [.py] file
    whose name is not the name of the script. *)
Definition is_analyzed {P} (h : Host P) (root file : string) : bool :=
  Py.endswith ".py" file
  && negb (String.eqb (Py.basename (Py.path_join root file))
                      (Py.basename (script_file h))).

(** The paths of the files that the scan analyses, in the order of the
    walk. *)
Definition analyzed_files {P} (h : Host P) (self : DependenciesManager)
  : list string :=
  flat_map (λ step : string * list string,
              Py.path_join step.1
                <$> filter (λ file, is_analyzed h step.1 file = true) step.2)
           (os_walk (λ d, bool_decide (d ∉ ignored_dirs)) (project_dir self)
                    (directory h (project_dir self))).

(** What one file contributes to [all_imports]: nothing when it cannot be
    read or parsed. *)
Definition imports_of_file {P} (h : Host P) (path : string) : gset string :=
  match open_parse h path with
  | Parsed tree => imports_of_tree tree
  | SyntaxError _ | Unanalyzable _ => ∅
  end.

(** The names that the scan collects from the files it analyses. *)
Definition detected_imports {P} (h : Host P) (self : DependenciesManager)
  : gset string :=
  ⋃ (imports_of_file h <$> analyzed_files h self).

(** What the scan prints for one file. *)
Definition scan_report {P} (h : Host P) (self : DependenciesManager)
    (path : string) : list string :=
  ("  Analyzing: " +:+ relpath h path (Some (project_dir self))) ::
  match open_parse h path with
  | Parsed _ => []
  | SyntaxError e => ["Syntax error in " +:+ path +:+ ": " +:+ e]
  | Unanalyzable e => ["Error analyzing " +:+ path +:+ ": " +:+ e]
  end.

(** A [pip] command run for each package in turn, as the loops of the
    check and of the update do: a [CalledProcessError] is caught and the
    loop goes on, another exception ends it. *)
Fixpoint run_pip {P} (command : string → P → outcome () * P)
    (packages : list string) (env : P) : outcome () * P :=
  match packages with
  | [] => (Returns (), env)
  | package :: rest =>
      match command package env with
      | (Returns _, env') => run_pip command rest env'
      | (Raises e, env') =>
          match exc_kind e with
          | CalledProcessError => run_pip command rest env'
          | _ => (Raises e, env')
          end
      end
  end.

(** The text made of the given lines, each followed by a line feed. *)
Definition unlines (lines : list string) : string :=
  String.concat "" ((λ line, line +:+ NL) <$> lines).

(** A text without any of the line boundaries of [str.splitlines]. *)
Definition no_line_break (s : string) : bool :=
  all_chars (λ c, negb (Py.islinebreak c)) s.

(** The host with another answer to the prompt of the update. *)
Definition answering {P} (h : Host P) (answer : outcome string) : Host P :=
  {| builtin_module_names := builtin_module_names h;
     script_file := script_file h;
     path_exists := path_exists h;
     path_isdir := path_isdir h;
     directory := directory h;
     open_parse := open_parse h;
     relpath := relpath h;
     find_spec := find_spec h;
     pip_show := pip_show h;
     pip_install := pip_install h;
     pip_upgrade := pip_upgrade h;
     now := now h;
     set_order := set_order h;
     input := answer |}.

(** ** More cases of the sample project *)

Module Cases.

(** A manifest with a constraint, comments, and a package that [pip]
    does not know. *)
Definition manifest : string :=
  "requests>=2.0  # pinned" +:+ NL +:+
  "# tools" +:+ NL +:+
  "nonexistent-package-xyz" +:+ NL +:+
  "beautifulsoup4" +:+ NL.

(** A manifest where an installed distribution has a constraint. *)
Definition pinned : string :=
  "beautifulsoup4>=4.0  # pinned" +:+ NL +:+
  "# tools" +:+ NL +:+
  "nonexistent-package-xyz" +:+ NL.

(** The manifest of the shop project when only [beautifulsoup4] is
    installed. *)
Definition shop_manifest : string :=
  "# Automatically generated by pythonDependencies.py" +:+ NL +:+
  "# Date: 2024-03-09 07:05:00" +:+ NL +:+
  "# Project: shop" +:+ NL +:+
  NL +:+
  "# WARNING: The following packages were detected in your code but are not installed." +:+ NL +:+
  "# Install them and regenerate this file to include version numbers." +:+ NL +:+
  "# You can install all dependencies with: pip install -r requirements.txt" +:+ NL +:+
  NL +:+
  "beautifulsoup4>=4.12.3" +:+ NL +:+
  "scikit-learn" +:+ NL +:+
  "requests" +:+ NL +:+
  "scikit-learn" +:+ NL.

(** A world where the manifest of the shop project is a directory. *)
Definition is_a_directory : exc :=
  Exc OtherException "[Errno 21] Is a directory: '/home/u/shop/requirements.txt'".

Definition locked (e : Demo.env) : world Demo.env :=
  World [] {[ "/home/u/shop/requirements.txt" := Faulty is_a_directory ]} e.

(** The user answers [Yes] to the prompt. *)
Definition eager : Host Demo.env := answering Demo.host (Returns "Yes").

(** The command line [--check] in the shop project. *)
Definition check_only : Args :=
  {| args_generate := false; args_check := true; args_update := false;
     args_dir := "."; args_file := "requirements.txt" |}.

Definition abspath (path : string) : string :=
  if String.eqb path "." then "/home/u/shop" else path.

Definition help : string :=
  "usage: pythonDependencies.py [-h] [--generate] [--check] [--update] [--dir DIR] [--file FILE]".

End Cases.

(** Closes a goal that equates two runs up to the grouping of what was
    printed. *)
Ltac same_run :=
  unfold printed; cbn [console files pyenv fst snd];
  rewrite <- ?app_assoc; try reflexivity.

(** Unfolds the primitives of the monad in a goal about a run. *)
Ltac run :=
  unfold mbind, M_bind, mret, M_ret, print, ask, call, lift,
    exists_file, try_except;
  cbn [console files pyenv fst snd].

(** * Properties *)

(** ** The built-ins on examples *)

Example strip_example :
  Py.strip ("  numpy " +:+ NL) = "numpy".
Proof. reflexivity. Qed.

Example root_module_example :
  root_module "os.path" = "os" ∧ root_module "json" = "json"
  ∧ root_module "" = "".
Proof. by repeat split. Qed.

Example sub_comment_example :
  Py.sub_comment ("requests>=2.0  # pinned" +:+ NL) = "requests>=2.0  " +:+ NL
  ∧ Py.sub_comment ("#a" +:+ NL +:+ "#b") = "#a" +:+ NL.
Proof. by split. Qed.

Example clean_line_example :
  clean_line ("requests>=2.0  # pinned" +:+ NL) = "requests>=2.0"
  ∧ clean_line ("   # a comment" +:+ NL) = ""
  ∧ clean_line NL = "".
Proof. by repeat split. Qed.

Example base_package_example :
  base_package "requests>=2.0" = "requests"
  ∧ base_package "numpy ~= 1.2" = "numpy"
  ∧ base_package "flask" = "flask".
Proof. by repeat split. Qed.

Example splitlines_example :
  Py.splitlines ("Name: x" +:+ String Py.CR NL +:+ "Version: 1.0" +:+ NL)
  = ["Name: x"; "Version: 1.0"].
Proof. reflexivity. Qed.

Example readlines_example :
  Py.readlines ("a" +:+ String Py.CR NL +:+ "b" +:+ String Py.CR "c")
  = ["a" +:+ NL; "b" +:+ NL; "c"].
Proof. reflexivity. Qed.

Example version_field_example :
  version_field ["Name: x"; "Version: 1.0 "; "Version: 2.0"] = Some "1.0".
Proof. reflexivity. Qed.

Example path_join_example :
  Py.path_join "/home/u/shop" "lib" = "/home/u/shop/lib"
  ∧ Py.path_join "/home/u/shop/" "lib" = "/home/u/shop/lib"
  ∧ Py.path_join "/home/u/shop" "/etc" = "/etc"
  ∧ Py.basename "/home/u/shop" = "shop".
Proof. by repeat split. Qed.

Example strftime_example :
  strftime {| year := 2024; month := 3; day := 9;
              hour := 7; minute := 5; second := 0 |}
  = "2024-03-09 07:05:00".
Proof. reflexivity. Qed.

Example sorted_example :
  Py.sorted ["sklearn"; "bs4"; "PIL"; "joblib"]
  = ["PIL"; "bs4"; "joblib"; "sklearn"].
Proof. reflexivity. Qed.

(** [ast.walk] goes through the tree level by level. *)
Example walk_example :
  walk (AnyNode [AnyNode [Import []]; ImportFrom None [] 1])
  = [AnyNode [AnyNode [Import []]; ImportFrom None [] 1];
     AnyNode [Import []]; ImportFrom None [] 1; Import []].
Proof. reflexivity. Qed.

Example os_walk_example :
  os_walk (λ d, bool_decide (d ∉ ignored_dirs)) "/home/u/shop"
          (Demo.lists "/home/u/shop")
  = [("/home/u/shop", ["main.py"; "README.md"; "pythonDependencies.py"]);
     ("/home/u/shop/lib", ["tools.py"; "broken.py"; "notes.txt"])].
Proof. reflexivity. Qed.

(** ** Syntax trees and [ast.walk] *)

Section Trees.

Lemma ast_nested_ind (Q : ast → Prop) :
  (∀ names, Q (Import names)) →
  (∀ module names level, Q (ImportFrom module names level)) →
  (∀ a, Q (AliasNode a)) →
  (∀ children, Forall Q children → Q (AnyNode children)) →
  ∀ tree, Q tree.
Proof.
  intros HI HF HA HN.
  fix IH 1. intros [names|module names level|a|children].
  - apply HI.
  - apply HF.
  - apply HA.
  - apply HN. induction children as [|c cs IHcs]; constructor.
    + apply IH.
    + apply IHcs.
Qed.

Lemma size_alias_nodes names :
  sum_list_with ast_size (AliasNode <$> names) = length names.
Proof. induction names as [|a l IHl]; csimpl; [done | by rewrite IHl]. Qed.

Lemma ast_size_children tree :
  ast_size tree = S (sum_list_with ast_size (iter_child_nodes tree)).
Proof.
  destruct tree as [names|module names level|a|children]; simpl.
  - by rewrite size_alias_nodes.
  - by rewrite size_alias_nodes.
  - done.
  - reflexivity.
Qed.

Lemma subtrees_alias_nodes names :
  flat_map subtrees (AliasNode <$> names) = AliasNode <$> names.
Proof. induction names as [|a l IHl]; csimpl; [done | by rewrite IHl]. Qed.

Lemma subtrees_children tree :
  subtrees tree = tree :: flat_map subtrees (iter_child_nodes tree).
Proof.
  destruct tree as [names|module names level|a|children]; simpl;
    by rewrite ?subtrees_alias_nodes.
Qed.

(** The queue discipline visits the nodes of the queued trees, each
    once, when the fuel covers their sizes. *)
Lemma walk_queue_subtrees fuel todo :
  sum_list_with ast_size todo ≤ fuel →
  walk_queue fuel todo ≡ₚ flat_map subtrees todo.
Proof.
  revert todo. induction fuel as [|fuel IH]; intros [|node rest] Hsize;
    simpl in *; try done.
  - pose proof (ast_size_children node). lia.
  - rewrite (subtrees_children node). simpl. constructor.
    rewrite IH.
    + rewrite flat_map_app. apply Permutation_app_comm.
    + rewrite sum_list_with_app.
      pose proof (ast_size_children node). lia.
Qed.

Lemma walk_subtrees tree : walk tree ≡ₚ subtrees tree.
Proof.
  unfold walk. rewrite walk_queue_subtrees; simpl; [|lia].
  by rewrite app_nil_r.
Qed.

Lemma foldl_import_names (acc : gset string) names :
  foldl (λ imports name, {[ root_module (alias_name name) ]} ∪ imports)
        acc names
  = acc ∪ list_to_set ((λ a, root_module (alias_name a)) <$> names).
Proof.
  revert acc. induction names as [|a l IHl]; intros acc; simpl.
  - set_solver.
  - rewrite IHl. set_solver.
Qed.

Lemma collect_imports_union imports node :
  collect_imports imports node = imports ∪ collect_imports ∅ node.
Proof.
  destruct node as [names|module names level|a|children]; simpl.
  - rewrite (foldl_import_names imports), (foldl_import_names ∅). set_solver.
  - destruct level, module as [m|]; try set_solver.
    case_decide; set_solver.
  - set_solver.
  - set_solver.
Qed.

Lemma foldl_collect_imports imports nodes :
  foldl collect_imports imports nodes
  = imports ∪ ⋃ (collect_imports ∅ <$> nodes).
Proof.
  revert imports. induction nodes as [|node l IHl]; intros imports; simpl.
  - set_solver.
  - rewrite IHl, (collect_imports_union imports node). set_solver.
Qed.

(** What the loop of [extract_imports_from_file] computes, for any
    tree: the names collected at the nodes, the empty string apart. *)
Lemma imports_of_tree_nodes tree :
  imports_of_tree tree
  = filter (λ imp, imp ≠ "") (⋃ (collect_imports ∅ <$> subtrees tree)).
Proof.
  unfold imports_of_tree. rewrite foldl_collect_imports.
  apply set_eq. intros x.
  rewrite !elem_of_filter, elem_of_union, !elem_of_union_list.
  split.
  - intros [Hx [Hin|(X & HX & Hin)]]; [set_solver|].
    split; [done|]. exists X. split; [|done].
    apply list_elem_of_fmap in HX as (n & -> & Hn).
    apply list_elem_of_fmap. exists n. split; [done|].
    by rewrite <- (walk_subtrees tree).
  - intros [Hx (X & HX & Hin)]. split; [done|]. right.
    exists X. split; [|done].
    apply list_elem_of_fmap in HX as (n & -> & Hn).
    apply list_elem_of_fmap. exists n. split; [done|].
    by rewrite (walk_subtrees tree).
Qed.

End Trees.

(** ** Names that the parser produces *)

Section Names.

Lemma split_at_cons p s : ∃ first rest, Py.split_at p s = first :: rest.
Proof.
  destruct s as [|c s]; simpl; [by eauto|].
  destruct (p c); [by eauto|]. destruct (Py.split_at p s); by eauto.
Qed.

Lemma is_identifier_nonempty s : is_identifier s = true → s ≠ "".
Proof. by destruct s. Qed.

(** The first part of the split at the dots is the segment before the
    first dot. *)
Lemma root_module_segment name : root_module name = root_segment name.
Proof.
  unfold root_module. induction name as [|c name IH]; [done|].
  cbn [Py.split_at root_segment]. destruct (Ascii.eqb "." c) eqn:Hc.
  - apply Ascii.eqb_eq in Hc as <-. done.
  - rewrite Ascii.eqb_sym, Hc.
    destruct (split_at_cons (Ascii.eqb ".") name) as (first & rest & Heq).
    rewrite Heq in IH |- *. cbn [hd] in *. by rewrite IH.
Qed.

Lemma dotted_name_root m :
  is_dotted_name m = true → is_identifier (root_module m) = true ∧ m ≠ "".
Proof.
  unfold is_dotted_name, root_module. intros Hm. split.
  - destruct (split_at_cons (Ascii.eqb ".") m) as (first & rest & Heq).
    rewrite Heq in Hm |- *. simpl in *. by apply andb_prop in Hm as [? _].
  - by intros ->.
Qed.

Lemma well_formed_subtrees tree :
  well_formed tree = true →
  ∀ node, node ∈ subtrees tree → well_formed node = true.
Proof.
  induction tree as [names|module names level|a|children IH]
    using ast_nested_ind; intros Hwf node Hnode; simpl in Hnode.
  - apply elem_of_cons in Hnode as [->|Hnode]; [done|].
    by apply list_elem_of_fmap in Hnode as (a & -> & _).
  - apply elem_of_cons in Hnode as [->|Hnode]; [done|].
    by apply list_elem_of_fmap in Hnode as (a & -> & _).
  - by apply elem_of_cons in Hnode as [->|Hnode%elem_of_nil].
  - apply elem_of_cons in Hnode as [->|Hnode]; [done|].
    apply list_elem_of_In, in_flat_map in Hnode as (c & Hc & Hnode).
    apply list_elem_of_In in Hc, Hnode.
    simpl in Hwf. rewrite forallb_forall in Hwf.
    rewrite Forall_forall in IH. apply (IH c Hc); [|done].
    apply Hwf. by apply list_elem_of_In.
Qed.

(** At a node of the shape the parser gives, the loop body collects the
    names the statement refers to, and they are identifiers. *)
Lemma collect_imports_statement node :
  well_formed node = true →
  collect_imports ∅ node = statement_roots node
  ∧ ∀ x, x ∈ statement_roots node → is_identifier x = true.
Proof.
  destruct node as [names|module names level|a|children]; simpl; intros Hwf.
  - split.
    + rewrite foldl_import_names.
      rewrite (list_fmap_ext (λ a, root_module (alias_name a))
                 (λ a, root_segment (alias_name a)) names)
        by (intros; apply root_module_segment).
      set_solver.
    + intros x Hx. apply elem_of_list_to_set, list_elem_of_fmap in Hx
        as (a & -> & Ha).
      rewrite forallb_forall in Hwf. rewrite <- root_module_segment.
      apply dotted_name_root, Hwf. by apply list_elem_of_In.
  - destruct module as [m|], level as [|level];
      try (split; [done|]; intros x Hx; set_solver).
    apply dotted_name_root in Hwf as [Hid Hne].
    rewrite decide_False by done. rewrite <- root_module_segment.
    split; [set_solver|].
    by intros x ->%elem_of_singleton.
  - split; [done|]. intros x Hx. set_solver.
  - split; [done|]. intros x Hx. set_solver.
Qed.

(** For a tree of the shape the parser gives, the extracted set is the
    set of root module names of its import statements. *)
Lemma imports_of_tree_roots tree :
  well_formed tree = true → imports_of_tree tree = import_roots tree.
Proof.
  intros Hwf. rewrite imports_of_tree_nodes. unfold import_roots.
  apply set_eq. intros x.
  rewrite elem_of_filter, !elem_of_union_list. split.
  - intros [_ (X & HX & Hx)].
    apply list_elem_of_fmap in HX as (n & -> & Hn).
    exists (statement_roots n). split.
    + apply list_elem_of_fmap. by exists n.
    + pose proof (well_formed_subtrees tree Hwf n Hn) as Hwfn.
      by destruct (collect_imports_statement n Hwfn) as [<- _].
  - intros (X & HX & Hx).
    apply list_elem_of_fmap in HX as (n & -> & Hn).
    pose proof (well_formed_subtrees tree Hwf n Hn) as Hwfn.
    destruct (collect_imports_statement n Hwfn) as [Heq Hid]. split.
    + apply is_identifier_nonempty. by apply Hid.
    + exists (collect_imports ∅ n). split.
      * apply list_elem_of_fmap. by exists n.
      * by rewrite Heq.
Qed.

Lemma import_roots_identifiers tree x :
  well_formed tree = true → x ∈ import_roots tree → is_identifier x = true.
Proof.
  intros Hwf (X & HX & Hx)%elem_of_union_list.
  apply list_elem_of_fmap in HX as (n & -> & Hn).
  pose proof (well_formed_subtrees tree Hwf n Hn) as Hwfn.
  by apply (collect_imports_statement n Hwfn).
Qed.

Lemma import_roots_AnyNode children :
  import_roots (AnyNode children) = ⋃ (import_roots <$> children).
Proof.
  unfold import_roots.
  change (subtrees (AnyNode children))
    with (AnyNode children :: flat_map subtrees children).
  rewrite fmap_cons, union_list_cons.
  change (statement_roots (AnyNode children)) with (∅ : gset string).
  rewrite (left_id_L (∅ : gset string) (∪)).
  induction children as [|c cs IH]; [done|].
  change (flat_map subtrees (c :: cs))
    with (subtrees c ++ flat_map subtrees cs).
  by rewrite fmap_app, union_list_app_L, IH, fmap_cons, union_list_cons.
Qed.

Lemma import_roots_relative node :
  is_relative_import node = true → import_roots node = ∅.
Proof.
  destruct node as [names|module names level|a|children]; try done.
  unfold import_roots. intros Hrel.
  change (subtrees (ImportFrom module names level))
    with (ImportFrom module names level :: (AliasNode <$> names)).
  rewrite fmap_cons, union_list_cons.
  assert (statement_roots (ImportFrom module names level) = ∅) as ->.
  { destruct module, level; simpl in *; try done. }
  rewrite (left_id_L (∅ : gset string) (∪)). clear Hrel.
  induction names as [|a l IH]; [done|].
  rewrite !fmap_cons, union_list_cons, IH.
  change (statement_roots (AliasNode a)) with (∅ : gset string).
  by rewrite (left_id_L (∅ : gset string) (∪)).
Qed.

(** Relative imports contribute nothing: the tree without them has the
    same root module names. *)
Lemma import_roots_without_relative tree :
  import_roots (without_relative_imports tree) = import_roots tree.
Proof.
  induction tree as [names|module names level|a|children IH]
    using ast_nested_ind; try done.
  cbn [without_relative_imports]. rewrite !import_roots_AnyNode.
  induction IH as [|c cs Hc _ IHcs]; [done|].
  rewrite fmap_cons, union_list_cons.
  destruct (is_relative_import c) eqn:Hrel.
  - by rewrite IHcs, (import_roots_relative c Hrel), (left_id_L (∅ : gset string) (∪)).
  - by rewrite fmap_cons, union_list_cons, IHcs, Hc.
Qed.

Lemma well_formed_without_relative tree :
  well_formed tree = true →
  well_formed (without_relative_imports tree) = true.
Proof.
  induction tree as [names|module names level|a|children IH]
    using ast_nested_ind; try done.
  simpl. induction IH as [|c cs Hc _ IHcs]; simpl; [done|].
  intros [Hwfc Hwfcs]%andb_prop.
  destruct (is_relative_import c); simpl; [by apply IHcs|].
  by rewrite Hc, IHcs.
Qed.

End Names.

(** ** Running computations *)

Section Runs.

Context {P : Type}.

Lemma printed_nil (w : world P) : printed w [] = w.
Proof. destruct w. unfold printed. simpl. by rewrite app_nil_r. Qed.

Lemma printed_app (w : world P) out1 out2 :
  printed (printed w out1) out2 = printed w (out1 ++ out2).
Proof. unfold printed. simpl. by rewrite app_assoc. Qed.

Lemma prints_ret {A} (a : A) : prints (P:=P) (mret a) a [].
Proof. intros w. by rewrite printed_nil. Qed.

Lemma prints_print s : prints (P:=P) (print s) () [s].
Proof. by intros w. Qed.

Lemma prints_bind {A B} (m : M P A) (k : A → M P B) a out1 b out2 :
  prints m a out1 → prints (k a) b out2 → prints (m ≫= k) b (out1 ++ out2).
Proof.
  intros Hm Hk w. unfold mbind, M_bind. by rewrite Hm, Hk, printed_app.
Qed.

Lemma prints_for_fold {A S} (body : S → A → M P S) l :
  (∀ s x, ∃ s' out, prints (body s x) s' out) →
  ∀ s, ∃ s' out, prints (for_fold l body s) s' out.
Proof.
  intros Hbody. induction l as [|x l IH]; intros s; simpl.
  - exists s, []. apply prints_ret.
  - destruct (Hbody s x) as (s1 & out1 & H1).
    destruct (IH s1) as (s2 & out2 & H2).
    exists s2, (out1 ++ out2). by eapply prints_bind.
Qed.

Lemma prints_for_fold_invariant {A S} (I : S → Prop) (body : S → A → M P S) l :
  (∀ s x, I s → ∃ s' out, prints (body s x) s' out ∧ I s') →
  ∀ s, I s → ∃ s' out, prints (for_fold l body s) s' out ∧ I s'.
Proof.
  intros Hbody. induction l as [|x l IH]; intros s Hs; simpl.
  - exists s, []. split; [apply prints_ret | done].
  - destruct (Hbody s x Hs) as (s1 & out1 & H1 & Hs1).
    destruct (IH s1 Hs1) as (s2 & out2 & H2 & Hs2).
    exists s2, (out1 ++ out2). split; [by eapply prints_bind | done].
Qed.

Lemma for_fold_cons {A S} (body : S → A → M P S) x l s w :
  for_fold (x :: l) body s w
  = match body s x w with
    | (Returns s', w') => for_fold l body s' w'
    | (Raises e, w') => (Raises e, w')
    end.
Proof. reflexivity. Qed.

Lemma prints_value {A} (m : M P A) a out w r :
  prints m a out → value_of m w = Returns r → r = a.
Proof. unfold value_of. intros Hm. rewrite Hm. simpl. congruence. Qed.

End Runs.

(** ** The import extractor *)

Section Extractor.

Context {P : Type} (h : Host P).

Lemma extract_imports_from_file_prints self path :
  ∃ imports out, prints (extract_imports_from_file h self path) imports out.
Proof.
  unfold extract_imports_from_file.
  destruct (open_parse h path) as [tree|e|e].
  - eexists _, _. apply prints_ret.
  - eexists _, _. eapply prints_bind; [apply prints_print | apply prints_ret].
  - eexists _, _. eapply prints_bind; [apply prints_print | apply prints_ret].
Qed.

(** C1. For a file that parses, [extract_imports_from_file] returns
    exactly the set of root module names, the segments before the first
    dot, of the absolute [import] statements and of the
    [from X import Y] statements at level 0 of the file, wherever they
    stand in the tree; relative imports contribute nothing: the same file
    without them gives the same set. *)
Theorem extract_imports_exact self path tree w :
  open_parse h path = Parsed tree →
  well_formed tree = true →
  extract_imports_from_file h self path w = (Returns (import_roots tree), w)
  ∧ ∀ path',
      open_parse h path' = Parsed (without_relative_imports tree) →
      extract_imports_from_file h self path' w
      = (Returns (import_roots tree), w).
Proof.
  intros Hparse Hwf. unfold extract_imports_from_file. split.
  - rewrite Hparse. by rewrite (imports_of_tree_roots tree Hwf).
  - intros path' Hparse'. rewrite Hparse'.
    rewrite imports_of_tree_roots by by apply well_formed_without_relative.
    by rewrite import_roots_without_relative.
Qed.

End Extractor.

(** On the sample project: the imports of [main.py]. *)
Lemma extract_imports_exact_witness :
  extract_imports_from_file Demo.host Demo.shop "/home/u/shop/main.py"
    (Demo.start [])
  = (Returns (list_to_set ["bs4"; "os"; "sklearn"; "joblib"; "utils"]),
     Demo.start []).
Proof.
  destruct (extract_imports_exact Demo.host Demo.shop
              "/home/u/shop/main.py" Demo.main_py (Demo.start [])
              eq_refl eq_refl) as [-> _].
  assert (import_roots Demo.main_py
          = list_to_set ["bs4"; "os"; "sklearn"; "joblib"; "utils"]) as ->
    by (vm_compute; reflexivity).
  reflexivity.
Defined.

(** ** The classifier *)

Section Classifier.

Context {P : Type} (h : Host P).


End Classifier.



(** ** Lines of a manifest *)

Section Lines.

Lemma keepends_ends_line s :
  Forall (λ line, Py.ends_line line = true) (Py.keepends s).
Proof.
  induction s as [|c s IH]; simpl; [constructor|].
  destruct (Ascii.eqb c Py.LF) eqn:Hc.
  - constructor; [|done]. simpl. by rewrite Hc.
  - destruct (Py.keepends s) as [|l ls]; constructor; simpl; rewrite ?Hc;
      try done.
    + by inversion IH.
    + by inversion IH.
Qed.

Lemma strip_final_newline s : Py.strip (Py.final_newline s) = "".
Proof.
  induction s as [|c s IH]; [done|].
  destruct s as [|c' s]; [|done].
  simpl. destruct (Ascii.eqb_spec c Py.LF) as [->|]; done.
Qed.

Lemma hash_not_space c : Ascii.eqb c "#" = true → Py.isspace c = false.
Proof. by intros ->%Ascii.eqb_eq. Qed.

Lemma linefeed_is_space c : Ascii.eqb c Py.LF = true → Py.isspace c = true.
Proof. by intros ->%Ascii.eqb_eq. Qed.

Lemma strip_space c s : Py.isspace c = true → Py.strip (String c s) = Py.strip s.
Proof. unfold Py.strip. simpl. by intros ->. Qed.

(** A comment line and a blank line give no package. *)
Lemma clean_line_comment_or_blank line :
  Py.ends_line line = true → is_comment_or_blank line = true →
  clean_line line = "".
Proof.
  unfold clean_line, is_comment_or_blank.
  induction line as [|c s IH]; [done|]. simpl.
  destruct (Py.isspace c) eqn:Hspace.
  - destruct (Ascii.eqb c "#") eqn:Hhash.
    { apply hash_not_space in Hhash. congruence. }
    simpl. rewrite strip_space by done.
    destruct (Ascii.eqb c Py.LF).
    + destruct s; [done|discriminate].
    + apply IH.
  - intros Hends ->. simpl.
    assert (Py.ends_line s = true) as ->.
    { destruct (Ascii.eqb c Py.LF) eqn:HLF; [|done].
      apply linefeed_is_space in HLF. congruence. }
    apply strip_final_newline.
Qed.

Lemma manifest_packages_comments content :
  only_comments_and_blanks content = true →
  manifest_packages (Py.readlines content) = [].
Proof.
  unfold only_comments_and_blanks, manifest_packages, Py.readlines.
  intros Hall. rewrite forallb_forall in Hall.
  pose proof (keepends_ends_line (Py.universal_newlines content)) as Hends.
  rewrite Forall_forall in Hends.
  induction (Py.keepends (Py.universal_newlines content)) as [|l ls IH];
    [done|].
  rewrite fmap_cons, filter_cons.
  rewrite clean_line_comment_or_blank.
  - rewrite decide_False by auto. apply IH.
    + intros x Hx. apply Hall. by right.
    + intros x Hx. apply Hends. by right.
  - apply Hends. by left.
  - apply Hall. by left.
Qed.

End Lines.

(** ** Checking and updating *)

Section Checking.

Context {P : Type} (h : Host P).

Lemma check_package_run missing p w :
  ∃ out,
    check_package h missing p w
    = (Returns (if is_missing h (pyenv w) p then missing ++ [p] else missing),
       printed w out).
Proof.
  unfold check_package, is_missing. run.
  destruct (truthy (get_package_version h (pyenv w) (base_package p)));
    cbn [negb]; eexists.
  - unfold printed. reflexivity.
  - by rewrite printed_nil.
Qed.

(** The loop over the packages of the manifest keeps the missing ones, in
    order, and changes nothing but the console. *)
Lemma check_packages_run packages missing w :
  ∃ out,
    for_fold packages (check_package h) missing w
    = (Returns (missing ++ filter (λ p, is_missing h (pyenv w) p = true) packages),
       printed w out).
Proof.
  revert missing w. induction packages as [|p l IH]; intros missing w.
  - exists []. simpl. by rewrite app_nil_r, printed_nil.
  - rewrite for_fold_cons, filter_cons.
    destruct (check_package_run missing p w) as (out1 & ->).
    edestruct IH as (out2 & ->). exists (out1 ++ out2).
    rewrite printed_app. cbn [pyenv printed].
    destruct (is_missing h (pyenv w) p).
    + rewrite decide_True by done. by rewrite <- app_assoc.
    + by rewrite decide_False.
Qed.

Lemma install_package_run success p w :
  ∃ out,
    install_package h success p w
    = match pip_install h p (pyenv w) with
      | (Returns _, env) =>
          (Returns success, World (console w ++ out) (files w) env)
      | (Raises e, env) =>
          (match exc_kind e with
           | CalledProcessError => Returns false
           | _ => Raises e
           end, World (console w ++ out) (files w) env)
      end.
Proof.
  unfold install_package. run.
  destruct (pip_install h p (pyenv w)) as [[[]|e] env].
  - eexists. cbn [console files pyenv]. rewrite <- app_assoc. reflexivity.
  - destruct (exc_kind e); cbn [console files pyenv]; eexists; try reflexivity.
    rewrite <- app_assoc. reflexivity.
Qed.

(** The loop over the missing packages fails as soon as one installation
    does: [success] then stays [False], or the exception leaves the
    loop. *)
Lemma install_packages_run packages success w :
  ∃ r w',
    for_fold packages (install_package h) success w = (r, w')
    ∧ files w' = files w
    ∧ match r with
      | Returns b => b = success && every_install_succeeds h packages (pyenv w)
      | Raises _ => every_install_succeeds h packages (pyenv w) = false
      end.
Proof.
  revert success w. induction packages as [|p l IH]; intros success w.
  - exists (Returns success), w. simpl. by rewrite andb_true_r.
  - rewrite for_fold_cons. cbn [every_install_succeeds].
    destruct (install_package_run success p w) as (out & ->).
    destruct (pip_install h p (pyenv w)) as [[[]|e] env].
    + edestruct IH as (r & w' & -> & Hfiles & Hr).
      exists r, w'. by repeat split.
    + destruct (exc_kind e); try by eexists _, _.
      edestruct IH as (r & w' & -> & Hfiles & Hr).
      exists r, w'. repeat split; [done|].
      destruct r as [b|]; [|done]. by rewrite andb_false_r, Hr.
Qed.


Lemma read_lines_text path content (w : world P) :
  files w !! path = Some (TextFile content) →
  read_lines path w = (Returns (Py.readlines content), w).
Proof. unfold read_lines. by intros ->. Qed.

(** C8. When the manifest does not exist, [check_and_install_dependencies]
    and [update_dependencies] print the error that tells the user to
    generate it first and return [False]; no exception leaves them. *)
Theorem missing_manifest_reported self auto_install w :
  files w !! requirements_file self = None →
  check_and_install_dependencies h self auto_install w
  = (Returns false,
     printed w [NL +:+ "==========================================";
                "   PYTHON DEPENDENCIES CHECKER";
                "==========================================" +:+ NL;
                "Error: File " +:+ requirements_file self +:+ " not found.";
                "You can generate it with the --generate option." +:+ NL])
  ∧ update_dependencies h self w
    = (Returns false,
       printed w [NL +:+ "==========================================";
                  "   PYTHON DEPENDENCIES UPDATER";
                  "==========================================" +:+ NL;
                  "Error: File " +:+ requirements_file self +:+ " not found.";
                  "You can generate it with the --generate option." +:+ NL]).
Proof.
  intros Hfile.
  unfold check_and_install_dependencies, update_dependencies. run.
  rewrite Hfile. rewrite bool_decide_eq_false_2 by by intros [? ?].
  cbn [negb console files pyenv]. unfold printed.
  by rewrite <- !app_assoc.
Qed.

(** C10. When the manifest holds only comment lines and blank lines, both
    operations print that there are no dependencies and return [True];
    nothing but the console changes, so no installation and no upgrade
    ran. *)
Theorem comments_only_manifest self auto_install w content :
  files w !! requirements_file self = Some (TextFile content) →
  only_comments_and_blanks content = true →
  check_and_install_dependencies h self auto_install w
  = (Returns true,
     printed w [NL +:+ "==========================================";
                "   PYTHON DEPENDENCIES CHECKER";
                "==========================================" +:+ NL;
                "No dependencies found in the file." +:+ NL])
  ∧ update_dependencies h self w
    = (Returns true,
       printed w [NL +:+ "==========================================";
                  "   PYTHON DEPENDENCIES UPDATER";
                  "==========================================" +:+ NL;
                  "No dependencies found to update." +:+ NL]).
Proof.
  intros Hfile Hcomments.
  unfold check_and_install_dependencies, update_dependencies. run.
  rewrite Hfile. rewrite bool_decide_eq_true_2 by by eexists.
  cbn [negb]. unfold read_lines. cbn [console files pyenv]. rewrite Hfile.
  rewrite (manifest_packages_comments content Hcomments).
  cbn [fmap list_fmap]. rewrite bool_decide_eq_true_2 by done.
  cbn [console files pyenv]. unfold printed.
  by rewrite <- !app_assoc.
Qed.


(** With no package missing, the check only prints and returns
    [True]. *)
Lemma check_nothing_missing self auto_install w content :
  files w !! requirements_file self = Some (TextFile content) →
  missing_of h (pyenv w) content = [] →
  ∃ out,
    check_and_install_dependencies h self auto_install w
    = (Returns true, printed w out).
Proof.
  intros Hfile. unfold missing_of.
  unfold check_and_install_dependencies. run.
  rewrite Hfile. rewrite bool_decide_eq_true_2 by by eexists.
  cbn [negb]. unfold read_lines. cbn [console files pyenv]. rewrite Hfile.
  set (packages := manifest_packages (Py.readlines content)).
  intros Hmissing.
  destruct (bool_decide_reflect (packages = [])) as [Hnone|Hsome].
  { eexists. unfold printed. cbn [console files pyenv].
    rewrite <- !app_assoc. reflexivity. }
  edestruct check_packages_run as (out & ->).
  cbn [pyenv printed console files app]. rewrite Hmissing.
  rewrite bool_decide_eq_true_2 by done.
  eexists. unfold printed. cbn [console files pyenv].
  rewrite <- !app_assoc. reflexivity.
Qed.

(** The verdict of the check, on the missing packages as the code
    computes them. *)
Lemma check_and_install_dependencies_cases self auto_install w content :
  files w !! requirements_file self = Some (TextFile content) →
  ∃ r w',
    check_and_install_dependencies h self auto_install w = (Returns r, w')
    ∧ files w' = files w
    ∧ (missing_of h (pyenv w) content = [] → r = true ∧ pyenv w' = pyenv w)
    ∧ (missing_of h (pyenv w) content ≠ [] → auto_install = false →
         r = false ∧ pyenv w' = pyenv w
         ∧ last (console w')
           = Some ("pip install "
                   +:+ Py.join " " (missing_of h (pyenv w) content)))
    ∧ (missing_of h (pyenv w) content ≠ [] → auto_install = true →
         (r = true ↔
          every_install_succeeds h (missing_of h (pyenv w) content) (pyenv w)
          = true)).
Proof.
  intros Hfile. unfold missing_of.
  unfold check_and_install_dependencies. run.
  rewrite Hfile. rewrite bool_decide_eq_true_2 by by eexists.
  cbn [negb]. unfold read_lines. cbn [console files pyenv]. rewrite Hfile.
  set (packages := manifest_packages (Py.readlines content)).
  destruct (bool_decide_reflect (packages = [])) as [Hnone|Hsome].
  { rewrite Hnone. eexists _, _. split; [reflexivity|]. cbn [files pyenv].
    rewrite filter_nil. by repeat split. }
  edestruct check_packages_run as (out & ->). cbn [pyenv printed console files app].
  set (missing := filter (λ p, is_missing h (pyenv w) p = true) packages).
  destruct (bool_decide_reflect (missing = [])) as [Hnone|Hmissing].
  { eexists _, _. split; [reflexivity|]. cbn [files pyenv]. by repeat split. }
  destruct auto_install; cbn [negb].
  - edestruct (install_packages_run missing true) as (r & w' & -> & Hfiles & Hr).
    cbn [pyenv files printed andb] in Hfiles, Hr.
    destruct r as [[]|e]; cbn [except_Exception files];
      (eexists _, _; split; [reflexivity|]); cbn [files pyenv];
      (split; [done|]); (split; [done|]); (split; [done|]);
      intros _ _; fold missing; by rewrite <- ?Hr, ?Hr.
  - eexists _, _. split; [reflexivity|]. cbn [files pyenv console].
    split; [done|]. split; [done|]. split; [|done].
    intros _ _. repeat split. by rewrite last_snoc.
Qed.

End Checking.

(** ** Generating *)

Section Generating.

Context {P : Type} (h : Host P).

Lemma analyze_file_prints self root vars file :
  ∃ vars' out, prints (analyze_file h self root vars file) vars' out.
Proof.
  unfold analyze_file.
  destruct (Py.endswith ".py" file); [|eexists _, _; apply prints_ret].
  destruct (String.eqb _ _); [eexists _, _; apply prints_ret|].
  destruct (extract_imports_from_file_prints h self (Py.path_join root file))
    as (imports & out & Himports).
  eexists _, _. eapply prints_bind; [apply prints_print|].
  eapply prints_bind; [apply Himports|]. apply prints_ret.
Qed.

(** The scan only prints, and what it finds does not depend on the
    world. *)
Lemma analyze_project_prints self :
  ∃ vars out, prints (analyze_project h self) vars out.
Proof.
  unfold analyze_project. apply prints_for_fold.
  intros vars step. apply prints_for_fold.
  intros vars' file. apply analyze_file_prints.
Qed.

Lemma analyze_project_value self w w' :
  value_of (analyze_project h self) w = value_of (analyze_project h self) w'.
Proof.
  destruct (analyze_project_prints self) as (vars & out & Hrun).
  unfold value_of. by rewrite !Hrun.
Qed.

(** With a sound parser, every name the scan collects is an
    identifier. *)
Lemma analyze_project_identifiers self w all_imports file_count :
  parser_sound h →
  value_of (analyze_project h self) w = Returns (all_imports, file_count) →
  ∀ m, m ∈ all_imports → is_identifier m = true.
Proof.
  intros Hsound Hvalue.
  pose (I := λ vars : gset string * nat,
               ∀ m, m ∈ vars.1 → is_identifier m = true).
  assert (∃ vars out, prints (analyze_project h self) vars out ∧ I vars)
    as (vars & out & Hrun & Hvars).
  { unfold analyze_project. apply prints_for_fold_invariant; [|by intros m Hm].
    intros vars step Hvars. apply prints_for_fold_invariant; [|done].
    clear vars Hvars. intros vars file Hvars. unfold analyze_file.
    destruct (Py.endswith ".py" file);
      [|eexists _, _; split; [apply prints_ret | done]].
    destruct (String.eqb _ _);
      [eexists _, _; split; [apply prints_ret | done]|].
    unfold extract_imports_from_file.
    destruct (open_parse h (Py.path_join step.1 file)) as [tree|e|e] eqn:Hparse.
    - eexists _, _. split.
      + eapply prints_bind; [apply prints_print|].
        eapply prints_bind; [apply prints_ret | apply prints_ret].
      + intros m Hm. cbn [fst] in Hm.
        apply elem_of_union in Hm as [Hm|Hm]; [by apply Hvars|].
        pose proof (Hsound _ _ Hparse) as Hwf.
        rewrite (imports_of_tree_roots tree Hwf) in Hm.
        by apply (import_roots_identifiers tree).
    - eexists _, _. split.
      + eapply prints_bind; [apply prints_print|].
        eapply prints_bind;
          [eapply prints_bind; [apply prints_print | apply prints_ret]
          |apply prints_ret].
      + intros m Hm. cbn [fst] in Hm.
        apply elem_of_union in Hm as [Hm|Hm]; [by apply Hvars | set_solver].
    - eexists _, _. split.
      + eapply prints_bind; [apply prints_print|].
        eapply prints_bind;
          [eapply prints_bind; [apply prints_print | apply prints_ret]
          |apply prints_ret].
      + intros m Hm. cbn [fst] in Hm.
        apply elem_of_union in Hm as [Hm|Hm]; [by apply Hvars | set_solver]. }
  apply (prints_value _ _ _ w (all_imports, file_count) Hrun) in Hvalue.
  subst vars. apply Hvars.
Qed.

(** One step of the classification of the detected names. *)
Lemma keep_third_party_run self third_party imp (w : world P) :
  keep_third_party h self third_party imp w
  = (match is_standard_library h self (pyenv w) imp with
     | Returns std => Returns (if std then third_party else {[ imp ]} ∪ third_party)
     | Raises e => Raises e
     end, w).
Proof.
  unfold keep_third_party. run.
  by destruct (is_standard_library h self (pyenv w) imp).
Qed.

(** The third-party names among [l]. *)
Lemma third_party_fold self l third_party (w : world P) :
  ∃ r,
    for_fold l (keep_third_party h self) third_party w = (r, w)
    ∧ match r with
      | Returns tp =>
          (∀ m, m ∈ l → ∃ b, is_standard_library h self (pyenv w) m = Returns b)
          ∧ ∀ m, m ∈ tp ↔
                 m ∈ third_party
                 ∨ (m ∈ l ∧ is_standard_library h self (pyenv w) m = Returns false)
      | Raises e =>
          ∃ m, m ∈ l ∧ is_standard_library h self (pyenv w) m = Raises e
      end.
Proof.
  revert third_party. induction l as [|imp l IH]; intros third_party.
  - exists (Returns third_party). split; [done|]. split.
    + by intros m ?%elem_of_nil.
    + intros m. split; [by left|]. intros [?|[?%elem_of_nil _]]; done.
  - rewrite for_fold_cons, keep_third_party_run.
    destruct (is_standard_library h self (pyenv w) imp) as [std|e] eqn:Himp.
    + destruct (IH (if std then third_party else {[ imp ]} ∪ third_party))
        as (r & -> & Hr).
      exists r. split; [done|]. destruct r as [tp|e].
      * destruct Hr as [Hall Htp]. split.
        -- intros m [->|Hm]%elem_of_cons; [by eauto | by apply Hall].
        -- intros m. rewrite Htp, elem_of_cons. destruct std.
           ++ split; [by intuition|].
              intros [?|[[->|?] Hm]]; [by left| congruence | by right].
           ++ rewrite elem_of_union, elem_of_singleton.
              split; [|by intuition].
              intros [[->|?]|[? ?]]; [by right; split; [left|] | by left
                                     | by right; split; [right|]].
      * destruct Hr as (m & Hm & Hraises). exists m. split; [by right | done].
    + exists (Raises e). split; [done|]. exists imp. split; [by left | done].
Qed.

Lemma set_order_elem (o : set_iteration) (s : gset string) m :
  m ∈ o s ↔ m ∈ s.
Proof. by rewrite (iterate_perm o s), elem_of_elements. Qed.

(** The classification changes nothing in the world; it returns the names
    that [is_standard_library] rejects, unless that function raises on
    one of the names. *)
Lemma third_party_of_run self all_imports (w : world P) :
  ∃ r,
    third_party_of h self all_imports w = (r, w)
    ∧ match r with
      | Returns tp =>
          (∀ m, m ∈ all_imports →
                ∃ b, is_standard_library h self (pyenv w) m = Returns b)
          ∧ ∀ m, m ∈ tp ↔
                 m ∈ all_imports
                 ∧ is_standard_library h self (pyenv w) m = Returns false
      | Raises e =>
          ∃ m, m ∈ all_imports
               ∧ is_standard_library h self (pyenv w) m = Raises e
      end.
Proof.
  unfold third_party_of.
  destruct (third_party_fold self (set_order h all_imports) ∅ w)
    as (r & -> & Hr).
  exists r. split; [done|]. destruct r as [tp|e].
  - destruct Hr as [Hall Htp]. split.
    + intros m Hm. apply Hall. by apply set_order_elem.
    + intros m. rewrite Htp, set_order_elem. set_solver.
  - destruct Hr as (m & Hm & Hraises). exists m.
    by rewrite set_order_elem in Hm.
Qed.

Lemma third_party_of_world self all_imports (w : world P) :
  (third_party_of h self all_imports w).2 = w.
Proof. by destruct (third_party_of_run self all_imports w) as (r & -> & _). Qed.

(** The outcome of the classification depends on the environment only:
    not on the rest of the world, nor on the time and the order of
    iteration of the run. *)
Lemma third_party_of_later self all_imports (w w' : world P) t o tp :
  pyenv w' = pyenv w →
  value_of (third_party_of h self all_imports) w = Returns tp →
  value_of (third_party_of (later_run h t o) self all_imports) w' = Returns tp.
Proof.
  intros Henv. unfold value_of.
  destruct (third_party_of_run self all_imports w) as (r & -> & Hr).
  cbn [fst]. intros ->. destruct Hr as [Hall Htp].
  destruct (third_party_fold self (set_order (later_run h t o) all_imports) ∅ w')
    as (r' & Hrun & Hr').
  change (third_party_of (later_run h t o) self all_imports w')
    with (for_fold (set_order (later_run h t o) all_imports)
            (keep_third_party h self) ∅ w').
  rewrite Hrun. cbn [fst]. rewrite Henv in Hr'. destruct r' as [tp'|e].
  - f_equal. destruct Hr' as [_ Htp']. apply set_eq. intros m.
    rewrite Htp, Htp', set_order_elem. set_solver.
  - destruct Hr' as (m & Hm%set_order_elem & Hraises).
    destruct (Hall m Hm) as [b Hb]. congruence.
Qed.

Lemma third_party_of_subset self all_imports (w : world P) tp :
  value_of (third_party_of h self all_imports) w = Returns tp →
  tp ⊆ all_imports.
Proof.
  unfold value_of.
  destruct (third_party_of_run self all_imports w) as (r & -> & Hr).
  cbn [fst]. intros ->. destruct Hr as [_ Htp]. intros m. rewrite Htp. tauto.
Qed.

(** One step of the loop over [sorted(third_party)]. *)
Lemma resolve_module_run self vars module (w : world P) :
  ∃ out,
    resolve_module h self vars module w
    = (Returns (vars.1 ++ [get_package_info h self (pyenv w) module],
                vars.2 ++ (if is_installed h self (pyenv w) module then []
                           else [package_of self module])),
       printed w out).
Proof.
  unfold resolve_module, get_package_info, is_installed, package_of. run.
  destruct (truthy (get_package_version h (pyenv w)
                      (default module (module_to_package self !! module)))).
  - eexists. by rewrite app_nil_r.
  - by eexists.
Qed.

Lemma resolve_modules_run self l vars (w : world P) :
  ∃ out,
    for_fold l (resolve_module h self) vars w
    = (Returns (vars.1 ++ (get_package_info h self (pyenv w) <$> l),
                vars.2 ++ (package_of self <$>
                             filter (λ m, is_installed h self (pyenv w) m = false) l)),
       printed w out).
Proof.
  revert vars w. induction l as [|m l IH]; intros vars w.
  - exists []. simpl. rewrite !app_nil_r, printed_nil. by destruct vars.
  - rewrite for_fold_cons.
    destruct (resolve_module_run self vars m w) as (out1 & ->).
    edestruct IH as (out2 & ->). exists (out1 ++ out2).
    rewrite printed_app. cbn [fst snd pyenv printed].
    rewrite filter_cons, fmap_cons, <- !app_assoc.
    destruct (is_installed h self (pyenv w) m).
    + by rewrite decide_False.
    + by rewrite decide_True.
Qed.

(** The second half of [generate_requirements] writes the manifest of
    the set and returns [True], unless the file cannot be written. *)
Lemma write_requirements_run self output_file third_party file_count (w : world P) :
  ∃ out,
    write_requirements h self output_file third_party file_count w
    = match files w !! output_file with
      | Some (Faulty e) => (Raises e, printed w out)
      | _ => (Returns true,
              World (console w ++ out)
                    (<[output_file :=
                         TextFile (manifest_of h self (pyenv w) third_party)]>
                       (files w))
                    (pyenv w))
      end.
Proof.
  unfold write_requirements. run.
  edestruct resolve_modules_run as (out & ->).
  unfold write_file. cbn [fst snd pyenv printed console files app].
  fold (requirements_of h self (pyenv w) third_party).
  fold (not_installed_of h self (pyenv w) third_party).
  fold (manifest_of h self (pyenv w) third_party).
  destruct (files w !! output_file) as [[content|e]|].
  - destruct (bool_decide (not_installed_of h self (pyenv w) third_party = []));
      cbn [console files pyenv]; eexists; rewrite <- ?app_assoc;
      reflexivity.
  - eexists. unfold printed. cbn [console files pyenv].
    rewrite <- ?app_assoc. reflexivity.
  - destruct (bool_decide (not_installed_of h self (pyenv w) third_party = []));
      cbn [console files pyenv]; eexists; rewrite <- ?app_assoc;
      reflexivity.
Qed.

Lemma third_party_of_pyenv self all_imports (w w' : world P) :
  pyenv w' = pyenv w →
  value_of (third_party_of h self all_imports) w'
  = value_of (third_party_of h self all_imports) w.
Proof.
  intros Henv. unfold value_of, third_party_of.
  generalize (∅ : gset string).
  induction (set_order h all_imports) as [|imp l IH]; intros tp; [done|].
  rewrite !for_fold_cons, !keep_third_party_run, Henv.
  destruct (is_standard_library h self (pyenv w) imp); [apply IH | done].
Qed.

(** [generate_requirements] by cases on what the scan and the
    classification give. *)
Lemma generate_requirements_cases self output_file w all_imports file_count :
  value_of (analyze_project h self) w = Returns (all_imports, file_count) →
  ∃ out,
    generate_requirements h self output_file w
    = if bool_decide (file_count = 0) then
        (Returns false,
         printed w (out ++ ["No Python files found to analyze in "
                            +:+ project_dir self]))
      else
        match value_of (third_party_of h self all_imports) w with
        | Returns third_party =>
            if bool_decide (third_party = ∅) then
              (Returns false,
               printed w (out ++ ["No third-party libraries detected in the code."]))
            else
              write_requirements h self
                (default (requirements_file self) output_file)
                third_party file_count (printed w out)
        | Raises e => (Raises e, printed w out)
        end.
Proof.
  intros Hvalue.
  destruct (analyze_project_prints self) as (vars & out & Hrun).
  apply (prints_value _ _ _ w (all_imports, file_count) Hrun) in Hvalue.
  subst vars.
  exists ("Analyzing Python files to detect imports..." :: out).
  unfold generate_requirements. run. rewrite Hrun.
  cbn [printed console files pyenv].
  destruct (bool_decide (file_count = 0)).
  { cbn [printed console files pyenv]. unfold printed.
    by rewrite <- !app_assoc. }
  match goal with
  | |- context [third_party_of h self all_imports ?w'] => set (w1 := w')
  end.
  assert (w1 = printed w ("Analyzing Python files to detect imports..." :: out))
    as Hw1.
  { unfold w1, printed. cbn [console files pyenv]. by rewrite <- app_assoc. }
  rewrite <- (third_party_of_pyenv self all_imports w w1) by done.
  unfold value_of.
  destruct (third_party_of_run self all_imports w1) as (r & -> & _).
  cbn [fst]. rewrite <- Hw1. destruct r as [tp|e]; [|done].
  destruct (bool_decide (tp = ∅)); [|done].
  rewrite Hw1. unfold printed. cbn [console files pyenv].
  by rewrite <- !app_assoc.
Qed.

(** C4. When the scan finds no Python file, or the classification leaves
    no third-party name, [generate_requirements] returns [False], its last
    message says which of the two happened, and nothing but the console
    changes: the manifest keeps its content, or stays absent. *)
Theorem generate_requirements_nothing_to_write
    self output_file w all_imports file_count :
  value_of (analyze_project h self) w = Returns (all_imports, file_count) →
  file_count = 0
  ∨ value_of (third_party_of h self all_imports) w = Returns ∅ →
  ∃ w' message,
    generate_requirements h self output_file w = (Returns false, w')
    ∧ files w' = files w
    ∧ pyenv w' = pyenv w
    ∧ last (console w') = Some message
    ∧ (file_count = 0 →
       message = "No Python files found to analyze in " +:+ project_dir self)
    ∧ (file_count ≠ 0 →
       message = "No third-party libraries detected in the code.").
Proof.
  intros Hscan Hnothing.
  destruct (generate_requirements_cases self output_file w _ _ Hscan)
    as (out & ->).
  destruct (bool_decide_reflect (file_count = 0)) as [Hzero|Hfiles].
  - eexists _, _. split; [reflexivity|]. cbn [printed files pyenv console].
    rewrite app_assoc, last_snoc. by repeat split.
  - destruct Hnothing as [?| ->]; [done|].
    rewrite bool_decide_eq_true_2 by done.
    eexists _, _. split; [reflexivity|]. cbn [printed files pyenv console].
    rewrite app_assoc, last_snoc. by repeat split.
Qed.

(** A successful run has found files and third-party names, and has
    written the manifest of these names. *)
Lemma generate_requirements_true self output_file w w' :
  generate_requirements h self output_file w = (Returns true, w') →
  ∃ all_imports file_count third_party out,
    value_of (analyze_project h self) w = Returns (all_imports, file_count)
    ∧ file_count ≠ 0
    ∧ value_of (third_party_of h self all_imports) w = Returns third_party
    ∧ third_party ≠ ∅
    ∧ w' = World (console w ++ out)
                 (<[default (requirements_file self) output_file :=
                      TextFile (manifest_of h self (pyenv w) third_party)]>
                    (files w))
                 (pyenv w).
Proof.
  intros Hrun.
  destruct (analyze_project_prints self) as ([ai fc] & out0 & Hscan).
  assert (value_of (analyze_project h self) w = Returns (ai, fc)) as Hvalue.
  { unfold value_of. by rewrite Hscan. }
  destruct (generate_requirements_cases self output_file w _ _ Hvalue)
    as (out & Hcases).
  rewrite Hcases in Hrun. clear Hcases.
  destruct (bool_decide_reflect (fc = 0)) as [?|Hfc]; [done|].
  destruct (value_of (third_party_of h self ai) w) as [tp|e] eqn:Htp; [|done].
  destruct (bool_decide_reflect (tp = ∅)) as [?|Hne]; [done|].
  destruct (write_requirements_run self
              (default (requirements_file self) output_file) tp fc
              (printed w out)) as (out' & Hwrite).
  rewrite Hwrite in Hrun. cbn [printed files pyenv console] in Hrun.
  exists ai, fc, tp, (out ++ out'). repeat split; try done.
  destruct (files w !! default (requirements_file self) output_file)
    as [[c|e]|]; simplify_eq; by rewrite <- app_assoc.
Qed.

(** A run that finds files and third-party names writes the manifest and
    returns [True], provided the file can be written. *)
Lemma generate_requirements_writes
    self output_file w all_imports file_count third_party :
  value_of (analyze_project h self) w = Returns (all_imports, file_count) →
  file_count ≠ 0 →
  value_of (third_party_of h self all_imports) w = Returns third_party →
  third_party ≠ ∅ →
  (∀ e, files w !! default (requirements_file self) output_file
        ≠ Some (Faulty e)) →
  ∃ out,
    generate_requirements h self output_file w
    = (Returns true,
       World (console w ++ out)
             (<[default (requirements_file self) output_file :=
                  TextFile (manifest_of h self (pyenv w) third_party)]>
                (files w))
             (pyenv w)).
Proof.
  intros Hscan Hfc Htp Hne Hfile.
  destruct (generate_requirements_cases self output_file w _ _ Hscan)
    as (out & ->).
  rewrite bool_decide_eq_false_2 by done. rewrite Htp.
  rewrite bool_decide_eq_false_2 by done.
  destruct (write_requirements_run self
              (default (requirements_file self) output_file) third_party
              file_count (printed w out)) as (out' & ->).
  cbn [printed files pyenv console].
  exists (out ++ out').
  destruct (files w !! default (requirements_file self) output_file)
    as [[c|e]|] eqn:Hlookup; rewrite <- ?app_assoc; try done.
  by destruct (Hfile e).
Qed.

End Generating.

(** ** Running again *)

Section Rerunning.

Context {P : Type} (h : Host P).

(** [sorted] gives the same list for all orders of iteration. *)
Lemma sorted_set_order (o1 o2 : set_iteration) (s : gset string) :
  Py.sorted (o1 s) = Py.sorted (o2 s).
Proof.
  unfold Py.sorted.
  apply (Sorted_unique String.le); try apply Sorted_merge_sort; try apply _.
  rewrite !merge_sort_Permutation. by rewrite !iterate_perm.
Qed.

Lemma sorted_elem (o : set_iteration) (s : gset string) m :
  m ∈ Py.sorted (o s) ↔ m ∈ s.
Proof.
  unfold Py.sorted. by rewrite merge_sort_Permutation, set_order_elem.
Qed.

Lemma manifest_of_later self env third_party t o :
  manifest_of (later_run h t o) self env third_party
  = ("# Automatically generated by pythonDependencies.py" +:+ NL) +:+
    "# Date: " +:+ strftime t +:+ NL +:+
    "# Project: " +:+ Py.basename (project_dir self) +:+ NL +:+ NL +:+
    (if bool_decide (not_installed_of h self env third_party = []) then ""
     else warning_block) +:+
    String.concat "" ((λ req, req +:+ NL) <$> requirements_of h self env third_party).
Proof.
  unfold manifest_of, manifest_text, requirements_of, not_installed_of.
  cbn [set_order now later_run].
  by rewrite (sorted_set_order o (set_order h) third_party).
Qed.

Lemma manifest_of_text self env third_party :
  manifest_of h self env third_party
  = ("# Automatically generated by pythonDependencies.py" +:+ NL) +:+
    "# Date: " +:+ strftime (now h) +:+ NL +:+
    "# Project: " +:+ Py.basename (project_dir self) +:+ NL +:+ NL +:+
    (if bool_decide (not_installed_of h self env third_party = []) then ""
     else warning_block) +:+
    String.concat "" ((λ req, req +:+ NL) <$> requirements_of h self env third_party).
Proof. reflexivity. Qed.

(** C6. After a successful run, a second run on the same sources and the
    same environment, at another time and with another order of iteration
    over sets, succeeds and writes the same manifest but for the line of
    the date. *)
Theorem generate_requirements_idempotent self output_file w w1 t o :
  generate_requirements h self output_file w = (Returns true, w1) →
  ∃ w2 rest,
    generate_requirements (later_run h t o) self output_file w1
    = (Returns true, w2)
    ∧ files w1 !! default (requirements_file self) output_file
      = Some (TextFile
                (("# Automatically generated by pythonDependencies.py" +:+ NL)
                 +:+ "# Date: " +:+ strftime (now h) +:+ NL +:+ rest))
    ∧ files w2 !! default (requirements_file self) output_file
      = Some (TextFile
                (("# Automatically generated by pythonDependencies.py" +:+ NL)
                 +:+ "# Date: " +:+ strftime t +:+ NL +:+ rest)).
Proof.
  intros Hfirst.
  apply generate_requirements_true in Hfirst
    as (ai & fc & tp & out & Hscan & Hfc & Htp & Hne & ->).
  set (path := default (requirements_file self) output_file).
  set (w1 := World _ _ _).
  assert (value_of (analyze_project (later_run h t o) self) w1
          = Returns (ai, fc)) as Hscan'.
  { change (analyze_project (later_run h t o) self)
      with (analyze_project h self).
    by rewrite (analyze_project_value h self w1 w). }
  assert (value_of (third_party_of (later_run h t o) self ai) w1 = Returns tp)
    as Htp' by by apply (third_party_of_later h self ai w w1).
  destruct (generate_requirements_writes (later_run h t o) self output_file
              w1 ai fc tp Hscan' Hfc Htp' Hne) as (out' & Hsecond).
  { intros e. unfold w1, path. cbn [files]. by rewrite lookup_insert_eq. }
  eexists _, _. split; [apply Hsecond|]. unfold w1. cbn [files pyenv].
  fold path. rewrite !lookup_insert_eq, manifest_of_later, manifest_of_text.
  by split.
Qed.

End Rerunning.

(** ** Characters of the texts read and written *)

Section Characters.

Lemma all_chars_app p s1 s2 :
  all_chars p (s1 +:+ s2) = all_chars p s1 && all_chars p s2.
Proof.
  induction s1 as [|c s1 IH]; simpl; [done|]. by rewrite IH, andb_assoc.
Qed.

Lemma all_chars_impl (p q : ascii → bool) s :
  (∀ c, p c = true → q c = true) → all_chars p s = true → all_chars q s = true.
Proof.
  intros Hpq. induction s as [|c s IH]; simpl; [done|].
  intros [Hc Hs]%andb_prop. by rewrite (Hpq c Hc), IH.
Qed.

Lemma all_chars_lstrip p s :
  all_chars p s = true → all_chars p (Py.lstrip s) = true.
Proof.
  induction s as [|c s IH]; simpl; [done|].
  intros [Hc Hs]%andb_prop. destruct (Py.isspace c); [by apply IH|].
  simpl. by rewrite Hc, Hs.
Qed.

Lemma all_chars_rstrip p s :
  all_chars p s = true → all_chars p (Py.rstrip s) = true.
Proof.
  induction s as [|c s IH]; simpl; [done|].
  intros [Hc Hs]%andb_prop. specialize (IH Hs).
  destruct (Py.rstrip s) as [|c' r].
  - destruct (Py.isspace c); simpl; [done | by rewrite Hc].
  - simpl in *. by rewrite Hc, IH.
Qed.

Lemma all_chars_strip p s :
  all_chars p s = true → all_chars p (Py.strip s) = true.
Proof. intros Hs. by apply all_chars_rstrip, all_chars_lstrip. Qed.

Lemma all_chars_split_once p sep s :
  all_chars p s = true →
  Forall (λ x, all_chars p x = true) (Py.split_once sep s).
Proof.
  induction s as [|c s IH]; simpl; [by repeat constructor|].
  intros [Hc Hs]%andb_prop. destruct (Ascii.eqb c sep).
  - by repeat constructor.
  - specialize (IH Hs). destruct (Py.split_once sep s) as [|x xs].
    + repeat constructor. simpl. by rewrite Hc.
    + inversion IH; subst. constructor; [|done]. simpl. by rewrite Hc.
Qed.

(** No line of [splitlines] holds a line boundary. *)
Lemma splitlines_no_break s :
  Forall (λ line, all_chars (λ c, negb (Py.islinebreak c)) line = true)
         (Py.splitlines s).
Proof.
  remember (String.length s) as n eqn:Hn.
  assert (String.length s ≤ n) as Hle by lia. clear Hn.
  revert s Hle. induction n as [|n IH]; intros [|c s] Hle; simpl in *;
    try (constructor || lia).
  destruct (Py.islinebreak c) eqn:Hc.
  - constructor; [done|]. destruct s as [|c' s']; [constructor|].
    destruct (Ascii.eqb c Py.CR && Ascii.eqb c' Py.LF).
    + apply IH. simpl in Hle. lia.
    + apply IH. lia.
  - assert (Forall (λ line, all_chars (λ c, negb (Py.islinebreak c)) line = true)
                   (Py.splitlines s)) as Hs by (apply IH; lia).
    destruct (Py.splitlines s) as [|l ls].
    + repeat constructor. simpl. by rewrite Hc.
    + inversion Hs; subst. constructor; [|done]. simpl. by rewrite Hc.
Qed.

Lemma version_field_chars p lines v :
  Forall (λ line, all_chars p line = true) lines →
  version_field lines = Some v → all_chars p v = true.
Proof.
  induction 1 as [|line lines Hline _ IH]; simpl; [done|].
  destruct (Py.startswith "Version:" line); [|done].
  pose proof (all_chars_split_once p ":" line Hline) as Hparts.
  destruct (Py.split_once ":" line !! 1) as [x|] eqn:Hx; [|done].
  simpl. intros [= <-]. apply all_chars_strip.
  rewrite Forall_forall in Hparts. apply Hparts.
  by apply list_elem_of_lookup_2 in Hx.
Qed.

Lemma linebreak_not_one_line c :
  negb (Py.islinebreak c) = true →
  negb (Ascii.eqb c Py.CR) && negb (Ascii.eqb c Py.LF) = true.
Proof.
  destruct (Ascii.eqb_spec c Py.CR) as [->|]; [done|].
  destruct (Ascii.eqb_spec c Py.LF) as [->|]; done.
Qed.

(** A version that [pip show] reports holds no line end. *)
Lemma get_package_version_one_line {P} (h : Host P) env name v :
  get_package_version h env name = Some v → one_line v = true.
Proof.
  unfold get_package_version, one_line.
  destruct (pip_show h env name) as [result|e]; [|done].
  destruct (bool_decide _); [done|]. intros Hv.
  eapply all_chars_impl; [apply linebreak_not_one_line|].
  eapply version_field_chars; [apply splitlines_no_break | done].
Qed.

Lemma append_cons c s1 s2 : String c s1 +:+ s2 = String c (s1 +:+ s2).
Proof. reflexivity. Qed.

Lemma append_nil_r s : s +:+ "" = s.
Proof.
  induction s as [|c s IH]; [done|]. by rewrite append_cons, IH.
Qed.

Lemma append_assoc s1 s2 s3 : (s1 +:+ s2) +:+ s3 = s1 +:+ s2 +:+ s3.
Proof.
  induction s1 as [|c s1 IH]; [done|]. by rewrite !append_cons, IH.
Qed.

Lemma prefix_append p s : String.prefix p (p +:+ s) = true.
Proof.
  induction p as [|c p IH]; [by destruct s|].
  rewrite append_cons. simpl. destruct (ascii_dec c c); [done | congruence].
Qed.

Lemma string_of_uint_one_line u :
  one_line (DecimalString.NilEmpty.string_of_uint u) = true.
Proof. unfold one_line. induction u; simpl; done. Qed.

Lemma str_of_nat_one_line n : one_line (str_of_nat n) = true.
Proof.
  unfold str_of_nat, DecimalString.NilZero.string_of_uint.
  destruct (Nat.to_uint n) eqn:Hu; try done; rewrite <- Hu;
    apply string_of_uint_one_line.
Qed.

Lemma zero_pad_one_line width s :
  one_line s = true → one_line (zero_pad width s) = true.
Proof.
  intros Hs. unfold zero_pad, one_line in *. rewrite all_chars_app, Hs.
  rewrite andb_true_r. by induction (width - String.length s).
Qed.

Lemma strftime_one_line t : one_line (strftime t) = true.
Proof.
  unfold strftime, one_line.
  rewrite !all_chars_app.
  repeat (apply andb_true_intro; split);
    try done; apply zero_pad_one_line, str_of_nat_one_line.
Qed.

Lemma one_line_no_CR s :
  one_line s = true → all_chars (λ c, negb (Ascii.eqb c Py.CR)) s = true.
Proof. apply all_chars_impl. by intros c [? _]%andb_prop. Qed.

Lemma one_line_no_LF s :
  one_line s = true → all_chars (λ c, negb (Ascii.eqb c Py.LF)) s = true.
Proof. apply all_chars_impl. by intros c [_ ?]%andb_prop. Qed.

(** Reading translates nothing in a text without carriage return. *)
Lemma universal_newlines_no_CR s :
  all_chars (λ c, negb (Ascii.eqb c Py.CR)) s = true →
  Py.universal_newlines s = s.
Proof.
  induction s as [|c s IH]; [done|]. rewrite ?append_cons. simpl.
  intros [Hc Hs]%andb_prop. apply negb_true_iff in Hc. rewrite Hc.
  by rewrite IH.
Qed.

(** The first line of a text that starts with a line and its end. *)
Lemma keepends_first_line s rest :
  all_chars (λ c, negb (Ascii.eqb c Py.LF)) s = true →
  Py.keepends (s +:+ NL +:+ rest) = (s +:+ NL) :: Py.keepends rest.
Proof.
  induction s as [|c s IH]; [done|]. rewrite ?append_cons. simpl.
  intros [Hc Hs]%andb_prop. apply negb_true_iff in Hc. rewrite Hc.
  by rewrite IH.
Qed.

Lemma ends_line_one_line s :
  all_chars (λ c, negb (Ascii.eqb c Py.LF)) s = true →
  Py.ends_line (s +:+ NL) = true.
Proof.
  induction s as [|c s IH]; [done|]. rewrite ?append_cons. simpl.
  intros [Hc Hs]%andb_prop. apply negb_true_iff in Hc. rewrite Hc.
  by apply IH.
Qed.

(** A comment line of the header gives no package. *)
Lemma clean_line_header text :
  one_line text = true → clean_line (("# " +:+ text) +:+ NL) = "".
Proof.
  intros Htext. apply clean_line_comment_or_blank; [|done].
  apply ends_line_one_line. simpl. by apply one_line_no_LF.
Qed.

Lemma sub_comment_plain a b :
  all_chars is_plain_char a = true →
  Py.sub_comment (a +:+ b) = a +:+ Py.sub_comment b.
Proof.
  induction a as [|c a IH]; [done|]. rewrite ?append_cons. simpl.
  intros [Hc Ha]%andb_prop. unfold is_plain_char in Hc.
  apply andb_prop in Hc as [_ Hc]. apply negb_true_iff in Hc.
  rewrite Hc. simpl. by rewrite IH.
Qed.

Lemma rstrip_plain a b :
  all_chars is_plain_char a = true →
  Py.rstrip (a +:+ b) = a +:+ Py.rstrip b.
Proof.
  induction a as [|c a IH]; [done|]. rewrite ?append_cons. simpl.
  intros [Hc Ha]%andb_prop. rewrite (IH Ha).
  unfold is_plain_char in Hc.
  apply andb_prop in Hc as [[Hc _]%andb_prop _]. apply negb_true_iff in Hc.
  rewrite Hc. by destruct (a +:+ Py.rstrip b).
Qed.

Lemma lstrip_plain a :
  all_chars is_plain_char a = true → Py.lstrip a = a.
Proof.
  destruct a as [|c a]; simpl; [done|].
  intros [Hc Ha]%andb_prop. unfold is_plain_char in Hc.
  apply andb_prop in Hc as [[Hc _]%andb_prop _]. apply negb_true_iff in Hc.
  by rewrite Hc.
Qed.

Lemma lstrip_cons c s :
  Py.isspace c = false → Py.lstrip (String c s) = String c s.
Proof. simpl. by intros ->. Qed.

Lemma strip_plain a b :
  is_plain_name a = true → Py.strip (a +:+ b) = a +:+ Py.rstrip b.
Proof.
  unfold is_plain_name, Py.strip. intros [Hne Ha]%andb_prop.
  destruct a as [|c a]; [done|]. rewrite <- (rstrip_plain _ b Ha).
  rewrite append_cons. rewrite lstrip_cons; [done|].
  simpl in Ha. apply andb_prop in Ha as [Hc _].
  unfold is_plain_char in Hc.
  apply andb_prop in Hc as [[Hc _]%andb_prop _]. by apply negb_true_iff in Hc.
Qed.

Lemma split_at_plain a b :
  all_chars is_plain_char a = true →
  hd "" (Py.split_at is_operator_char (a +:+ b))
  = a +:+ hd "" (Py.split_at is_operator_char b).
Proof.
  induction a as [|c a IH]; [done|]. rewrite ?append_cons. simpl.
  intros [Hc Ha]%andb_prop. unfold is_plain_char in Hc.
  apply andb_prop in Hc as [[_ Hc]%andb_prop _]. apply negb_true_iff in Hc.
  rewrite Hc. specialize (IH Ha).
  destruct (split_at_cons is_operator_char (a +:+ b)) as (x & xs & Hx).
  rewrite Hx in IH |- *. simpl in *. by rewrite IH.
Qed.

(** The manifest reader finds a plain name again when nothing, or a
    comparison, follows it. *)
Lemma base_package_plain a b :
  is_plain_name a = true →
  b = "" ∨ (∃ c b', b = String c b' ∧ is_operator_char c = true) →
  base_package (a +:+ b) = a.
Proof.
  intros Ha Hb. unfold base_package.
  pose proof Ha as [_ Hchars]%andb_prop.
  rewrite split_at_plain by done.
  assert (hd "" (Py.split_at is_operator_char b) = "") as ->.
  { destruct Hb as [->|(c & b' & -> & Hc)]; [done|]. simpl. by rewrite Hc. }
  rewrite <- (append_nil_r (a +:+ "")), append_assoc.
  rewrite strip_plain by done. simpl. by rewrite append_nil_r.
Qed.

(** A line of the manifest with a plain name, alone or followed by a
    comparison, is read as a package of that name. *)
Lemma clean_line_requirement a tail :
  is_plain_name a = true →
  tail = NL ∨ (∃ t, tail = String ">" t) →
  clean_line (a +:+ tail) ≠ "" ∧ base_package (clean_line (a +:+ tail)) = a.
Proof.
  intros Ha Htail. pose proof Ha as [Hne Hchars]%andb_prop.
  unfold clean_line. rewrite sub_comment_plain, strip_plain by done.
  split.
  - destruct a; [done|]. done.
  - apply base_package_plain; [done|].
    destruct Htail as [->|[t ->]]; [by left|]. right.
    simpl. destruct (Py.rstrip (Py.sub_comment t)); by eauto.
Qed.

Lemma identifier_char_plain c :
  is_identifier_char c = true → is_plain_char c = true.
Proof. destruct c as [[] [] [] [] [] [] [] []]; vm_compute; done. Qed.

Lemma identifier_start_char c :
  is_identifier_start c = true → is_identifier_char c = true.
Proof. unfold is_identifier_char. by intros ->. Qed.

(** An identifier is a plain name. *)
Lemma identifier_plain s : is_identifier s = true → is_plain_name s = true.
Proof.
  destruct s as [|c s]; [done|]. unfold is_identifier, is_plain_name.
  intros [Hc Hs]%andb_prop. simpl.
  rewrite (identifier_char_plain c) by by apply identifier_start_char.
  simpl. eapply all_chars_impl; [apply identifier_char_plain | done].
Qed.

(** The distribution names of the table are plain names, and none of them
    is itself a module name of the table. *)
Lemma table_values m p :
  MODULE_TO_PACKAGE !! m = Some p →
  is_plain_name p = true ∧ MODULE_TO_PACKAGE !! p = None.
Proof.
  assert (bool_decide
            (map_Forall (λ (_ : string) p,
                           is_plain_name p = true
                           ∧ MODULE_TO_PACKAGE !! p = None)
                        MODULE_TO_PACKAGE) = true) as Htable
    by (vm_compute; reflexivity).
  apply bool_decide_eq_true in Htable. apply Htable.
Qed.

Lemma package_of_init_plain project file m :
  is_identifier m = true → is_plain_name (package_of (init project file) m) = true.
Proof.
  intros Hm. unfold package_of, init. cbn [module_to_package].
  destruct (MODULE_TO_PACKAGE !! m) as [p|] eqn:Hp; simpl.
  - by apply (table_values m p).
  - by apply identifier_plain.
Qed.

Lemma plain_one_line s : all_chars is_plain_char s = true → one_line s = true.
Proof.
  apply all_chars_impl. intros c. unfold is_plain_char.
  intros [[Hc _]%andb_prop _]%andb_prop.
  destruct (Ascii.eqb_spec c Py.CR) as [->|]; [done|].
  destruct (Ascii.eqb_spec c Py.LF) as [->|]; done.
Qed.

Lemma concat_cons x xs : String.concat "" (x :: xs) = x +:+ String.concat "" xs.
Proof. destruct xs; simpl; [by rewrite append_nil_r | done]. Qed.

(** A text made of lines is read back as these lines. *)
Lemma readlines_lines lines :
  Forall (λ line, one_line line = true) lines →
  Py.readlines (String.concat "" ((λ line, line +:+ NL) <$> lines))
  = (λ line, line +:+ NL) <$> lines.
Proof.
  intros Hlines. unfold Py.readlines.
  rewrite universal_newlines_no_CR.
  - induction Hlines as [|line lines Hline _ IH]; [done|].
    rewrite fmap_cons, concat_cons, append_assoc.
    rewrite keepends_first_line by by apply one_line_no_LF.
    by rewrite IH.
  - induction Hlines as [|line lines Hline _ IH]; [done|].
    rewrite fmap_cons, concat_cons, !all_chars_app, IH.
    by rewrite (one_line_no_CR line Hline).
Qed.

End Characters.

(** ** Reading a generated manifest back *)

Section Manifests.

Context {P : Type} (h : Host P).

Lemma concat_app l1 l2 :
  String.concat "" (l1 ++ l2) = String.concat "" l1 +:+ String.concat "" l2.
Proof.
  induction l1 as [|x l1 IH]; [done|].
  rewrite <- app_comm_cons, !concat_cons, IH. by rewrite append_assoc.
Qed.

(** The manifest is made of the lines of its header and of the specifier
    lines, each with its line end. *)
Lemma manifest_text_lines self requirements not_installed_packages :
  manifest_text h self requirements not_installed_packages
  = String.concat ""
      ((λ line, line +:+ NL)
         <$> (header_lines h self not_installed_packages ++ requirements)).
Proof.
  unfold manifest_text, header_lines, warning_block.
  rewrite fmap_app, concat_app.
  destruct (bool_decide (not_installed_packages = []));
    cbn [app fmap list_fmap]; rewrite !concat_cons, !append_assoc;
    reflexivity.
Qed.

Lemma header_lines_one_line self not_installed_packages :
  one_line (Py.basename (project_dir self)) = true →
  Forall (λ line, one_line line = true)
         (header_lines h self not_installed_packages).
Proof.
  intros Hproject. unfold header_lines. apply Forall_app. split.
  - repeat constructor.
    + unfold one_line. rewrite all_chars_app. apply andb_true_intro.
      split; [done | apply strftime_one_line].
    + unfold one_line. rewrite all_chars_app. apply andb_true_intro.
      by split.
  - destruct (bool_decide _); by repeat constructor.
Qed.

Lemma header_lines_clean self not_installed_packages :
  one_line (Py.basename (project_dir self)) = true →
  Forall (λ line, clean_line (line +:+ NL) = "")
         (header_lines h self not_installed_packages).
Proof.
  intros Hproject. unfold header_lines. apply Forall_app. split.
  - repeat constructor.
    + apply (clean_line_header ("Date: " +:+ strftime (now h))).
      unfold one_line. rewrite all_chars_app. apply andb_true_intro.
      split; [done | apply strftime_one_line].
    + apply (clean_line_header ("Project: " +:+ Py.basename (project_dir self))).
      unfold one_line. rewrite all_chars_app. apply andb_true_intro.
      by split.
  - destruct (bool_decide _); by repeat constructor.
Qed.

(** The specifier line of a module whose distribution has a plain name:
    it stays on one line, it begins with the distribution name, and the
    manifest reader finds that name in it. *)
Lemma requirement_line self env m :
  is_plain_name (package_of self m) = true →
  one_line (get_package_info h self env m) = true
  ∧ Py.startswith (package_of self m) (get_package_info h self env m) = true
  ∧ base_package (get_package_info h self env m) = package_of self m
  ∧ clean_line (get_package_info h self env m +:+ NL) ≠ ""
  ∧ base_package (clean_line (get_package_info h self env m +:+ NL))
    = package_of self m.
Proof.
  intros Hplain. unfold get_package_info. fold (package_of self m).
  set (pkg := package_of self m) in *.
  pose proof Hplain as [_ Hchars]%andb_prop.
  destruct (truthy (get_package_version h env pkg)) eqn:Htruthy.
  - destruct (get_package_version h env pkg) as [v|] eqn:Hv; [|done].
    cbn [from_option id]. repeat split.
    + pose proof (plain_one_line pkg Hchars) as Hpkg.
      pose proof (get_package_version_one_line h env pkg v Hv) as Hversion.
      unfold one_line in *. by rewrite !all_chars_app, Hpkg, Hversion.
    + apply prefix_append.
    + apply base_package_plain; [done|]. right. by eexists _, _.
    + rewrite append_assoc.
      apply (clean_line_requirement pkg (">=" +:+ v +:+ NL)); by eauto.
    + rewrite append_assoc.
      apply (clean_line_requirement pkg (">=" +:+ v +:+ NL)); by eauto.
  - repeat split.
    + by apply plain_one_line.
    + rewrite <- (append_nil_r pkg) at 2. apply prefix_append.
    + rewrite <- (append_nil_r pkg) at 1. apply base_package_plain; by eauto.
    + apply clean_line_requirement; by eauto.
    + apply clean_line_requirement; by eauto.
Qed.

(** Read back from the manifest, the line of a module still begins with
    the name of its distribution. *)
Lemma requirement_line_read self env m :
  is_plain_name (package_of self m) = true →
  Py.startswith (package_of self m)
                (clean_line (get_package_info h self env m +:+ NL)) = true.
Proof.
  intros Hplain. pose proof Hplain as [_ Hchars]%andb_prop.
  assert (∀ tail, Py.startswith (package_of self m)
                    (clean_line (package_of self m +:+ tail)) = true) as Hstart.
  { intros tail. unfold clean_line.
    rewrite sub_comment_plain, strip_plain by done. apply prefix_append. }
  unfold get_package_info. fold (package_of self m).
  destruct (truthy (get_package_version h env (package_of self m)));
    rewrite ?append_assoc; apply Hstart.
Qed.

(** The text of the manifest for a set of third-party modules, as lines. *)
Lemma manifest_of_lines self env third_party :
  manifest_of h self env third_party
  = unlines (header_lines h self (not_installed_of h self env third_party)
             ++ requirements_of h self env third_party).
Proof. unfold manifest_of, unlines. apply manifest_text_lines. Qed.

Lemma header_gives_no_package lines :
  Forall (λ line, clean_line (line +:+ NL) = "") lines →
  filter (λ req, req ≠ "") (clean_line <$> ((λ line, line +:+ NL) <$> lines))
  = [].
Proof.
  induction 1 as [|line lines Hline _ IH]; [done|].
  rewrite !fmap_cons, filter_cons, Hline. by rewrite decide_False by auto.
Qed.

(** Reading a generated manifest gives one package for each detected
    module, in the order of the manifest: the specifier line of the module
    as the reader cleans it. *)
Lemma manifest_read_back self env third_party :
  (∀ m, m ∈ third_party → is_plain_name (package_of self m) = true) →
  one_line (Py.basename (project_dir self)) = true →
  manifest_packages (Py.readlines (manifest_of h self env third_party))
  = (λ m, clean_line (get_package_info h self env m +:+ NL))
      <$> Py.sorted (set_order h third_party).
Proof.
  intros Hplain Hproject. unfold manifest_of.
  assert (∀ m, m ∈ Py.sorted (set_order h third_party) →
               is_plain_name (package_of self m) = true) as Hsorted.
  { intros m Hm. apply Hplain. by apply sorted_elem in Hm. }
  rewrite manifest_text_lines, readlines_lines.
  - unfold manifest_packages. rewrite !fmap_app, filter_app.
    rewrite header_gives_no_package by by apply header_lines_clean.
    unfold requirements_of. cbn [app].
    induction (Py.sorted (set_order h third_party)) as [|m l IH]; [done|].
    rewrite !fmap_cons, filter_cons.
    destruct (requirement_line self env m) as (_ & _ & _ & Hne & _).
    { apply Hsorted. by left. }
    rewrite decide_True by done. f_equal. apply IH.
    intros m' Hm'. apply Hsorted. by right.
  - apply Forall_app. split; [by apply header_lines_one_line|].
    unfold requirements_of. apply Forall_fmap, Forall_forall.
    intros m Hm. by apply requirement_line, Hsorted.
Qed.

(** The missing packages of a generated manifest are the lines of the
    modules whose distribution is not installed. *)
Lemma missing_of_manifest self env third_party :
  (∀ m, m ∈ third_party → is_plain_name (package_of self m) = true) →
  one_line (Py.basename (project_dir self)) = true →
  missing_of h env (manifest_of h self env third_party)
  = (λ m, clean_line (get_package_info h self env m +:+ NL))
      <$> filter (λ m, is_installed h self env m = false)
                 (Py.sorted (set_order h third_party)).
Proof.
  intros Hplain Hproject. unfold missing_of.
  rewrite manifest_read_back by done.
  assert (∀ m, m ∈ Py.sorted (set_order h third_party) →
               is_plain_name (package_of self m) = true) as Hsorted.
  { intros m Hm. apply Hplain. by apply sorted_elem in Hm. }
  induction (Py.sorted (set_order h third_party)) as [|m l IH]; [done|].
  rewrite fmap_cons, !filter_cons, IH by (intros m' Hm'; apply Hsorted; by right).
  destruct (requirement_line self env m) as (_ & _ & _ & _ & Hbase).
  { apply Hsorted. by left. }
  assert (is_missing h env (clean_line (get_package_info h self env m +:+ NL))
          = negb (is_installed h self env m)) as Hmissing.
  { unfold is_missing, is_installed. by rewrite Hbase. }
  destruct (is_installed h self env m).
  - rewrite (decide_False (P:=true = false)) by done.
    by rewrite decide_False by by rewrite Hmissing.
  - rewrite (decide_True (P:=false = false)) by done.
    by rewrite decide_True by by rewrite Hmissing.
Qed.

End Manifests.

(** ** The lines of a generated manifest *)

Section Specifiers.

Context {P : Type} (h : Host P).

(** What a successful run of [generate_requirements] has written, given
    what its scan and its classification return. *)
Lemma generate_requirements_manifest
    self output_file w w' all_imports file_count third_party :
  value_of (analyze_project h self) w = Returns (all_imports, file_count) →
  value_of (third_party_of h self all_imports) w = Returns third_party →
  generate_requirements h self output_file w = (Returns true, w') →
  ∃ out,
    w' = World (console w ++ out)
               (<[default (requirements_file self) output_file :=
                    TextFile (manifest_of h self (pyenv w) third_party)]>
                  (files w))
               (pyenv w).
Proof.
  intros Hscan Htp Hrun.
  apply generate_requirements_true in Hrun
    as (ai & fc & tp & out & Hscan' & _ & Htp' & _ & ->).
  rewrite Hscan in Hscan'. injection Hscan' as <- <-.
  rewrite Htp in Htp'. injection Htp' as <-. by exists out.
Qed.

Lemma detected_identifiers self w all_imports file_count third_party :
  parser_sound h →
  value_of (analyze_project h self) w = Returns (all_imports, file_count) →
  value_of (third_party_of h self all_imports) w = Returns third_party →
  ∀ m, m ∈ third_party → is_identifier m = true.
Proof.
  intros Hsound Hscan Htp m Hm.
  apply (analyze_project_identifiers h self w all_imports file_count Hsound Hscan).
  by apply (third_party_of_subset h self all_imports w third_party Htp).
Qed.

Lemma requirements_of_elem self env third_party line :
  line ∈ requirements_of h self env third_party ↔
  ∃ m, m ∈ third_party ∧ line = get_package_info h self env m.
Proof.
  unfold requirements_of. rewrite list_elem_of_fmap.
  split; intros (m & ? & Hm); exists m; by apply sorted_elem in Hm || (split; [|apply sorted_elem]).
Qed.

(** C3, as the code has it. The text that a successful run writes is made
    of the lines of the header followed by the specifier lines, each with
    its line end. Every detected third-party module that is a key of the
    alias table has a specifier line that begins with the mapped
    distribution name and whose base name, as the manifest reader
    extracts it, is that name; and no specifier line has the raw import
    name as its base name. When the name of the project directory holds
    no line end, the same is true of the packages that the manifest
    reader finds in the written text. *)
Theorem alias_substitution
    project file output_file w w' all_imports file_count third_party :
  parser_sound h →
  value_of (analyze_project h (init project file)) w
  = Returns (all_imports, file_count) →
  value_of (third_party_of h (init project file) all_imports) w
  = Returns third_party →
  generate_requirements h (init project file) output_file w
  = (Returns true, w') →
  ∃ content requirements not_installed_packages,
    files w' !! default (requirements_file (init project file)) output_file
    = Some (TextFile content)
    ∧ content
      = unlines (header_lines h (init project file) not_installed_packages
                 ++ requirements)
    ∧ ∀ m p,
        m ∈ third_party → MODULE_TO_PACKAGE !! m = Some p →
        (∃ line, line ∈ requirements
                 ∧ Py.startswith p line = true ∧ base_package line = p)
        ∧ (∀ line, line ∈ requirements → base_package line ≠ m)
        ∧ (one_line (Py.basename project) = true →
           (∃ package,
              package ∈ manifest_packages (Py.readlines content)
              ∧ Py.startswith p package = true ∧ base_package package = p)
           ∧ ∀ package,
               package ∈ manifest_packages (Py.readlines content) →
               base_package package ≠ m).
Proof.
  intros Hsound Hscan Htp Hrun.
  pose proof (detected_identifiers _ _ _ _ _ Hsound Hscan Htp) as Hid.
  destruct (generate_requirements_manifest _ _ _ _ _ _ _ Hscan Htp Hrun)
    as (out & ->).
  set (self := init project file) in *.
  exists (manifest_of h self (pyenv w) third_party),
         (requirements_of h self (pyenv w) third_party),
         (not_installed_of h self (pyenv w) third_party).
  split; [by cbn [files]; rewrite lookup_insert_eq|].
  split; [apply manifest_of_lines|].
  intros m p Hm Hp.
  assert (package_of self m = p) as Hpackage.
  { unfold package_of, self, init. cbn [module_to_package]. by rewrite Hp. }
  assert (∀ m', m' ∈ third_party → is_plain_name (package_of self m') = true)
    as Hplain.
  { intros m' Hm'. apply package_of_init_plain. by apply Hid. }
  assert (∀ m', m' ∈ third_party → package_of self m' ≠ m) as Hother.
  { intros m' Hm'. unfold package_of, self, init. cbn [module_to_package].
    destruct (MODULE_TO_PACKAGE !! m') as [p'|] eqn:Hp'; simpl.
    - intros ->. apply table_values in Hp' as [_ Hp']. congruence.
    - intros ->. congruence. }
  split; [|split].
  - exists (get_package_info h self (pyenv w) m).
    destruct (requirement_line h self (pyenv w) m) as (_ & Hstart & Hbase & _).
    { rewrite Hpackage. by apply (table_values m p). }
    rewrite Hpackage in Hstart, Hbase. split; [|done].
    apply requirements_of_elem. by exists m.
  - intros line (m' & Hm' & ->)%requirements_of_elem.
    destruct (requirement_line h self (pyenv w) m') as (_ & _ & -> & _);
      [by apply Hplain | by apply Hother].
  - intros Hproject. rewrite manifest_read_back by done. split.
    + exists (clean_line (get_package_info h self (pyenv w) m +:+ NL)).
      destruct (requirement_line h self (pyenv w) m) as (_ & _ & _ & _ & Hbase);
        [by apply Hplain|].
      pose proof (requirement_line_read h self (pyenv w) m (Hplain m Hm))
        as Hstart.
      rewrite Hpackage in Hbase, Hstart. split; [|done].
      apply list_elem_of_fmap. exists m. split; [done|]. by apply sorted_elem.
    + intros package (m' & -> & Hm'%sorted_elem)%list_elem_of_fmap.
      destruct (requirement_line h self (pyenv w) m') as (_ & _ & _ & _ & ->);
        [by apply Hplain | by apply Hother].
Qed.

(** C9. When two distinct detected modules are mapped to the same
    distribution by the alias table, the text of the manifest, made of
    the lines of the header followed by the specifier lines, has the
    specifier line of that distribution at two places: the lines are not
    deduplicated. *)
Theorem same_distribution_twice
    project file output_file w w' all_imports file_count third_party
    m1 m2 p :
  value_of (analyze_project h (init project file)) w
  = Returns (all_imports, file_count) →
  value_of (third_party_of h (init project file) all_imports) w
  = Returns third_party →
  generate_requirements h (init project file) output_file w
  = (Returns true, w') →
  m1 ∈ third_party → m2 ∈ third_party → m1 ≠ m2 →
  MODULE_TO_PACKAGE !! m1 = Some p → MODULE_TO_PACKAGE !! m2 = Some p →
  ∃ requirements not_installed_packages i j line,
    files w' !! default (requirements_file (init project file)) output_file
    = Some (TextFile
              (unlines (header_lines h (init project file)
                                     not_installed_packages
                        ++ requirements)))
    ∧ i ≠ j
    ∧ requirements !! i = Some line ∧ requirements !! j = Some line
    ∧ Py.startswith p line = true ∧ base_package line = p.
Proof.
  intros Hscan Htp Hrun Hm1 Hm2 Hne Hp1 Hp2.
  destruct (generate_requirements_manifest _ _ _ _ _ _ _ Hscan Htp Hrun)
    as (out & ->).
  set (self := init project file) in *.
  assert (package_of self m1 = p) as Hpackage1.
  { unfold package_of, self, init. cbn [module_to_package]. by rewrite Hp1. }
  assert (package_of self m2 = p) as Hpackage2.
  { unfold package_of, self, init. cbn [module_to_package]. by rewrite Hp2. }
  apply (sorted_elem (set_order h)), list_elem_of_lookup_1 in Hm1 as [i Hi].
  apply (sorted_elem (set_order h)), list_elem_of_lookup_1 in Hm2 as [j Hj].
  exists (requirements_of h self (pyenv w) third_party),
         (not_installed_of h self (pyenv w) third_party),
         i, j, (get_package_info h self (pyenv w) m1).
  destruct (requirement_line h self (pyenv w) m1) as (_ & Hstart & Hbase & _).
  { rewrite Hpackage1. by apply (table_values m1 p). }
  rewrite Hpackage1 in Hstart, Hbase.
  split; [by cbn [files]; rewrite lookup_insert_eq, manifest_of_lines|].
  split; [intros ->; congruence|].
  split; [unfold requirements_of; by rewrite list_lookup_fmap, Hi|].
  split; [|done].
  unfold requirements_of. rewrite list_lookup_fmap, Hj. simpl.
  unfold get_package_info. fold (package_of self m1) (package_of self m2).
  by rewrite Hpackage1, Hpackage2.
Qed.

(** C7, as the code has it. After a successful run that found a version
    for every detected distribution, in a project whose directory name
    holds no line end, the check of the manifest in the same environment
    finds no missing package: it returns [True] and only prints. *)
Theorem generate_then_check
    project file auto_install w w1 all_imports file_count third_party :
  parser_sound h →
  one_line (Py.basename project) = true →
  value_of (analyze_project h (init project file)) w
  = Returns (all_imports, file_count) →
  value_of (third_party_of h (init project file) all_imports) w
  = Returns third_party →
  (∀ m, m ∈ third_party →
        is_installed h (init project file) (pyenv w) m = true) →
  generate_requirements h (init project file) None w = (Returns true, w1) →
  ∃ content out,
    files w1 !! requirements_file (init project file) = Some (TextFile content)
    ∧ missing_of h (pyenv w1) content = []
    ∧ check_and_install_dependencies h (init project file) auto_install w1
      = (Returns true, printed w1 out).
Proof.
  intros Hsound Hproject Hscan Htp Hinstalled Hrun.
  pose proof (detected_identifiers _ _ _ _ _ Hsound Hscan Htp) as Hid.
  destruct (generate_requirements_manifest _ _ _ _ _ _ _ Hscan Htp Hrun)
    as (out & ->).
  set (self := init project file) in *.
  set (w1 := World _ _ _).
  assert (files w1 !! requirements_file self
          = Some (TextFile (manifest_of h self (pyenv w) third_party)))
    as Hfile.
  { unfold w1. cbn [files from_option]. by rewrite lookup_insert_eq. }
  assert (∀ m, m ∈ Py.sorted (set_order h third_party) →
               is_installed h self (pyenv w) m = true) as Hsorted.
  { intros m Hm. apply Hinstalled. by apply sorted_elem in Hm. }
  assert (missing_of h (pyenv w1) (manifest_of h self (pyenv w) third_party)
          = []) as Hmissing.
  { cbn [pyenv]. rewrite missing_of_manifest; [| |done].
    - assert (filter (λ m, is_installed h self (pyenv w) m = false)
                     (Py.sorted (set_order h third_party)) = []) as ->; [|done].
      induction (Py.sorted (set_order h third_party)) as [|m l IH]; [done|].
      rewrite filter_cons, decide_False.
      + apply IH. intros m' Hm'. apply Hsorted. by right.
      + rewrite Hsorted by by left. done.
    - intros m Hm. apply package_of_init_plain. by apply Hid. }
  destruct (check_nothing_missing h self auto_install w1 _ Hfile Hmissing)
    as (out' & Hcheck).
  by eexists _, _.
Qed.

End Specifiers.

(** * The properties on the sample project *)

(** The trees of the sample project have the shape the parser gives. *)
Lemma demo_parser_sound : parser_sound Demo.host.
Proof.
  intros path tree. unfold Demo.host, Demo.parses. cbn [open_parse].
  repeat case_match; intros [= <-]; reflexivity.
Qed.

Lemma text_file_inj a b : Some (TextFile a) = Some (TextFile b) → a = b.
Proof. by intros [= ->]. Qed.

Lemma demo_shop_third_party m :
  m ∈ Demo.shop_third_party →
  m = "bs4" ∨ m = "sklearn" ∨ m = "joblib" ∨ m = "requests".
Proof. unfold Demo.shop_third_party. set_solver. Qed.

(** On the sample project: [bs4] is written as [beautifulsoup4]. *)
Lemma alias_substitution_witness :
  files (generate_requirements Demo.host Demo.shop None
           (Demo.start Demo.only_bs4)).2
  !! "/home/u/shop/requirements.txt"
  = Some (TextFile Cases.shop_manifest)
  ∧ ∃ requirements not_installed_packages,
      Cases.shop_manifest
      = unlines (header_lines Demo.host Demo.shop not_installed_packages
                 ++ requirements)
      ∧ (∃ line, line ∈ requirements
                 ∧ Py.startswith "beautifulsoup4" line = true
                 ∧ base_package line = "beautifulsoup4")
      ∧ (∀ line, line ∈ requirements → base_package line ≠ "bs4")
      ∧ (∃ package,
           package ∈ manifest_packages (Py.readlines Cases.shop_manifest)
           ∧ Py.startswith "beautifulsoup4" package = true
           ∧ base_package package = "beautifulsoup4")
      ∧ (∀ package,
           package ∈ manifest_packages (Py.readlines Cases.shop_manifest) →
           base_package package ≠ "bs4").
Proof.
  assert (files (generate_requirements Demo.host Demo.shop None
                   (Demo.start Demo.only_bs4)).2
          !! "/home/u/shop/requirements.txt"
          = Some (TextFile Cases.shop_manifest)) as Htext
    by (vm_compute; reflexivity).
  split; [exact Htext|].
  destruct (alias_substitution Demo.host "/home/u/shop" "requirements.txt"
              None (Demo.start Demo.only_bs4)
              (generate_requirements Demo.host Demo.shop None
                 (Demo.start Demo.only_bs4)).2
              Demo.shop_imports 3 Demo.shop_third_party)
    as (content & requirements & not_installed_packages & Hfile & Hcontent
        & Hlines).
  - apply demo_parser_sound.
  - vm_compute. reflexivity.
  - vm_compute. reflexivity.
  - vm_compute. reflexivity.
  - change (default (requirements_file (init "/home/u/shop" "requirements.txt"))
                    None)
      with "/home/u/shop/requirements.txt" in Hfile.
    rewrite Htext in Hfile. apply text_file_inj in Hfile as <-.
    exists requirements, not_installed_packages. split; [exact Hcontent|].
    destruct (Hlines "bs4" "beautifulsoup4") as (Hline & Hraw & Hread).
    + unfold Demo.shop_third_party. set_solver.
    + reflexivity.
    + destruct Hread as [Hback Hnone]; [reflexivity|].
      split; [exact Hline|]. split; [exact Hraw|].
      split; [exact Hback | exact Hnone].
Defined.

(** C3, as the specification words it, fails when the distribution name
    extends the import name: [discord] is detected in the sample chat
    project and mapped to [discord.py], and the one specifier line of the
    manifest, [discord.py], begins with the raw import name. *)
Lemma alias_line_begins_with_import_name :
  value_of (third_party_of Demo.host Demo.chat {[ "discord" ]}) (Demo.start [])
  = Returns {[ "discord" ]}
  ∧ MODULE_TO_PACKAGE !! "discord" = Some "discord.py"
  ∧ files (generate_requirements Demo.host Demo.chat None (Demo.start [])).2
    !! "/home/u/chat/requirements.txt"
    = Some (TextFile (manifest_text Demo.host Demo.chat
                                    ["discord.py"] ["discord.py"]))
  ∧ Py.startswith "discord" "discord.py" = true.
Proof. vm_compute. repeat split; reflexivity. Qed.

(** On the sample host: a directory without Python files. *)
Lemma generate_requirements_nothing_to_write_witness :
  ∃ w' message,
    generate_requirements Demo.host Demo.empty None (Demo.start [])
    = (Returns false, w')
    ∧ files w' = files (Demo.start [])
    ∧ pyenv w' = pyenv (Demo.start [])
    ∧ last (console w') = Some message
    ∧ (0 = 0 →
       message = "No Python files found to analyze in "
                 +:+ project_dir Demo.empty)
    ∧ (0 ≠ 0 →
       message = "No third-party libraries detected in the code.").
Proof.
  apply (generate_requirements_nothing_to_write Demo.host Demo.empty None
           (Demo.start []) ∅ 0).
  - vm_compute. reflexivity.
  - left. reflexivity.
Defined.

(** On the sample project: a second run a day later, with the sets
    iterated in the reverse order. *)
Lemma generate_requirements_idempotent_witness :
  ∃ w2 rest,
    generate_requirements (later_run Demo.host Demo.later Demo.reversed)
      Demo.shop None
      (generate_requirements Demo.host Demo.shop None
         (Demo.start Demo.only_bs4)).2
    = (Returns true, w2)
    ∧ files (generate_requirements Demo.host Demo.shop None
               (Demo.start Demo.only_bs4)).2
      !! "/home/u/shop/requirements.txt"
      = Some (TextFile
                (("# Automatically generated by pythonDependencies.py" +:+ NL)
                 +:+ "# Date: " +:+ "2024-03-09 07:05:00" +:+ NL +:+ rest))
    ∧ files w2 !! "/home/u/shop/requirements.txt"
      = Some (TextFile
                (("# Automatically generated by pythonDependencies.py" +:+ NL)
                 +:+ "# Date: " +:+ "2024-03-10 18:30:59" +:+ NL +:+ rest)).
Proof.
  apply (generate_requirements_idempotent Demo.host Demo.shop None
           (Demo.start Demo.only_bs4)).
  vm_compute. reflexivity.
Defined.

(** On the sample project, with every detected distribution installed. *)
Lemma generate_then_check_witness :
  ∃ content out,
    files (generate_requirements Demo.host Demo.shop None
             (Demo.start Demo.complete)).2
    !! requirements_file Demo.shop = Some (TextFile content)
    ∧ missing_of Demo.host
        (pyenv (generate_requirements Demo.host Demo.shop None
                  (Demo.start Demo.complete)).2) content = []
    ∧ check_and_install_dependencies Demo.host Demo.shop true
        (generate_requirements Demo.host Demo.shop None
           (Demo.start Demo.complete)).2
      = (Returns true,
         printed (generate_requirements Demo.host Demo.shop None
                    (Demo.start Demo.complete)).2 out).
Proof.
  apply (generate_then_check Demo.host "/home/u/shop" "requirements.txt" true
           (Demo.start Demo.complete) _ Demo.shop_imports 3
           Demo.shop_third_party).
  - apply demo_parser_sound.
  - reflexivity.
  - vm_compute. reflexivity.
  - vm_compute. reflexivity.
  - intros m Hm. apply demo_shop_third_party in Hm.
    destruct Hm as [->|[->|[->| ->]]]; reflexivity.
  - vm_compute. reflexivity.
Defined.

(** C7, as the specification words it, fails. In the sample project only
    one of the detected distributions is installed: the run succeeds and
    lists the others without a version, and the check in the same
    environment finds them missing and returns [False]. And with every
    distribution installed, a line feed in the name of the project
    directory puts a stray line in the manifest, which the check reads as
    a missing package. *)
Lemma generate_then_check_finds_missing :
  (value_of (generate_requirements Demo.host Demo.shop None)
            (Demo.start Demo.only_bs4) = Returns true
   ∧ missing_of Demo.host Demo.only_bs4
       (manifest_of Demo.host Demo.shop Demo.only_bs4 Demo.shop_third_party)
     = ["scikit-learn"; "requests"; "scikit-learn"]
   ∧ value_of (check_and_install_dependencies Demo.host Demo.shop false)
              (generate_requirements Demo.host Demo.shop None
                 (Demo.start Demo.only_bs4)).2
     = Returns false)
  ∧ (value_of (generate_requirements Demo.host Demo.two_lines None)
              (Demo.start Demo.only_bs4) = Returns true
     ∧ value_of (check_and_install_dependencies Demo.host Demo.two_lines false)
                (generate_requirements Demo.host Demo.two_lines None
                   (Demo.start Demo.only_bs4)).2
       = Returns false).
Proof. vm_compute. repeat split; reflexivity. Qed.

(** On the sample project before any manifest is written. *)
Lemma missing_manifest_reported_witness :
  value_of (check_and_install_dependencies Demo.host Demo.shop true)
           (Demo.start [])
  = Returns false
  ∧ value_of (update_dependencies Demo.host Demo.shop) (Demo.start [])
    = Returns false.
Proof.
  destruct (missing_manifest_reported Demo.host Demo.shop true (Demo.start []))
    as [Hcheck Hupdate].
  - reflexivity.
  - unfold value_of. rewrite Hcheck, Hupdate. split; reflexivity.
Defined.

(** On the sample project: [sklearn] and [joblib] both give
    [scikit-learn]. *)
Lemma same_distribution_twice_witness :
  files (generate_requirements Demo.host Demo.shop None
           (Demo.start Demo.only_bs4)).2
  !! "/home/u/shop/requirements.txt"
  = Some (TextFile Cases.shop_manifest)
  ∧ ∃ requirements not_installed_packages i j line,
      Cases.shop_manifest
      = unlines (header_lines Demo.host Demo.shop not_installed_packages
                 ++ requirements)
      ∧ i ≠ j
      ∧ requirements !! i = Some line ∧ requirements !! j = Some line
      ∧ Py.startswith "scikit-learn" line = true
      ∧ base_package line = "scikit-learn".
Proof.
  assert (files (generate_requirements Demo.host Demo.shop None
                   (Demo.start Demo.only_bs4)).2
          !! "/home/u/shop/requirements.txt"
          = Some (TextFile Cases.shop_manifest)) as Htext
    by (vm_compute; reflexivity).
  split; [exact Htext|].
  destruct (same_distribution_twice Demo.host "/home/u/shop" "requirements.txt"
              None (Demo.start Demo.only_bs4)
              (generate_requirements Demo.host Demo.shop None
                 (Demo.start Demo.only_bs4)).2
              Demo.shop_imports 3 Demo.shop_third_party
              "sklearn" "joblib" "scikit-learn")
    as (requirements & not_installed_packages & i & j & line & Hfile & Hrest).
  - vm_compute. reflexivity.
  - vm_compute. reflexivity.
  - vm_compute. reflexivity.
  - unfold Demo.shop_third_party. set_solver.
  - unfold Demo.shop_third_party. set_solver.
  - discriminate.
  - reflexivity.
  - reflexivity.
  - exists requirements, not_installed_packages, i, j, line.
    split; [|exact Hrest].
    change (default (requirements_file (init "/home/u/shop" "requirements.txt"))
                    None)
      with "/home/u/shop/requirements.txt" in Hfile.
    rewrite Htext in Hfile. exact (text_file_inj _ _ Hfile).
Defined.

(** On the sample project: a manifest of two comments and a blank
    line. *)
Lemma comments_only_manifest_witness :
  value_of (check_and_install_dependencies Demo.host Demo.shop true)
           (Demo.with_manifest
              ("# dependencies" +:+ NL +:+ NL +:+ "   # none yet" +:+ NL) [])
  = Returns true
  ∧ value_of (update_dependencies Demo.host Demo.shop)
             (Demo.with_manifest
                ("# dependencies" +:+ NL +:+ NL +:+ "   # none yet" +:+ NL) [])
    = Returns true.
Proof.
  destruct (comments_only_manifest Demo.host Demo.shop true
              (Demo.with_manifest
                 ("# dependencies" +:+ NL +:+ NL +:+ "   # none yet" +:+ NL) [])
              ("# dependencies" +:+ NL +:+ NL +:+ "   # none yet" +:+ NL))
    as [Hcheck Hupdate].
  - vm_compute. reflexivity.
  - vm_compute. reflexivity.
  - unfold value_of. rewrite Hcheck, Hupdate. split; reflexivity.
Defined.

(** * Further properties of the code *)

(** ** The extractor and the scan *)

Section Scanning.

Context {P : Type} (h : Host P).

Lemma split_at_hd_chars p s :
  all_chars (λ c, negb (p c)) (hd "" (Py.split_at p s)) = true.
Proof.
  induction s as [|c s IHs]; simpl; [done|].
  destruct (p c) eqn:Hc; [done|].
  destruct (Py.split_at p s) as [|first rest]; simpl in *; by rewrite Hc.
Qed.

Lemma collect_imports_root_module node x :
  x ∈ collect_imports ∅ node → ∃ name, x = root_module name.
Proof.
  destruct node as [names|module names level|a|children]; simpl;
    [|destruct level, module as [m|]; try set_solver;
      destruct (decide (m = "")); [set_solver|];
      intros Hx; exists m; set_solver
     |set_solver..].
  rewrite foldl_import_names, (left_id_L (∅ : gset string) (∪)).
  rewrite elem_of_list_to_set, list_elem_of_fmap.
  intros (a & -> & _). by eexists.
Qed.

Lemma imports_of_tree_root_module tree x :
  x ∈ imports_of_tree tree → x ≠ "" ∧ ∃ name, x = root_module name.
Proof.
  rewrite imports_of_tree_nodes, elem_of_filter, elem_of_union_list.
  intros (Hx & X & HX & HxX). split; [done|].
  apply list_elem_of_fmap in HX as (node & -> & _).
  by apply (collect_imports_root_module node).
Qed.

(** X1. [extract_imports_from_file] raises no exception, whatever the
    file: it returns a set and changes nothing but the console. A file
    that cannot be read or parsed gives the empty set, and every name of
    the set is non-empty and holds no dot. *)
Theorem extract_imports_from_file_names self path w :
  ∃ out,
    extract_imports_from_file h self path w
    = (Returns (imports_of_file h path), printed w out)
    ∧ ∀ name, name ∈ imports_of_file h path →
        name ≠ ""
        ∧ all_chars (λ c, negb (Ascii.eqb "." c)) name = true.
Proof.
  unfold extract_imports_from_file, imports_of_file.
  destruct (open_parse h path) as [tree|e|e].
  - exists []. split; [by rewrite printed_nil|].
    intros name (Hname & m & ->)%imports_of_tree_root_module.
    split; [done|]. apply split_at_hd_chars.
  - eexists. split; [reflexivity | set_solver].
  - eexists. split; [reflexivity | set_solver].
Qed.




Lemma prints_eq {A} (m : M P A) a a' out out' :
  prints m a out → a = a' → out = out' → prints m a' out'.
Proof. by intros ? <- <-. Qed.

Lemma analyze_file_run self root vars file :
  prints (analyze_file h self root vars file)
    (if is_analyzed h root file
     then (vars.1 ∪ imports_of_file h (Py.path_join root file), S vars.2)
     else vars)
    (if is_analyzed h root file
     then scan_report h self (Py.path_join root file)
     else []).
Proof.
  unfold analyze_file, is_analyzed.
  destruct (Py.endswith ".py" file); [|apply prints_ret].
  destruct (String.eqb _ _); [apply prints_ret|]. cbn [andb negb].
  unfold scan_report, imports_of_file, extract_imports_from_file.
  change (?x :: ?l) with ([x] ++ l).
  eapply prints_bind; [apply prints_print|].
  destruct (open_parse h (Py.path_join root file)) as [tree|e|e].
  - eapply (prints_bind _ _ _ [] _ []); [apply prints_ret | apply prints_ret].
  - eapply (prints_bind _ _ _ [_] _ []); [|apply prints_ret].
    eapply (prints_bind _ _ _ [_] _ []); [apply prints_print | apply prints_ret].
  - eapply (prints_bind _ _ _ [_] _ []); [|apply prints_ret].
    eapply (prints_bind _ _ _ [_] _ []); [apply prints_print | apply prints_ret].
Qed.

Lemma analyze_files_run self root files vars :
  let paths :=
    Py.path_join root <$> filter (λ file, is_analyzed h root file = true) files in
  prints (for_fold files (analyze_file h self root) vars)
    (vars.1 ∪ ⋃ (imports_of_file h <$> paths), vars.2 + length paths)
    (flat_map (scan_report h self) paths).
Proof.
  revert vars. induction files as [|file files IH]; intros vars paths.
  - subst paths. cbn. eapply prints_eq; [apply prints_ret| |done].
    destruct vars as [imports n]. cbn. f_equal; [set_solver | lia].
  - cbn [for_fold].
    eapply prints_eq;
      [eapply prints_bind; [apply analyze_file_run | apply IH]|..];
      subst paths; rewrite filter_cons;
      destruct (is_analyzed h root file) eqn:Hfile.
    + rewrite decide_True by done. csimpl. f_equal; [set_solver | lia].
    + rewrite decide_False by done. done.
    + rewrite decide_True by done. done.
    + rewrite decide_False by done. done.
Qed.

(** The walk over the directories, from any values of [all_imports] and
    [file_count]. *)
Lemma analyze_walk_run self steps vars :
  let paths :=
    flat_map (λ step : string * list string,
                Py.path_join step.1
                  <$> filter (λ file, is_analyzed h step.1 file = true) step.2)
             steps in
  prints (for_fold steps
            (λ vars step, for_fold step.2 (analyze_file h self step.1) vars)
            vars)
    (vars.1 ∪ ⋃ (imports_of_file h <$> paths), vars.2 + length paths)
    (flat_map (scan_report h self) paths).
Proof.
  cbv zeta. revert vars. induction steps as [|step steps IH]; intros vars.
  - cbn. eapply prints_eq; [apply prints_ret| |done].
    destruct vars as [imports n]. cbn. f_equal; [set_solver | lia].
  - cbn [for_fold flat_map].
    eapply prints_eq;
      [eapply prints_bind; [apply analyze_files_run | apply IH]|..].
    + cbn [fst snd]. rewrite fmap_app, union_list_app_L, length_app.
      f_equal; [set_solver | lia].
    + by rewrite flat_map_app.
Qed.

(** X3. The scan of [generate_requirements] raises no exception and only
    prints. Its count is the number of [.py] files, other than files
    named as the script itself, in the directories it visits, whether or
    not they can be read and parsed; its set of names is the union of the
    imports of those that parse; and it prints one line per such file,
    followed by a diagnostic when the file gave nothing. *)
Theorem analyze_project_result self :
  prints (analyze_project h self)
    (detected_imports h self, length (analyzed_files h self))
    (flat_map (scan_report h self) (analyzed_files h self)).
Proof.
  unfold analyze_project, detected_imports, analyzed_files.
  eapply prints_eq; [apply (analyze_walk_run self _ (∅, 0))|..]; [|done].
  cbn [fst snd]. f_equal. set_solver.
Qed.

(** What the scan returns, in every world. *)
Lemma analyze_project_detected self w :
  value_of (analyze_project h self) w
  = Returns (detected_imports h self, length (analyzed_files h self)).
Proof.
  unfold value_of, analyze_project, detected_imports, analyzed_files.
  rewrite (analyze_walk_run self _ (∅, 0) w). cbn [fst snd]. do 2 f_equal.
  set_solver.
Qed.

End Scanning.

(** ** The classifier and the version resolver *)

Section Resolving.

Context {P : Type} (h : Host P).

Lemma prefix_app_l a b s :
  String.prefix (a +:+ b) s = true → String.prefix a s = true.
Proof.
  revert s. induction a as [|c a IH]; intros s; [by destruct s|].
  rewrite append_cons. destruct s as [|c' s]; simpl; [done|].
  destruct (ascii_dec c c'); [apply IH | done].
Qed.

Lemma contains_app_l a b s :
  Py.contains (a +:+ b) s = true → Py.contains a s = true.
Proof.
  induction s as [|c s IH]; cbn [Py.contains]; rewrite !orb_true_iff.
  - intros [Hs|?]; [|done]. left. by apply (prefix_app_l a b).
  - intros [Hs|Hs]; [left; by apply (prefix_app_l a b) | right; by apply IH].
Qed.

(** X5. In the test of the classifier on the origin of a module, the
    alternative ['lib-dynload' in origin] decides nothing: the test holds
    exactly when the origin holds [lib] and does not hold
    [site-packages]. *)
Theorem in_standard_location_lib origin :
  in_standard_location origin
  = negb (Py.contains "site-packages" origin) && Py.contains "lib" origin.
Proof.
  unfold in_standard_location. f_equal.
  destruct (Py.contains "lib-dynload" origin) eqn:Hdyn;
    [|by rewrite orb_false_r].
  by rewrite (contains_app_l "lib" "-dynload" origin Hdyn).
Qed.

Lemma is_standard_library_false self env m :
  is_standard_library h self env m = Returns false →
  (m ∉ builtin_module_names h) ∧ is_local_module h self m = false.
Proof.
  unfold is_standard_library, is_local_module.
  case_bool_decide; [done|].
  destruct (path_exists h (Py.path_join (project_dir self) (m +:+ ".py")));
    [done|].
  destruct (path_exists h (Py.path_join (project_dir self) m)
            && path_isdir h (Py.path_join (project_dir self) m)
            && path_exists h (Py.path_join (Py.path_join (project_dir self) m)
                                           "__init__.py")); done.
Qed.

(** X4. The set comprehension of [generate_requirements] keeps exactly
    the detected names for which [is_standard_library] answers [False];
    so the third-party set never holds a name of
    [sys.builtin_module_names] nor the name of a module or package at the
    project root. It changes nothing in the world. *)
Theorem third_party_of_exact self all_imports w third_party :
  value_of (third_party_of h self all_imports) w = Returns third_party →
  third_party_of h self all_imports w = (Returns third_party, w)
  ∧ (∀ m, m ∈ third_party ↔
          m ∈ all_imports
          ∧ is_standard_library h self (pyenv w) m = Returns false)
  ∧ ∀ m, m ∈ third_party →
         (m ∉ builtin_module_names h) ∧ is_local_module h self m = false.
Proof.
  unfold value_of.
  destruct (third_party_of_run h self all_imports w) as (r & Hrun & Hr).
  rewrite Hrun. cbn [fst]. intros ->. destruct Hr as [_ Hr].
  split; [done|]. split; [done|].
  intros m [_ Hm]%Hr. by apply (is_standard_library_false self (pyenv w)).
Qed.

Lemma splitlines_line line rest :
  no_line_break line = true →
  Py.splitlines (line +:+ NL +:+ rest) = line :: Py.splitlines rest.
Proof.
  unfold no_line_break.
  induction line as [|c line IH]; intros Hline.
  - by destruct rest.
  - cbn [all_chars] in Hline. apply andb_prop in Hline as [Hc Hline].
    rewrite append_cons. cbn [Py.splitlines].
    apply negb_true_iff in Hc. rewrite Hc. by rewrite IH.
Qed.

Lemma splitlines_unlines lines rest :
  Forall (λ line, no_line_break line = true) lines →
  Py.splitlines (unlines lines +:+ rest) = lines ++ Py.splitlines rest.
Proof.
  unfold unlines.
  induction 1 as [|line lines Hline _ IH]; [done|].
  rewrite fmap_cons, concat_cons, !append_assoc.
  rewrite splitlines_line by done. by rewrite IH.
Qed.

Lemma version_field_app before lines :
  Forall (λ line, Py.startswith "Version:" line = false) before →
  version_field (before ++ lines) = version_field lines.
Proof.
  induction 1 as [|line before Hline _ IH]; [done|].
  cbn [app version_field]. by rewrite Hline.
Qed.

(** X6. [get_package_version] reads the version out of what [pip show]
    prints: when the command returns 0 and the first line of its output
    that starts with [Version:] is [Version: v], where [v] has no white
    space at its ends, the result is [v], whatever follows that line. *)
Theorem get_package_version_reads_field env name before version rest :
  pip_show h env name
  = Returns {| returncode := 0;
               stdout := unlines before +:+ ("Version: " +:+ version) +:+ NL
                         +:+ rest |} →
  Forall (λ line, no_line_break line = true
                  ∧ Py.startswith "Version:" line = false) before →
  no_line_break version = true →
  Py.strip version = version →
  get_package_version h env name = Some version.
Proof.
  intros Hshow Hbefore Hversion Hstrip. unfold get_package_version.
  rewrite Hshow. cbn [returncode stdout].
  rewrite bool_decide_eq_false_2 by (intros Hne; by apply Hne).
  rewrite splitlines_unlines
    by (eapply Forall_impl; [exact Hbefore | by intros line [? _]]).
  rewrite version_field_app
    by (eapply Forall_impl; [exact Hbefore | by intros line [_ ?]]).
  rewrite splitlines_line by (unfold no_line_break in *; exact Hversion).
  cbn [version_field].
  change (Py.startswith "Version:" ("Version: " +:+ version)) with true.
  cbn match.
  change (Py.split_once ":" ("Version: " +:+ version))
    with ["Version"; " " +:+ version].
  cbn [lookup list_lookup fmap option_fmap option_map].
  change (" " +:+ version) with (String " " version).
  by rewrite strip_space, Hstrip.
Qed.

Lemma rstrip_cons c s :
  Py.rstrip (String c s)
  = match Py.rstrip s with
    | EmptyString => if Py.isspace c then EmptyString else String c EmptyString
    | r => String c r
    end.
Proof. reflexivity. Qed.

Lemma rstrip_rstrip s : Py.rstrip (Py.rstrip s) = Py.rstrip s.
Proof.
  induction s as [|c s IH]; [done|]. rewrite rstrip_cons.
  destruct (Py.rstrip s) as [|c' r] eqn:Hr.
  - destruct (Py.isspace c) eqn:Hc; [done|].
    rewrite rstrip_cons. cbn [Py.rstrip]. by rewrite Hc.
  - rewrite rstrip_cons. by rewrite IH.
Qed.

Lemma lstrip_head s :
  Py.lstrip s = ""
  ∨ ∃ c s', Py.lstrip s = String c s' ∧ Py.isspace c = false.
Proof.
  induction s as [|c s IH]; [by left|]. cbn [Py.lstrip].
  destruct (Py.isspace c) eqn:Hc; [done|]. right. by exists c, s.
Qed.

Lemma rstrip_head c s :
  Py.isspace c = false → ∃ r, Py.rstrip (String c s) = String c r.
Proof.
  intros Hc. rewrite rstrip_cons.
  destruct (Py.rstrip s); rewrite ?Hc; by eexists.
Qed.

Lemma strip_strip s : Py.strip (Py.strip s) = Py.strip s.
Proof.
  unfold Py.strip.
  assert (Py.lstrip (Py.rstrip (Py.lstrip s)) = Py.rstrip (Py.lstrip s)) as ->;
    [|apply rstrip_rstrip].
  destruct (lstrip_head s) as [->|(c & s' & -> & Hc)]; [done|].
  destruct (rstrip_head c s' Hc) as [r ->]. by apply lstrip_cons.
Qed.

Lemma version_field_stripped lines v :
  version_field lines = Some v → Py.strip v = v.
Proof.
  induction lines as [|line lines IH]; [done|]. cbn [version_field].
  destruct (Py.startswith "Version:" line); [|done].
  destruct (Py.split_once ":" line !! 1) as [x|]; [|done].
  intros [= <-]. apply strip_strip.
Qed.

(** X7. A version that [get_package_version] returns has no white space
    at its ends and holds no line boundary, whatever [pip show] printed:
    it can be written after [>=] on one line of the manifest. *)
Theorem get_package_version_clean env name version :
  get_package_version h env name = Some version →
  Py.strip version = version
  ∧ no_line_break version = true
  ∧ one_line version = true.
Proof.
  intros Hversion. split; [|split].
  - revert Hversion. unfold get_package_version.
    destruct (pip_show h env name) as [result|e]; [|done].
    destruct (bool_decide _); [done|]. apply version_field_stripped.
  - revert Hversion. unfold get_package_version, no_line_break.
    destruct (pip_show h env name) as [result|e]; [|done].
    destruct (bool_decide _); [done|]. intros Hv.
    eapply version_field_chars; [apply splitlines_no_break | done].
  - by apply (get_package_version_one_line h env name).
Qed.

(** X8. The specifier that [get_package_info] gives for a module is the
    name of its distribution, followed by [>=] and the version exactly
    when [pip show] reports a non-empty one; and the check of
    [check_and_install_dependencies] reads it back to that distribution:
    it finds the specifier missing exactly when no version was
    reported. *)
Theorem get_package_info_specifier self env m :
  is_plain_name (package_of self m) = true →
  base_package (get_package_info h self env m) = package_of self m
  ∧ is_missing h env (get_package_info h self env m)
    = negb (is_installed h self env m)
  ∧ match get_package_version h env (package_of self m) with
    | Some version =>
        get_package_info h self env m
        = if String.eqb version "" then package_of self m
          else package_of self m +:+ ">=" +:+ version
    | None => get_package_info h self env m = package_of self m
    end.
Proof.
  intros Hplain.
  destruct (requirement_line h self env m Hplain) as (_ & _ & Hbase & _).
  split; [done|]. split.
  - unfold is_missing, is_installed. by rewrite Hbase.
  - unfold get_package_info. fold (package_of self m).
    destruct (get_package_version h env (package_of self m)) as [v|]; [|done].
    cbn [truthy from_option id]. by destruct (String.eqb v "").
Qed.

End Resolving.

(** ** The generation of the manifest *)

Section Writing.

Context {P : Type} (h : Host P).

(** The outcome of [generate_requirements] in every world. *)
Lemma generate_requirements_run self output_file w :
  ∃ out,
    generate_requirements h self output_file w
    = if bool_decide (length (analyzed_files h self) = 0)
      then (Returns false, printed w out)
      else
        match value_of (third_party_of h self (detected_imports h self)) w with
        | Returns third_party =>
            if bool_decide (third_party = ∅)
            then (Returns false, printed w out)
            else
              match files w !! default (requirements_file self) output_file with
              | Some (Faulty e) => (Raises e, printed w out)
              | _ =>
                  (Returns true,
                   World (console w ++ out)
                         (<[default (requirements_file self) output_file :=
                              TextFile (manifest_of h self (pyenv w) third_party)]>
                            (files w))
                         (pyenv w))
              end
        | Raises e => (Raises e, printed w out)
        end.
Proof.
  destruct (generate_requirements_cases h self output_file w _ _
              (analyze_project_detected h self w)) as (out & ->).
  destruct (bool_decide (length (analyzed_files h self) = 0)); [by eexists|].
  destruct (value_of (third_party_of h self (detected_imports h self)) w)
    as [third_party|e]; [|by eexists].
  destruct (bool_decide (third_party = ∅)); [by eexists|].
  destruct (write_requirements_run h self
              (default (requirements_file self) output_file) third_party
              (length (analyzed_files h self)) (printed w out))
    as (out' & ->).
  cbn [printed files pyenv console].
  destruct (files w !! default (requirements_file self) output_file)
    as [[content|e]|];
    exists (out ++ out'); unfold printed; cbn [console files pyenv];
    by rewrite app_assoc.
Qed.

(** X9. Whatever its outcome, [generate_requirements] leaves the Python
    environment as it was and touches no file but the output file; and
    unless it returns [True] it writes nothing at all: the manifest keeps
    its content, or stays absent. *)
Theorem generate_requirements_frame self output_file w r w' :
  generate_requirements h self output_file w = (r, w') →
  pyenv w' = pyenv w
  ∧ (∀ path, path ≠ default (requirements_file self) output_file →
             files w' !! path = files w !! path)
  ∧ (r ≠ Returns true → files w' = files w)
  ∧ ∃ out, console w' = console w ++ out.
Proof.
  destruct (generate_requirements_run self output_file w) as (out & ->).
  intros Hrun.
  repeat case_match; simplify_eq; cbn [printed pyenv files console];
    repeat split; try done; try (by eexists);
    intros path Hpath; by rewrite lookup_insert_ne.
Qed.



(** X11. When [generate_requirements] returns [True], the text of the
    manifest is made of the lines of the header, with the warning exactly
    when a distribution has no reported version, followed by one line per
    third-party name, the specifier that [get_package_info] gives for it,
    each line with its line end: each name once, in the ascending order
    of the import names, not of the distributions written. *)
Theorem generate_requirements_lines self output_file w w' :
  generate_requirements h self output_file w = (Returns true, w') →
  ∃ third_party modules,
    value_of (third_party_of h self (detected_imports h self)) w
    = Returns third_party
    ∧ modules ≡ₚ elements third_party
    ∧ Sorted String.le modules
    ∧ files w' !! default (requirements_file self) output_file
      = Some (TextFile
                (unlines
                   (header_lines h self
                      (package_of self
                         <$> filter (λ m, is_installed h self (pyenv w) m = false)
                                    modules)
                    ++ (get_package_info h self (pyenv w) <$> modules)))).
Proof.
  destruct (generate_requirements_run self output_file w) as (out & ->).
  destruct (bool_decide (length (analyzed_files h self) = 0)); [done|].
  destruct (value_of (third_party_of h self (detected_imports h self)) w)
    as [third_party|e]; [|done].
  destruct (bool_decide (third_party = ∅)); [done|].
  intros Hrun. exists third_party, (Py.sorted (set_order h third_party)).
  split; [done|]. split.
  { unfold Py.sorted. by rewrite merge_sort_Permutation, iterate_perm. }
  split; [apply Sorted_merge_sort; apply _|].
  destruct (files w !! default (requirements_file self) output_file)
    as [[content|e]|]; simplify_eq; cbn [files];
    by rewrite lookup_insert_eq, manifest_of_lines.
Qed.

End Writing.

(** ** The manifest reader *)

Section Reading.

Context {P : Type} (h : Host P).

Lemma universal_newlines_chars s :
  all_chars (λ c, negb (Ascii.eqb c Py.CR)) (Py.universal_newlines s) = true.
Proof.
  remember (String.length s) as n eqn:Hn.
  assert (String.length s ≤ n) as Hle by lia. clear Hn.
  revert s Hle. induction n as [|n IH]; intros [|c s] Hle; simpl in *;
    try (done || lia).
  destruct (Ascii.eqb c Py.CR) eqn:Hc.
  - cbn [all_chars]. simpl. destruct s as [|c' s']; [done|].
    destruct (Ascii.eqb c' Py.LF); apply IH; simpl in *; lia.
  - cbn [all_chars]. rewrite Hc. apply IH. lia.
Qed.

Lemma keepends_chars p s :
  all_chars p s = true → Forall (λ line, all_chars p line = true) (Py.keepends s).
Proof.
  induction s as [|c s IH]; [constructor|]. cbn [all_chars Py.keepends].
  intros [Hc Hs]%andb_prop. specialize (IH Hs).
  destruct (Ascii.eqb c Py.LF).
  - constructor; [|done]. cbn [all_chars]. by rewrite Hc.
  - destruct (Py.keepends s) as [|l ls].
    + repeat constructor. cbn [all_chars]. by rewrite Hc.
    + inversion IH; subst. constructor; [|done]. cbn [all_chars].
      by rewrite Hc.
Qed.

Lemma final_newline_chars p s :
  all_chars p s = true → all_chars p (Py.final_newline s) = true.
Proof.
  induction s as [|c s IH]; [done|]. cbn [all_chars].
  intros [Hc Hs]%andb_prop. cbn [Py.final_newline].
  destruct s as [|c' s']; [|by apply IH].
  destruct (Ascii.eqb c Py.LF); [|done]. cbn [all_chars]. by rewrite Hc.
Qed.

Lemma sub_comment_chars p s :
  all_chars p s = true → all_chars p (Py.sub_comment s) = true.
Proof.
  induction s as [|c s IH]; [done|]. cbn [all_chars Py.sub_comment].
  intros [Hc Hs]%andb_prop.
  destruct (Ascii.eqb c "#" && Py.ends_line s).
  - by apply final_newline_chars.
  - cbn [all_chars]. by rewrite Hc, IH.
Qed.

Lemma final_newline_no_hash s :
  all_chars (λ c, negb (Ascii.eqb c "#")) (Py.final_newline s) = true.
Proof.
  induction s as [|c s IH]; [done|]. cbn [Py.final_newline].
  destruct s as [|c' s']; [|done].
  destruct (Ascii.eqb_spec c Py.LF) as [->|]; done.
Qed.

Lemma sub_comment_no_hash s :
  Py.ends_line s = true →
  all_chars (λ c, negb (Ascii.eqb c "#")) (Py.sub_comment s) = true.
Proof.
  induction s as [|c s IH]; [done|]. cbn [Py.ends_line Py.sub_comment].
  destruct (Ascii.eqb_spec c Py.LF) as [->|Hc].
  - destruct s; [done|discriminate].
  - intros Hs. rewrite Hs, andb_true_r.
    destruct (Ascii.eqb c "#") eqn:Hhash; [apply final_newline_no_hash|].
    cbn [all_chars]. rewrite Hhash. by apply IH.
Qed.

Lemma ends_line_final_newline s : Py.ends_line (Py.final_newline s) = true.
Proof.
  induction s as [|c s IH]; [done|]. cbn [Py.final_newline].
  destruct s as [|c' s']; [|done].
  destruct (Ascii.eqb c Py.LF) eqn:Hc; [|done]. cbn [Py.ends_line].
  by rewrite Hc.
Qed.

Lemma sub_comment_ends_line s :
  Py.ends_line s = true → Py.ends_line (Py.sub_comment s) = true.
Proof.
  induction s as [|c s IH]; [done|]. cbn [Py.ends_line Py.sub_comment].
  destruct (Ascii.eqb c Py.LF) eqn:Hc.
  - destruct s; [|discriminate]. intros _.
    apply Ascii.eqb_eq in Hc as ->. done.
  - intros Hs. rewrite Hs, andb_true_r.
    destruct (Ascii.eqb c "#"); [apply ends_line_final_newline|].
    cbn [Py.ends_line]. rewrite Hc. by apply IH.
Qed.

Lemma lstrip_ends_line s :
  Py.ends_line s = true → Py.ends_line (Py.lstrip s) = true.
Proof.
  induction s as [|c s IH]; [done|]. intros Hs. cbn [Py.lstrip].
  destruct (Py.isspace c); [|done]. apply IH.
  cbn [Py.ends_line] in Hs. destruct (Ascii.eqb c Py.LF); [by destruct s|done].
Qed.

Lemma rstrip_no_linefeed s :
  Py.ends_line s = true →
  all_chars (λ c, negb (Ascii.eqb c Py.LF)) (Py.rstrip s) = true.
Proof.
  induction s as [|c s IH]; [done|]. cbn [Py.ends_line]. rewrite rstrip_cons.
  destruct (Ascii.eqb c Py.LF) eqn:Hc.
  - destruct s; [|discriminate]. intros _. cbn [Py.rstrip].
    by rewrite (linefeed_is_space c Hc).
  - intros Hs. specialize (IH Hs). destruct (Py.rstrip s) as [|c' r].
    + destruct (Py.isspace c); [done|]. cbn [all_chars]. by rewrite Hc.
    + cbn [all_chars] in *. by rewrite Hc, IH.
Qed.

Lemma all_chars_and (p q : ascii → bool) s :
  all_chars p s = true → all_chars q s = true →
  all_chars (λ c, p c && q c) s = true.
Proof.
  induction s as [|c s IH]; [done|]. cbn [all_chars].
  intros [-> ?]%andb_prop [-> ?]%andb_prop. by apply IH.
Qed.

(** X12. Every entry that [check_and_install_dependencies] and
    [update_dependencies] read from a manifest, whatever its content, is
    non-empty, has no white space at its ends, and holds no [#], no line
    feed and no carriage return: comments and line ends never reach
    [pip]. *)
Theorem manifest_packages_clean content package :
  package ∈ manifest_packages (Py.readlines content) →
  package ≠ ""
  ∧ Py.strip package = package
  ∧ all_chars (λ c, negb (Ascii.eqb c "#") && negb (Ascii.eqb c Py.LF)
                    && negb (Ascii.eqb c Py.CR)) package = true.
Proof.
  unfold manifest_packages, Py.readlines.
  rewrite list_elem_of_filter, list_elem_of_fmap.
  intros (Hne & line & -> & Hline). split; [done|].
  split; [apply strip_strip|].
  pose proof (keepends_ends_line (Py.universal_newlines content)) as Hends.
  pose proof (keepends_chars _ _ (universal_newlines_chars content)) as Hchars.
  rewrite Forall_forall in Hends, Hchars.
  specialize (Hends _ Hline). specialize (Hchars _ Hline). cbv beta in *.
  unfold clean_line. repeat apply all_chars_and.
  - by apply all_chars_strip, sub_comment_no_hash.
  - unfold Py.strip. by apply rstrip_no_linefeed, lstrip_ends_line,
      sub_comment_ends_line.
  - by apply all_chars_strip, sub_comment_chars.
Qed.

Lemma clean_line_plain a : is_plain_name a = true → clean_line (a +:+ NL) = a.
Proof.
  intros Ha. pose proof Ha as [_ Hchars]%andb_prop. unfold clean_line.
  rewrite sub_comment_plain by done.
  change (Py.sub_comment NL) with NL. rewrite strip_plain by done.
  apply append_nil_r.
Qed.

(** With a sound parser, the distributions of the detected third-party
    names are plain names. *)
Lemma detected_plain project file w third_party :
  parser_sound h →
  value_of (third_party_of h (init project file)
              (detected_imports h (init project file))) w
  = Returns third_party →
  ∀ m, m ∈ third_party →
       is_plain_name (package_of (init project file) m) = true.
Proof.
  intros Hsound Htp m Hm. apply package_of_init_plain.
  apply (detected_identifiers h (init project file) w _ _ third_party Hsound
           (analyze_project_detected h (init project file) w) Htp m Hm).
Qed.

Lemma generate_requirements_file self w w' :
  generate_requirements h self None w = (Returns true, w') →
  ∃ third_party,
    value_of (third_party_of h self (detected_imports h self)) w
    = Returns third_party
    ∧ pyenv w' = pyenv w
    ∧ files w' !! requirements_file self
      = Some (TextFile (manifest_of h self (pyenv w) third_party)).
Proof.
  destruct (generate_requirements_run h self None w) as (out & ->).
  destruct (bool_decide (length (analyzed_files h self) = 0)); [done|].
  destruct (value_of (third_party_of h self (detected_imports h self)) w)
    as [third_party|e]; [|done].
  destruct (bool_decide (third_party = ∅)); [done|].
  intros Hrun. exists third_party. split; [done|]. cbn [from_option id] in Hrun.
  destruct (files w !! requirements_file self) as [[content|e]|];
    simplify_eq; cbn [files pyenv]; by rewrite lookup_insert_eq.
Qed.

(** X13. The manifest that [generate_requirements] writes reads back to
    the distributions it was written for: when the name of the project
    directory holds no line end, the base names that
    [update_dependencies] extracts from the written file are the
    distributions of the detected third-party names, one per name, in
    the order of the import names; the header and the warning give no
    entry. *)
Theorem generate_then_read project file w w' :
  parser_sound h →
  one_line (Py.basename project) = true →
  generate_requirements h (init project file) None w = (Returns true, w') →
  ∃ third_party content,
    value_of (third_party_of h (init project file)
                (detected_imports h (init project file))) w
    = Returns third_party
    ∧ files w' !! requirements_file (init project file)
      = Some (TextFile content)
    ∧ base_package <$> manifest_packages (Py.readlines content)
      = package_of (init project file)
          <$> Py.sorted (set_order h third_party).
Proof.
  intros Hsound Hproject Hrun.
  apply generate_requirements_file in Hrun as (third_party & Htp & _ & Hfile).
  exists third_party,
    (manifest_of h (init project file) (pyenv w) third_party).
  split; [done|]. split; [done|].
  pose proof (detected_plain project file w third_party Hsound Htp) as Hplain.
  rewrite manifest_read_back by done.
  rewrite <- list_fmap_compose. apply Forall_fmap_ext_1, Forall_forall.
  intros m Hm%sorted_elem. cbn [compose].
  by apply (requirement_line h), Hplain.
Qed.

(** X14. Right after [generate_requirements] returned [True], the
    entries that [check_and_install_dependencies] finds missing in the
    written manifest are those of the distributions that were written
    without a version, the ones the warning is about, in the same order;
    none is missing exactly when a version was reported for every
    detected distribution. *)
Theorem generate_then_missing project file w w' :
  parser_sound h →
  one_line (Py.basename project) = true →
  generate_requirements h (init project file) None w = (Returns true, w') →
  ∃ third_party content,
    value_of (third_party_of h (init project file)
                (detected_imports h (init project file))) w
    = Returns third_party
    ∧ files w' !! requirements_file (init project file)
      = Some (TextFile content)
    ∧ missing_of h (pyenv w') content
      = not_installed_of h (init project file) (pyenv w) third_party
    ∧ (missing_of h (pyenv w') content = [] ↔
       ∀ m, m ∈ third_party →
            is_installed h (init project file) (pyenv w) m = true).
Proof.
  intros Hsound Hproject Hrun.
  apply generate_requirements_file in Hrun as (third_party & Htp & -> & Hfile).
  exists third_party,
    (manifest_of h (init project file) (pyenv w) third_party).
  split; [done|]. split; [done|].
  pose proof (detected_plain project file w third_party Hsound Htp) as Hplain.
  assert (missing_of h (pyenv w)
            (manifest_of h (init project file) (pyenv w) third_party)
          = not_installed_of h (init project file) (pyenv w) third_party)
    as Hmissing.
  { rewrite missing_of_manifest by done. unfold not_installed_of.
    apply Forall_fmap_ext_1, Forall_forall.
    intros m [Hm Hin%sorted_elem]%list_elem_of_filter.
    unfold get_package_info. fold (package_of (init project file) m).
    unfold is_installed in Hm. rewrite Hm.
    by apply clean_line_plain, Hplain. }
  split; [done|]. rewrite Hmissing. unfold not_installed_of.
  split.
  - intros Hnone%fmap_nil_inv m Hm.
    destruct (is_installed h (init project file) (pyenv w) m) eqn:Hinst; [done|].
    exfalso. eapply filter_nil_not_elem_of; [exact Hnone | exact Hinst|].
    by apply sorted_elem.
  - intros Hall.
    destruct (filter _ (Py.sorted (set_order h third_party))) as [|m l] eqn:Hl;
      [done|].
    assert (m ∈ m :: l) as Hm by left. rewrite <- Hl in Hm.
    apply list_elem_of_filter in Hm as [Hm Hin%sorted_elem].
    by rewrite Hall in Hm.
Qed.

End Reading.

(** ** The verdict of the check *)

Section Entries.

Context {P : Type} (h : Host P).

Lemma operator_char c : is_operator_char c = begins_operator c.
Proof. destruct c as [[] [] [] [] [] [] [] []]; vm_compute; reflexivity. Qed.

(** The base name that the code extracts is the base name of the
    specifier. *)
Lemma base_package_specifier_name package :
  base_package package = specifier_name package.
Proof.
  unfold base_package, specifier_name. f_equal.
  induction package as [|c s IH]; [done|].
  cbn [Py.split_at before_operator]. rewrite operator_char.
  destruct (begins_operator c); [done|].
  destruct (split_at_cons is_operator_char s) as (first & rest & Heq).
  rewrite Heq in IH |- *. cbn [hd] in *. by rewrite IH.
Qed.

Lemma ends_line_tail c s :
  Py.ends_line (String c s) = true → Py.ends_line s = true.
Proof.
  cbn [Py.ends_line]. destruct (Ascii.eqb c Py.LF); [by destruct s | done].
Qed.

Lemma rstrip_final_newline s : Py.rstrip (Py.final_newline s) = "".
Proof.
  induction s as [|c s IH]; [done|].
  destruct s as [|c' s]; [|done].
  simpl. destruct (Ascii.eqb_spec c Py.LF) as [->|]; done.
Qed.

Lemma rstrip_before_comment line :
  Py.ends_line line = true →
  Py.rstrip (Py.sub_comment line) = Py.rstrip (before_comment line).
Proof.
  induction line as [|c s IH]; [done|]. intros Hline.
  pose proof (ends_line_tail c s Hline) as Hs.
  cbn [Py.sub_comment before_comment]. rewrite Hs, andb_true_r.
  destruct (Ascii.eqb c "#"); [apply rstrip_final_newline|].
  by rewrite !rstrip_cons, IH.
Qed.

(** On a line of a file, cutting the comment as the code does leaves the
    text before the first [#]. *)
Lemma clean_line_before_comment line :
  Py.ends_line line = true →
  clean_line line = Py.strip (before_comment line).
Proof.
  unfold clean_line. induction line as [|c s IH]; [done|]. intros Hline.
  pose proof (ends_line_tail c s Hline) as Hs.
  cbn [Py.sub_comment before_comment]. rewrite Hs, andb_true_r.
  destruct (Ascii.eqb c "#"); [apply strip_final_newline|].
  destruct (Py.isspace c) eqn:Hc.
  - rewrite !strip_space by done. by apply IH.
  - unfold Py.strip. rewrite !lstrip_cons by done.
    by rewrite !rstrip_cons, rstrip_before_comment.
Qed.

(** The packages that the code reads from a manifest are its entries. *)
Lemma manifest_packages_entries content :
  manifest_packages (Py.readlines content) = manifest_entries content.
Proof.
  unfold manifest_packages, manifest_entries. f_equal.
  apply Forall_fmap_ext_1.
  eapply Forall_impl; [apply keepends_ends_line|].
  intros line Hline. by apply clean_line_before_comment.
Qed.

Lemma missing_of_entries env content :
  missing_of h env content = missing_entries h env content.
Proof.
  unfold missing_of, missing_entries. rewrite manifest_packages_entries.
  apply list_filter_iff. intros entry. unfold is_missing.
  rewrite base_package_specifier_name. apply negb_true_iff.
Qed.

(** C5. With an existing manifest, [check_and_install_dependencies]
    returns [True] when no entry is missing, an entry being missing when
    the name before its operator has no resolvable installed version;
    with missing entries and automatic installation disabled it prints
    the manual [pip install] command with the missing entries and returns
    [False]; with automatic installation enabled it returns [True]
    exactly when every missing entry installs successfully. *)
Theorem check_and_install_dependencies_verdict self auto_install w content :
  files w !! requirements_file self = Some (TextFile content) →
  ∃ r w',
    check_and_install_dependencies h self auto_install w = (Returns r, w')
    ∧ files w' = files w
    ∧ (missing_entries h (pyenv w) content = [] →
       r = true ∧ pyenv w' = pyenv w)
    ∧ (missing_entries h (pyenv w) content ≠ [] → auto_install = false →
         r = false ∧ pyenv w' = pyenv w
         ∧ last (console w')
           = Some ("pip install "
                   +:+ Py.join " " (missing_entries h (pyenv w) content)))
    ∧ (missing_entries h (pyenv w) content ≠ [] → auto_install = true →
         (r = true ↔
          every_install_succeeds h (missing_entries h (pyenv w) content)
                                 (pyenv w)
          = true)).
Proof.
  intros Hfile. rewrite <- missing_of_entries.
  by apply check_and_install_dependencies_cases.
Qed.

End Entries.

(** ** The check, the update and the command line *)

Section Installing.

Context {P : Type} (h : Host P).

Lemma world_eta (w : world P) : World (console w ++ []) (files w) (pyenv w) = w.
Proof. destruct w. cbn. by rewrite app_nil_r. Qed.

(** The loop over the missing packages runs [pip install] for each of
    them in turn. *)
Lemma install_packages_env packages success w :
  ∃ r out,
    for_fold packages (install_package h) success w
    = (r, World (console w ++ out) (files w)
                (run_pip (pip_install h) packages (pyenv w)).2)
    ∧ match (run_pip (pip_install h) packages (pyenv w)).1 with
      | Returns _ => ∃ b, r = Returns b
      | Raises e => r = Raises e
      end.
Proof.
  revert success w. induction packages as [|p l IH]; intros success w.
  - exists (Returns success), []. cbn. rewrite world_eta. by eauto.
  - rewrite for_fold_cons. cbn [run_pip].
    destruct (install_package_run h success p w) as (out & ->).
    destruct (pip_install h p (pyenv w)) as [[[]|e] env].
    + edestruct (IH success) as (r & out' & -> & Hr).
      cbn [console files pyenv] in *. exists r, (out ++ out').
      by rewrite app_assoc.
    + destruct (exc_kind e); try by (exists (Raises e), out).
      edestruct (IH false) as (r & out' & -> & Hr).
      cbn [console files pyenv] in *. exists r, (out ++ out').
      by rewrite app_assoc.
Qed.

(** The outcome of [check_and_install_dependencies] in every world. *)
Lemma check_and_install_dependencies_run self auto_install w :
  ∃ b out,
    check_and_install_dependencies h self auto_install w
    = (Returns b,
       World (console w ++ out) (files w)
         match files w !! requirements_file self with
         | Some (TextFile content) =>
             if auto_install
             then (run_pip (pip_install h) (missing_of h (pyenv w) content)
                           (pyenv w)).2
             else pyenv w
         | _ => pyenv w
         end).
Proof.
  unfold check_and_install_dependencies. run.
  destruct (files w !! requirements_file self) as [[content|e]|] eqn:Hfile.
  - rewrite bool_decide_eq_true_2 by by eexists.
    cbn [negb]. unfold read_lines. cbn [console files pyenv]. rewrite Hfile.
    unfold missing_of.
    set (packages := manifest_packages (Py.readlines content)).
    destruct (bool_decide_reflect (packages = [])) as [->|Hsome].
    { rewrite filter_nil. cbn [run_pip].
      destruct auto_install; eexists _, _; same_run. }
    edestruct (check_packages_run h) as (out & ->).
    cbn [pyenv printed console files app].
    set (missing := filter (λ p, is_missing h (pyenv w) p = true) packages).
    destruct (bool_decide_reflect (missing = [])) as [->|Hmissing].
    { cbn [run_pip]. destruct auto_install; eexists _, _; same_run. }
    destruct auto_install; cbn [negb].
    + edestruct (install_packages_env missing true) as (r & out' & -> & Hr).
      cbn [pyenv files console] in *.
      destruct r as [[]|e]; cbn [except_Exception]; run;
        eexists _, _; same_run.
    + eexists _, _. same_run.
  - rewrite bool_decide_eq_true_2 by by eexists.
    cbn [negb]. unfold read_lines. cbn [console files pyenv]. rewrite Hfile.
    cbn [except_Exception]. run. eexists _, _. same_run.
  - rewrite bool_decide_eq_false_2 by by intros [? ?].
    cbn [negb]. eexists _, _. same_run.
Qed.

(** X15. No exception escapes [check_and_install_dependencies], whatever
    the manifest is, absent, unreadable or of any content, and whatever
    [pip] does: it returns a truth value, and it changes no file, only
    the console and, through [pip install], the environment. *)
Theorem check_and_install_dependencies_returns self auto_install w :
  ∃ b out env,
    check_and_install_dependencies h self auto_install w
    = (Returns b, World (console w ++ out) (files w) env).
Proof.
  destruct (check_and_install_dependencies_run self auto_install w)
    as (b & out & ->).
  by eexists _, _, _.
Qed.

(** X16. With automatic installation, [check_and_install_dependencies]
    runs [pip install] for exactly the entries it found missing, each
    with the version constraint it has in the manifest, in the order of
    the manifest; a failed installation does not stop the others.
    Entries with a reported version are never installed again. *)
Theorem check_and_install_dependencies_installs self w content :
  files w !! requirements_file self = Some (TextFile content) →
  ∃ b out,
    check_and_install_dependencies h self true w
    = (Returns b,
       World (console w ++ out) (files w)
             (run_pip (pip_install h) (missing_of h (pyenv w) content)
                      (pyenv w)).2).
Proof.
  intros Hfile.
  destruct (check_and_install_dependencies_run self true w) as (b & out & ->).
  rewrite Hfile. by eexists _, _.
Qed.

Lemma for_each_cons {A} (body : A → M P ()) x l w :
  for_each (x :: l) body w
  = match body x w with
    | (Returns _, w') => for_each l body w'
    | (Raises e, w') => (Raises e, w')
    end.
Proof. reflexivity. Qed.

Lemma update_package_run p w :
  ∃ out,
    update_package h p w
    = match pip_upgrade h p (pyenv w) with
      | (Returns _, env) =>
          (Returns (), World (console w ++ out) (files w) env)
      | (Raises e, env) =>
          (match exc_kind e with
           | CalledProcessError => Returns ()
           | _ => Raises e
           end, World (console w ++ out) (files w) env)
      end.
Proof.
  unfold update_package. run.
  destruct (pip_upgrade h p (pyenv w)) as [[[]|e] env].
  - eexists. cbn [console files pyenv]. rewrite <- app_assoc. reflexivity.
  - destruct (exc_kind e); cbn [console files pyenv]; eexists; try reflexivity.
    rewrite <- app_assoc. reflexivity.
Qed.

(** The loop of the update runs the upgrade for each package in turn. *)
Lemma update_packages_run packages w :
  ∃ out,
    for_each packages (update_package h) w
    = ((run_pip (pip_upgrade h) packages (pyenv w)).1,
       World (console w ++ out) (files w)
             (run_pip (pip_upgrade h) packages (pyenv w)).2).
Proof.
  revert w. induction packages as [|p l IH]; intros w.
  - exists []. cbn. by rewrite world_eta.
  - rewrite for_each_cons. cbn [run_pip].
    destruct (update_package_run p w) as (out & ->).
    destruct (pip_upgrade h p (pyenv w)) as [[[]|e] env].
    + edestruct IH as (out' & ->). cbn [console files pyenv].
      exists (out ++ out'). by rewrite app_assoc.
    + destruct (exc_kind e); try by (exists out).
      edestruct IH as (out' & ->). cbn [console files pyenv].
      exists (out ++ out'). by rewrite app_assoc.
Qed.

(** The outcome of [update_dependencies] with a manifest that can be
    read. *)
Lemma update_dependencies_run self w content :
  files w !! requirements_file self = Some (TextFile content) →
  ∃ out,
    update_dependencies h self w
    = let packages := base_package <$> manifest_packages (Py.readlines content) in
      match run_pip (pip_upgrade h) packages (pyenv w) with
      | (Raises e, env) =>
          (Returns false, World (console w ++ out) (files w) env)
      | (Returns _, env) =>
          if bool_decide (packages = [])
          then (Returns true, World (console w ++ out) (files w) env)
          else
            match input h with
            | Raises e =>
                (Returns false, World (console w ++ out) (files w) env)
            | Returns answer =>
                if bool_decide (Py.lower answer ∈ ["y"; "yes"])
                then
                  match generate_requirements h self None
                          (World (console w ++ out) (files w) env) with
                  | (Returns b, w') => (Returns b, w')
                  | (Raises e, w') =>
                      (Returns false,
                       printed w' ["Error updating dependencies: "
                                   +:+ exc_str e])
                  end
                else (Returns true, World (console w ++ out) (files w) env)
            end
      end.
Proof.
  intros Hfile. unfold update_dependencies. run.
  rewrite Hfile. rewrite bool_decide_eq_true_2 by by eexists.
  cbn [negb]. unfold read_lines. cbn [console files pyenv]. rewrite Hfile.
  cbv zeta.
  set (packages := base_package <$> manifest_packages (Py.readlines content)).
  destruct (bool_decide_reflect (packages = [])) as [Hnone|Hsome].
  { rewrite Hnone. cbn [run_pip]. eexists. same_run. }
  edestruct update_packages_run as (out & ->).
  cbn [console files pyenv].
  destruct (run_pip (pip_upgrade h) packages (pyenv w)) as [[[]|e] env];
    cbn [fst snd except_Exception]; run;
    [|eexists; same_run].
  destruct (input h) as [answer|e]; cbn [except_Exception]; run;
    [|eexists; same_run].
  destruct (bool_decide (Py.lower answer ∈ ["y"; "yes"]));
    [|eexists; same_run].
  eexists. unfold printed. rewrite <- !app_assoc. reflexivity.
Qed.

(** X17. A manifest that exists but cannot be read is reported, not
    raised: both operations print the error after their banner and
    return [False], and nothing but the console changes. *)
Theorem unreadable_manifest_reported self auto_install w e :
  files w !! requirements_file self = Some (Faulty e) →
  check_and_install_dependencies h self auto_install w
  = (Returns false,
     printed w [NL +:+ "==========================================";
                "   PYTHON DEPENDENCIES CHECKER";
                "==========================================" +:+ NL;
                "Error checking dependencies: " +:+ exc_str e])
  ∧ update_dependencies h self w
    = (Returns false,
       printed w [NL +:+ "==========================================";
                  "   PYTHON DEPENDENCIES UPDATER";
                  "==========================================" +:+ NL;
                  "Error updating dependencies: " +:+ exc_str e]).
Proof.
  intros Hfile.
  unfold check_and_install_dependencies, update_dependencies. run.
  rewrite Hfile. rewrite bool_decide_eq_true_2 by by eexists.
  cbn [negb]. unfold read_lines. cbn [console files pyenv]. rewrite Hfile.
  cbn [except_Exception]. run. unfold printed.
  by rewrite <- !app_assoc.
Qed.

(** X18. When the answer to the prompt is neither [y] nor [yes], in any
    case of the letters, [update_dependencies] returns [True] even if
    upgrades failed with a [CalledProcessError]; it has run the upgrade
    for the base name of every entry of the manifest, in the order of the
    manifest, and it has changed no file. *)
Theorem update_dependencies_declined self w content answer env :
  files w !! requirements_file self = Some (TextFile content) →
  input h = Returns answer →
  Py.lower answer ∉ ["y"; "yes"] →
  run_pip (pip_upgrade h)
          (base_package <$> manifest_packages (Py.readlines content)) (pyenv w)
  = (Returns (), env) →
  ∃ out,
    update_dependencies h self w
    = (Returns true, World (console w ++ out) (files w) env).
Proof.
  intros Hfile Hinput Hanswer Hupgrade.
  destruct (update_dependencies_run self w content Hfile) as (out & ->).
  cbv zeta. rewrite Hupgrade, Hinput.
  rewrite (bool_decide_eq_false_2 (Py.lower answer ∈ _)) by done.
  exists out. by destruct (bool_decide _).
Qed.

(** X19. When the answer is [y] or [yes], in any case of the letters,
    the result of [update_dependencies] is the result of
    [generate_requirements], run for the default manifest in the
    environment that the upgrades left; an exception of the generation is
    reported and gives [False]. *)
Theorem update_dependencies_accepted self w content answer env :
  files w !! requirements_file self = Some (TextFile content) →
  base_package <$> manifest_packages (Py.readlines content) ≠ [] →
  input h = Returns answer →
  Py.lower answer ∈ ["y"; "yes"] →
  run_pip (pip_upgrade h)
          (base_package <$> manifest_packages (Py.readlines content)) (pyenv w)
  = (Returns (), env) →
  ∃ out,
    update_dependencies h self w
    = match generate_requirements h self None
              (World (console w ++ out) (files w) env) with
      | (Returns b, w') => (Returns b, w')
      | (Raises e, w') =>
          (Returns false,
           printed w' ["Error updating dependencies: " +:+ exc_str e])
      end.
Proof.
  intros Hfile Hsome Hinput Hanswer Hupgrade.
  destruct (update_dependencies_run self w content Hfile) as (out & ->).
  cbv zeta. rewrite Hupgrade, Hinput.
  rewrite (bool_decide_eq_false_2 (_ = [])) by done.
  rewrite (bool_decide_eq_true_2 (Py.lower answer ∈ _)) by done.
  by exists out.
Qed.

Lemma try_except_Exception_total (m : M P bool) message w :
  ∃ b w', try_except m (except_Exception message) w = (Returns b, w').
Proof.
  unfold try_except. destruct (m w) as [[b|e] w']; [by eexists _, _|].
  cbn [except_Exception]. run. by eexists _, _.
Qed.

Lemma update_dependencies_total self w :
  ∃ b w', update_dependencies h self w = (Returns b, w').
Proof.
  unfold update_dependencies.
  unfold mbind, M_bind, mret, M_ret, print, exists_file.
  cbn [console files pyenv].
  destruct (bool_decide _); cbn [negb]; [|by eexists _, _].
  apply try_except_Exception_total.
Qed.

(** X20. No exception escapes [update_dependencies], whatever the
    manifest is and whatever [pip], the prompt and the generation do: it
    returns a truth value, and the only file it can change is the
    manifest. *)
Theorem update_dependencies_returns self w :
  ∃ b w',
    update_dependencies h self w = (Returns b, w')
    ∧ ∀ path, path ≠ requirements_file self →
              files w' !! path = files w !! path.
Proof.
  destruct (files w !! requirements_file self) as [[content|e]|] eqn:Hfile.
  - destruct (update_dependencies_run self w content Hfile) as (out & ->).
    cbv zeta.
    destruct (run_pip _ _ _) as [[[]|e] env]; [|by eexists _, _].
    destruct (bool_decide (_ = [])); [by eexists _, _|].
    destruct (input h) as [answer|e]; [|by eexists _, _].
    destruct (bool_decide (Py.lower answer ∈ _)); [|by eexists _, _].
    destruct (generate_requirements_run h self None
                (World (console w ++ out) (files w) env)) as (out' & ->).
    cbn [files pyenv console from_option id].
    repeat case_match; simplify_eq; eexists _, _; (split; [reflexivity|]);
      cbn [printed files]; try done.
    all: intros path Hpath; by rewrite lookup_insert_ne.
  - unfold update_dependencies. run. rewrite Hfile.
    rewrite bool_decide_eq_true_2 by by eexists.
    cbn [negb]. unfold read_lines. cbn [console files pyenv]. rewrite Hfile.
    cbn [except_Exception]. run. by eexists _, _.
  - unfold update_dependencies. run. rewrite Hfile.
    rewrite bool_decide_eq_false_2 by by intros [? ?].
    cbn [negb]. by eexists _, _.
Qed.

(** X21. Without [--generate], [main] ends without an exception,
    whatever the manifest and [pip] do; without [--update] as well it
    changes no file; and with no flag at all it only prints the help
    text. *)
Theorem main_without_generate abspath help args w :
  args_generate args = false →
  ∃ w',
    main h abspath help args w = (Returns (), w')
    ∧ (args_update args = false → files w' = files w)
    ∧ (args_check args = false → args_update args = false →
       w' = printed w [help]).
Proof.
  intros Hgenerate. unfold main. rewrite Hgenerate. cbn [orb].
  set (manager := init (abspath (args_dir args)) (args_file args)).
  destruct (args_check args), (args_update args); cbn [orb negb]; run.
  - destruct (check_and_install_dependencies_run manager true w)
      as (b & out & ->).
    match goal with
    | |- context [update_dependencies h manager ?w1] =>
        destruct (update_dependencies_total manager w1) as (b' & w' & ->)
    end.
    eexists. split; [reflexivity|]. by split.
  - destruct (check_and_install_dependencies_run manager true w)
      as (b & out & ->).
    eexists. split; [reflexivity|]. by split.
  - destruct (update_dependencies_total manager w) as (b' & w' & ->).
    eexists. split; [reflexivity|]. by split.
  - eexists. split; [reflexivity|]. by split.
Qed.

End Installing.

(** ** The verdict of the generation *)

Section Verdict.

Context {P : Type} (h : Host P).


End Verdict.

(** * The further properties on the sample project *)

(** On the sample project: what the classification keeps of the detected
    names. *)
Lemma third_party_of_exact_witness :
  third_party_of Demo.host Demo.shop Demo.shop_imports
    (Demo.start Demo.only_bs4)
  = (Returns Demo.shop_third_party, Demo.start Demo.only_bs4)
  ∧ ("utils" ∈ Demo.shop_third_party ↔
     "utils" ∈ Demo.shop_imports
     ∧ is_standard_library Demo.host Demo.shop
         (pyenv (Demo.start Demo.only_bs4)) "utils" = Returns false).
Proof.
  destruct (third_party_of_exact Demo.host Demo.shop Demo.shop_imports
              (Demo.start Demo.only_bs4) Demo.shop_third_party)
    as (Hrun & Hkept & _).
  - vm_compute. reflexivity.
  - split; [exact Hrun | apply Hkept].
Defined.

(** On the sample host: the version of an installed distribution. *)
Lemma get_package_version_reads_field_witness :
  get_package_version Demo.host Demo.only_bs4 "beautifulsoup4" = Some "4.12.3".
Proof.
  apply (get_package_version_reads_field Demo.host Demo.only_bs4
           "beautifulsoup4" ["Name: beautifulsoup4"] "4.12.3"
           ("Summary: a package" +:+ NL)).
  - vm_compute. reflexivity.
  - repeat constructor.
  - reflexivity.
  - reflexivity.
Defined.

Lemma get_package_version_clean_witness :
  Py.strip "4.12.3" = "4.12.3"
  ∧ no_line_break "4.12.3" = true
  ∧ one_line "4.12.3" = true.
Proof.
  apply (get_package_version_clean Demo.host Demo.only_bs4 "beautifulsoup4").
  vm_compute. reflexivity.
Defined.

(** On the sample project: the specifier of [bs4]. *)
Lemma get_package_info_specifier_witness :
  base_package (get_package_info Demo.host Demo.shop Demo.only_bs4 "bs4")
  = package_of Demo.shop "bs4"
  ∧ is_missing Demo.host Demo.only_bs4
      (get_package_info Demo.host Demo.shop Demo.only_bs4 "bs4")
    = negb (is_installed Demo.host Demo.shop Demo.only_bs4 "bs4").
Proof.
  destruct (get_package_info_specifier Demo.host Demo.shop Demo.only_bs4 "bs4")
    as (Hbase & Hmissing & _).
  - vm_compute. reflexivity.
  - split; [exact Hbase | exact Hmissing].
Defined.

(** On the sample project: a successful generation. *)
Lemma generate_requirements_frame_witness :
  pyenv (generate_requirements Demo.host Demo.shop None
           (Demo.start Demo.only_bs4)).2
  = pyenv (Demo.start Demo.only_bs4).
Proof.
  destruct (generate_requirements_frame Demo.host Demo.shop None
              (Demo.start Demo.only_bs4) (Returns true)
              (generate_requirements Demo.host Demo.shop None
                 (Demo.start Demo.only_bs4)).2)
    as (Henv & _).
  - vm_compute. reflexivity.
  - exact Henv.
Defined.


Lemma generate_requirements_lines_witness :
  files (generate_requirements Demo.host Demo.shop None
           (Demo.start Demo.only_bs4)).2
  !! "/home/u/shop/requirements.txt"
  = Some (TextFile Cases.shop_manifest)
  ∧ ∃ third_party modules,
      value_of (third_party_of Demo.host Demo.shop
                  (detected_imports Demo.host Demo.shop))
               (Demo.start Demo.only_bs4)
      = Returns third_party
      ∧ modules ≡ₚ elements third_party
      ∧ Sorted String.le modules
      ∧ Cases.shop_manifest
        = unlines
            (header_lines Demo.host Demo.shop
               (package_of Demo.shop
                  <$> filter (λ m, is_installed Demo.host Demo.shop
                                     Demo.only_bs4 m = false)
                             modules)
             ++ (get_package_info Demo.host Demo.shop Demo.only_bs4
                   <$> modules)).
Proof.
  assert (files (generate_requirements Demo.host Demo.shop None
                   (Demo.start Demo.only_bs4)).2
          !! "/home/u/shop/requirements.txt"
          = Some (TextFile Cases.shop_manifest)) as Htext
    by (vm_compute; reflexivity).
  split; [exact Htext|].
  destruct (generate_requirements_lines Demo.host Demo.shop None
              (Demo.start Demo.only_bs4)
              (generate_requirements Demo.host Demo.shop None
                 (Demo.start Demo.only_bs4)).2)
    as (third_party & modules & Htp & Hperm & Hsorted & Hfile).
  - vm_compute. reflexivity.
  - exists third_party, modules. split; [exact Htp|].
    split; [exact Hperm|]. split; [exact Hsorted|].
    change (default (requirements_file Demo.shop) None)
      with "/home/u/shop/requirements.txt" in Hfile.
    rewrite Htext in Hfile. exact (text_file_inj _ _ Hfile).
Defined.

(** On the sample manifest: the entry with a constraint and a comment. *)
Lemma manifest_packages_clean_witness :
  "requests>=2.0" ≠ ""
  ∧ Py.strip "requests>=2.0" = "requests>=2.0"
  ∧ all_chars (λ c, negb (Ascii.eqb c "#") && negb (Ascii.eqb c Py.LF)
                    && negb (Ascii.eqb c Py.CR)) "requests>=2.0" = true.
Proof.
  apply (manifest_packages_clean Cases.manifest).
  assert (manifest_packages (Py.readlines Cases.manifest)
          = ["requests>=2.0"; "nonexistent-package-xyz"; "beautifulsoup4"])
    as -> by (vm_compute; reflexivity).
  left.
Defined.

(** On the sample project: the manifest read back. *)
Lemma generate_then_read_witness :
  ∃ third_party content,
    value_of (third_party_of Demo.host (init "/home/u/shop" "requirements.txt")
                (detected_imports Demo.host
                   (init "/home/u/shop" "requirements.txt")))
             (Demo.start Demo.only_bs4)
    = Returns third_party
    ∧ files (generate_requirements Demo.host Demo.shop None
               (Demo.start Demo.only_bs4)).2
      !! requirements_file (init "/home/u/shop" "requirements.txt")
      = Some (TextFile content)
    ∧ base_package <$> manifest_packages (Py.readlines content)
      = package_of (init "/home/u/shop" "requirements.txt")
          <$> Py.sorted (set_order Demo.host third_party).
Proof.
  apply (generate_then_read Demo.host "/home/u/shop" "requirements.txt"
           (Demo.start Demo.only_bs4)).
  - apply demo_parser_sound.
  - reflexivity.
  - vm_compute. reflexivity.
Defined.

Lemma generate_then_missing_witness :
  ∃ third_party content,
    value_of (third_party_of Demo.host (init "/home/u/shop" "requirements.txt")
                (detected_imports Demo.host
                   (init "/home/u/shop" "requirements.txt")))
             (Demo.start Demo.only_bs4)
    = Returns third_party
    ∧ files (generate_requirements Demo.host Demo.shop None
               (Demo.start Demo.only_bs4)).2
      !! requirements_file (init "/home/u/shop" "requirements.txt")
      = Some (TextFile content)
    ∧ missing_of Demo.host
        (pyenv (generate_requirements Demo.host Demo.shop None
                  (Demo.start Demo.only_bs4)).2) content
      = not_installed_of Demo.host (init "/home/u/shop" "requirements.txt")
          (pyenv (Demo.start Demo.only_bs4)) third_party
    ∧ (missing_of Demo.host
         (pyenv (generate_requirements Demo.host Demo.shop None
                   (Demo.start Demo.only_bs4)).2) content = [] ↔
       ∀ m, m ∈ third_party →
            is_installed Demo.host (init "/home/u/shop" "requirements.txt")
              (pyenv (Demo.start Demo.only_bs4)) m = true).
Proof.
  apply (generate_then_missing Demo.host "/home/u/shop" "requirements.txt"
           (Demo.start Demo.only_bs4)).
  - apply demo_parser_sound.
  - reflexivity.
  - vm_compute. reflexivity.
Defined.

(** On the sample host: a manifest where an installed distribution has a
    constraint and a comment, and another package is not installed;
    automatic installation disabled. *)
Lemma check_and_install_dependencies_verdict_witness :
  manifest_entries Cases.pinned
  = ["beautifulsoup4>=4.0"; "nonexistent-package-xyz"]
  ∧ missing_entries Demo.host Demo.only_bs4 Cases.pinned
    = ["nonexistent-package-xyz"]
  ∧ ∃ w',
      check_and_install_dependencies Demo.host Demo.shop false
        (Demo.with_manifest Cases.pinned Demo.only_bs4)
      = (Returns false, w')
      ∧ last (console w') = Some "pip install nonexistent-package-xyz".
Proof.
  split; [vm_compute; reflexivity|]. split; [vm_compute; reflexivity|].
  destruct (check_and_install_dependencies_verdict Demo.host Demo.shop false
              (Demo.with_manifest Cases.pinned Demo.only_bs4) Cases.pinned)
    as (r & w' & Hrun & _ & _ & Hmanual & _).
  - vm_compute. reflexivity.
  - destruct Hmanual as (-> & _ & Hlast).
    + vm_compute. discriminate.
    + reflexivity.
    + exists w'. split; [exact Hrun | exact Hlast].
Defined.

(** On the sample manifest: two entries are missing, and [pip] knows one
    of them. *)
Lemma check_and_install_dependencies_installs_witness :
  ∃ b out,
    check_and_install_dependencies Demo.host Demo.shop true
      (Demo.with_manifest Cases.manifest Demo.only_bs4)
    = (Returns b,
       World (console (Demo.with_manifest Cases.manifest Demo.only_bs4) ++ out)
             (files (Demo.with_manifest Cases.manifest Demo.only_bs4))
             (run_pip (pip_install Demo.host)
                (missing_of Demo.host
                   (pyenv (Demo.with_manifest Cases.manifest Demo.only_bs4))
                   Cases.manifest)
                (pyenv (Demo.with_manifest Cases.manifest Demo.only_bs4))).2).
Proof.
  apply (check_and_install_dependencies_installs Demo.host Demo.shop
           (Demo.with_manifest Cases.manifest Demo.only_bs4) Cases.manifest).
  vm_compute. reflexivity.
Defined.

(** On the sample project, with a directory in the place of the
    manifest. *)
Lemma unreadable_manifest_reported_witness :
  value_of (check_and_install_dependencies Demo.host Demo.shop true)
           (Cases.locked [])
  = Returns false
  ∧ value_of (update_dependencies Demo.host Demo.shop) (Cases.locked [])
    = Returns false.
Proof.
  destruct (unreadable_manifest_reported Demo.host Demo.shop true
              (Cases.locked []) Cases.is_a_directory)
    as [Hcheck Hupdate].
  - vm_compute. reflexivity.
  - unfold value_of. rewrite Hcheck, Hupdate. split; reflexivity.
Defined.

(** On the sample manifest: the user answers [n]; one upgrade fails. *)
Lemma update_dependencies_declined_witness :
  ∃ out,
    update_dependencies Demo.host Demo.shop
      (Demo.with_manifest Cases.manifest Demo.only_bs4)
    = (Returns true,
       World (console (Demo.with_manifest Cases.manifest Demo.only_bs4) ++ out)
             (files (Demo.with_manifest Cases.manifest Demo.only_bs4))
             [("beautifulsoup4", "1.0"); ("requests", "1.0");
              ("beautifulsoup4", "4.12.3")]).
Proof.
  apply (update_dependencies_declined Demo.host Demo.shop
           (Demo.with_manifest Cases.manifest Demo.only_bs4)
           Cases.manifest "n").
  - vm_compute. reflexivity.
  - reflexivity.
  - apply (bool_decide_eq_false_1 (Py.lower "n" ∈ ["y"; "yes"])). reflexivity.
  - vm_compute. reflexivity.
Defined.

(** On the sample manifest: the user answers [Yes]. *)
Lemma update_dependencies_accepted_witness :
  ∃ out,
    update_dependencies Cases.eager Demo.shop
      (Demo.with_manifest Cases.manifest Demo.only_bs4)
    = match generate_requirements Cases.eager Demo.shop None
              (World
                 (console (Demo.with_manifest Cases.manifest Demo.only_bs4)
                  ++ out)
                 (files (Demo.with_manifest Cases.manifest Demo.only_bs4))
                 [("beautifulsoup4", "1.0"); ("requests", "1.0");
                  ("beautifulsoup4", "4.12.3")]) with
      | (Returns b, w') => (Returns b, w')
      | (Raises e, w') =>
          (Returns false,
           printed w' ["Error updating dependencies: " +:+ exc_str e])
      end.
Proof.
  apply (update_dependencies_accepted Cases.eager Demo.shop
           (Demo.with_manifest Cases.manifest Demo.only_bs4)
           Cases.manifest "Yes").
  - vm_compute. reflexivity.
  - vm_compute. discriminate.
  - reflexivity.
  - apply (bool_decide_eq_true_1 (Py.lower "Yes" ∈ ["y"; "yes"])). reflexivity.
  - vm_compute. reflexivity.
Defined.

(** On the sample project: [--check] alone. *)
Lemma main_without_generate_witness :
  ∃ w',
    main Demo.host Cases.abspath Cases.help Cases.check_only
      (Demo.with_manifest Cases.manifest Demo.only_bs4)
    = (Returns (), w')
    ∧ files w' = files (Demo.with_manifest Cases.manifest Demo.only_bs4).
Proof.
  destruct (main_without_generate Demo.host Cases.abspath Cases.help
              Cases.check_only
              (Demo.with_manifest Cases.manifest Demo.only_bs4))
    as (w' & Hrun & Hfiles & _).
  - reflexivity.
  - exists w'. split; [exact Hrun|]. apply Hfiles. reflexivity.
Defined.


